(** * The WebSocket room manager of [app/websocket_manager.py]

    A shallow embedding of [WebSocketManager]: its three in-memory
    dictionaries, the tables of [app/models.py] it reads and writes, the
    Socket.IO calls it makes, and every handler the statements below talk
    about.  Python exceptions are kept: a handler body is a computation that
    can raise, and [try_except] is the [try: ... except Exception] of the
    source.

    Conventions.
    - [active_connections] is an insertion-ordered dictionary (an
      association list), because two methods iterate over it and stop at the
      first match; [room_users] and [user_rooms] are finite maps to finite
      sets.
    - A table is the list of its committed rows; [.first()] is the first
      match in that list, [order_by] a sort of it.
    - Times are seconds on the UTC clock.  One run of a handler is an
      instant: every [utcnow()] in it reads the same time and every
      [commit()] in it meets the same store, up or down ([Env]).
    - The payload of an event is a JSON object with string values.
    - A Python [str], a sequence of Unicode code points, is held as the
      string of the bytes of its UTF-8 encoding (what a string literal of
      this file is); [strip_encode] ties [strip] to the code points.
    - A Python [set] is iterated in the order of [elements]. *)

From Stdlib Require Import ZArith NArith Ascii String List.
From stdpp Require Import gmap strings list sorting.

Local Open Scope Z_scope.

(** ** Python helpers *)

Module Py.

(** White space is a matter of code points, the strings hold bytes: the
    methods below look for the UTF-8 encodings of the white space
    characters at the two ends of the bytes. *)

(** The code points [c] with [chr(c).isspace()]. *)
Definition whitespace : list N :=
  [9; 10; 11; 12; 13; 28; 29; 30; 31; 32; 133; 160; 5760;
   8192; 8193; 8194; 8195; 8196; 8197; 8198; 8199; 8200; 8201; 8202;
   8232; 8233; 8239; 8287; 12288]%N.

Definition is_space (c : N) : bool := existsb (N.eqb c) whitespace.

(** The UTF-8 bytes of the code point [c]: [chr(c).encode('utf-8')], and
    three bytes in the same way for a surrogate, which a [str] may hold. *)
Definition utf8 (c : N) : list ascii :=
  (if c <? 128 then [ascii_of_N c]
   else if c <? 2048 then
     [ascii_of_N (192 + c / 64); ascii_of_N (128 + c mod 64)]
   else if c <? 65536 then
     [ascii_of_N (224 + c / 4096); ascii_of_N (128 + (c / 64) mod 64);
      ascii_of_N (128 + c mod 64)]
   else
     [ascii_of_N (240 + c / 262144); ascii_of_N (128 + (c / 4096) mod 64);
      ascii_of_N (128 + (c / 64) mod 64); ascii_of_N (128 + c mod 64)])%N.

(** [l] without the prefix [w], if it starts with [w]. *)
Fixpoint without_prefix (w l : list ascii) : option (list ascii) :=
  match w, l with
  | [], _ => Some l
  | a :: w', b :: l' => if Ascii.eqb a b then without_prefix w' l' else None
  | _ :: _, [] => None
  end.

Definition without_suffix (w l : list ascii) : option (list ascii) :=
  reverse <$> without_prefix (reverse w) (reverse l).

(** The bytes without the white space character they start with, or end
    with, if there is one. *)
Definition drop_space_left (l : list ascii) : option (list ascii) :=
  head (omap (fun c => without_prefix (utf8 c) l) whitespace).

Definition drop_space_right (l : list ascii) : option (list ascii) :=
  head (omap (fun c => without_suffix (utf8 c) l) whitespace).

(** [while step(l) is not None: l = step(l)]; every step takes a byte off,
    so as many rounds as there are bytes are enough. *)
Fixpoint repeatedly (step : list ascii → option (list ascii)) (rounds : nat)
    (l : list ascii) : list ascii :=
  match rounds with
  | O => l
  | S n => match step l with
           | Some l' => repeatedly step n l'
           | None => l
           end
  end.

Definition lstrip_bytes (l : list ascii) : list ascii :=
  repeatedly drop_space_left (length l) l.

Definition rstrip_bytes (l : list ascii) : list ascii :=
  repeatedly drop_space_right (length l) l.

(** [s.lstrip()], [s.rstrip()] and [s.strip()] *)
Definition lstrip (s : string) : string :=
  string_of_list_ascii (lstrip_bytes (list_ascii_of_string s)).

Definition rstrip (s : string) : string :=
  string_of_list_ascii (rstrip_bytes (list_ascii_of_string s)).

Definition strip (s : string) : string := rstrip (lstrip s).

#[global] Arguments lstrip : simpl never.
#[global] Arguments rstrip : simpl never.
#[global] Arguments strip : simpl never.

(** The string of a sequence of code points. *)
Definition encode (x : list N) : string :=
  string_of_list_ascii (concat (map utf8 x)).

(** [x.strip()] on the code points themselves: what the functions above
    compute on the encoding. *)
Fixpoint lstrip_points (x : list N) : list N :=
  match x with
  | c :: x' => if is_space c then lstrip_points x' else x
  | [] => []
  end.

Definition strip_points (x : list N) : list N :=
  reverse (lstrip_points (reverse (lstrip_points x))).

(** A Unicode code point. *)
Definition code_point (c : N) : Prop := (c < 1114112)%N.

(** A continuation byte of UTF-8, and the number of bytes a first byte
    announces. *)
Definition continuation (b : ascii) : bool :=
  ((128 <=? N_of_ascii b) && (N_of_ascii b <? 192))%N.

Definition announced (b : ascii) : nat :=
  if (N_of_ascii b <? 128)%N then 1%nat
  else if (N_of_ascii b <? 224)%N then 2%nat
  else if (N_of_ascii b <? 240)%N then 3%nat else 4%nat.

(** The code point of an encoding. *)
Definition decode1 (l : list ascii) : N :=
  match map N_of_ascii l with
  | [a] => a
  | [a; b] => (a - 192) * 64 + (b - 128)
  | [a; b; c] => (a - 224) * 4096 + (b - 128) * 64 + (c - 128)
  | [a; b; c; d] =>
      (a - 240) * 262144 + (b - 128) * 4096 + (c - 128) * 64 + (d - 128)
  | _ => 0
  end%N.

(** Truth value of a string: [bool(s)]. *)
Definition str_truthy (s : string) : bool :=
  match s with EmptyString => false | _ => true end.

(** Truth value of [d.get(k)]: [None] and [''] are false. *)
Definition truthy (o : option string) : bool :=
  match o with Some s => str_truthy s | None => false end.

(** An insertion-ordered [dict] with string keys: iteration follows the
    order in which the keys were first inserted. *)
Section Dict.
Context {V : Type}.

Fixpoint dict_get (k : string) (d : list (string * V)) : option V :=
  match d with
  | [] => None
  | (k', v) :: d' => if String.eqb k k' then Some v else dict_get k d'
  end.

Definition dict_mem (k : string) (d : list (string * V)) : bool :=
  match dict_get k d with Some _ => true | None => false end.

(** [d[k] = v]: an existing key keeps its position, a new key goes last. *)
Fixpoint dict_set (k : string) (v : V) (d : list (string * V))
  : list (string * V) :=
  match d with
  | [] => [(k, v)]
  | (k', v') :: d' =>
      if String.eqb k k' then (k, v) :: d' else (k', v') :: dict_set k v d'
  end.

(** [d[k]] changed in place by a method of the value, as in
    [d[k]['rooms'].add(x)]; the key is present. *)
Fixpoint dict_alter (f : V → V) (k : string) (d : list (string * V))
  : list (string * V) :=
  match d with
  | [] => []
  | (k', v') :: d' =>
      if String.eqb k k' then (k', f v') :: d' else (k', v') :: dict_alter f k d'
  end.

(** [del d[k]] for a key that is present. *)
Fixpoint dict_del (k : string) (d : list (string * V)) : list (string * V) :=
  match d with
  | [] => []
  | (k', v') :: d' =>
      if String.eqb k k' then d' else (k', v') :: dict_del k d'
  end.
End Dict.

End Py.
Import Py.

(** ** The tables of [app/models.py] *)

Module models.

Inductive UserStatus := ACTIVE | INACTIVE | SUSPENDED.

Record User := {
  u_id : string;
  u_username : string;
  u_status : UserStatus;
  u_avatar_url : option string }.

Definition is_active_user (u : User) : bool :=
  match u_status u with ACTIVE => true | _ => false end.

Record UserSession := {
  us_user_id : string;
  us_session_token : string;
  us_expires_at : Z;
  us_is_active : bool }.

(** [datetime.utcnow() > self.expires_at] *)
Definition is_expired (now : Z) (us : UserSession) : bool :=
  us_expires_at us <? now.

Record ChatRoom := {
  cr_id : string;
  cr_name : string;
  cr_description : string;
  cr_is_public : bool;
  cr_is_active : bool }.

Record UserRoom := {
  ur_id : string;
  ur_user_id : string;
  ur_room_id : string;
  ur_joined_at : Z;
  ur_left_at : option Z;
  ur_is_active : bool;
  ur_can_send_messages : bool;
  ur_is_moderator : bool }.

Record ChatMessage := {
  cm_id : string;
  cm_user_id : string;
  cm_room_id : string;
  cm_content : string;
  cm_message_type : string;
  cm_created_at : Z;
  cm_is_edited : bool;
  cm_is_deleted : bool }.

Record SystemLog := {
  sl_level : string;
  sl_category : string;
  sl_message : string;
  sl_user_id : option string;
  sl_ip_address : string }.

(** The committed rows of the store, each table in the order its queries
    return them. *)
Record DB := {
  users : list User;
  user_sessions : list UserSession;
  chat_rooms : list ChatRoom;
  user_room_rows : list UserRoom;
  chat_messages : list ChatMessage;
  system_logs : list SystemLog }.

(** [User.query.get(id)] *)
Definition get_user (d : DB) (id : string) : option User :=
  find (fun u => String.eqb (u_id u) id) (users d).

(** [ChatRoom.query.get(id)] *)
Definition get_room (d : DB) (id : string) : option ChatRoom :=
  find (fun r => String.eqb (cr_id r) id) (chat_rooms d).

(** [UserRoom.query.filter_by(user_id=u, room_id=r).first()] *)
Definition membership_of (u r : string) (m : UserRoom) : bool :=
  String.eqb (ur_user_id m) u && String.eqb (ur_room_id m) r.

Definition first_membership (d : DB) (u r : string) : option UserRoom :=
  find (membership_of u r) (user_room_rows d).

(** [UserRoom.query.filter_by(user_id=u, room_id=r, is_active=True).first()] *)
Definition first_active_membership (d : DB) (u r : string) : option UserRoom :=
  find (fun m => membership_of u r m && ur_is_active m) (user_room_rows d).

(** [UserSession.query.filter_by(session_token=t, is_active=True).first()] *)
Definition first_active_session (d : DB) (t : string) : option UserSession :=
  find (fun s => String.eqb (us_session_token s) t && us_is_active s)
       (user_sessions d).

(** Truth value of what [.first()] or [.get()] returned. *)
Definition found {A} (o : option A) : bool :=
  match o with Some _ => true | None => false end.

(** What [ChatMessage.to_dict] returns. *)
Record message_view := {
  mv_id : string;
  mv_user_id : string;
  mv_room_id : string;
  mv_content : string;
  mv_message_type : string;
  mv_created_at : Z;
  mv_is_edited : bool;
  mv_user : option (string * option string) }.

Definition to_dict (d : DB) (m : ChatMessage) : message_view :=
  {| mv_id := cm_id m;
     mv_user_id := cm_user_id m;
     mv_room_id := cm_room_id m;
     mv_content := cm_content m;
     mv_message_type := cm_message_type m;
     mv_created_at := cm_created_at m;
     mv_is_edited := cm_is_edited m;
     mv_user := match get_user d (cm_user_id m) with
                | Some u => Some (u_username u, u_avatar_url u)
                | None => None
                end |}.

End models.
Import models.

(** ** The manager's state and what it sends *)

(** An entry of [active_connections]. *)
Record Conn := {
  user_id : string;
  username : string;
  rooms : gset string;
  connected_at : Z;
  ip_address : string }.

(** A row of the [available_rooms] payload. *)
Record room_summary := {
  rs_id : string;
  rs_name : string;
  rs_description : string;
  rs_is_public : bool;
  rs_user_count : nat }.

(** The Socket.IO events the manager emits, by event name. *)
Inductive event :=
| ev_connected (uid uname session_id : string) (timestamp : Z)
| ev_error (message : string)
| ev_available_rooms (summaries : list room_summary)
| ev_user_joined (uid uname room_id : string) (timestamp : Z)
| ev_room_joined (room_id room_name : string) (user_count : nat) (timestamp : Z)
| ev_recent_messages (room_id : string) (messages : list message_view)
| ev_user_left (uid uname room_id : string) (timestamp : Z)
| ev_room_left (room_id : string) (timestamp : Z)
| ev_new_message (id uid uname content type : string) (timestamp : Z)
                 (room_id : string).

(** Where an event goes: [emit(...)] inside a handler answers the session of
    the current request; [self.socketio.emit(..., room=x)] goes to the
    Socket.IO room [x] (a session id names the room of that one session). *)
Inductive target := Reply (session_id : string) | Room (name : string).

Inductive level := INFO | WARNING | ERROR.

Inductive exn :=
| RuntimeError   (* Flask: working outside of a request context *)
| KeyError
| StoreError.    (* the commit failed *)

(** The [WebSocketManager] object together with the Socket.IO server, the
    store and the log it talks to. *)
Record World := {
  active_connections : list (string * Conn);
  room_users : gmap string (gset string);
  user_rooms : gmap string (gset string);
  (* Socket.IO server: members of each room, sessions the server closed *)
  sio_rooms : gmap string (gset string);
  sio_disconnected : list string;
  db : DB;
  outbox : list (target * event);
  logger : list (level * string) }.

(** The Flask request a handler runs in. *)
Record Request := {
  sid : string;
  remote_addr : string }.

(** What the surroundings decide during one run of a handler: the clock,
    whether the store accepts a commit, and the next [uuid4()]. *)
Record Env := {
  utcnow : Z;
  commit_ok : bool;
  uuid4 : string }.

Definition set_active_connections (f : list (string * Conn) → list (string * Conn))
    (w : World) : World :=
  {| active_connections := f (active_connections w);
     room_users := room_users w; user_rooms := user_rooms w;
     sio_rooms := sio_rooms w; sio_disconnected := sio_disconnected w;
     db := db w; outbox := outbox w; logger := logger w |}.

Definition set_room_users (f : gmap string (gset string) → gmap string (gset string))
    (w : World) : World :=
  {| active_connections := active_connections w;
     room_users := f (room_users w); user_rooms := user_rooms w;
     sio_rooms := sio_rooms w; sio_disconnected := sio_disconnected w;
     db := db w; outbox := outbox w; logger := logger w |}.

Definition set_user_rooms (f : gmap string (gset string) → gmap string (gset string))
    (w : World) : World :=
  {| active_connections := active_connections w;
     room_users := room_users w; user_rooms := f (user_rooms w);
     sio_rooms := sio_rooms w; sio_disconnected := sio_disconnected w;
     db := db w; outbox := outbox w; logger := logger w |}.

Definition set_sio_rooms (f : gmap string (gset string) → gmap string (gset string))
    (w : World) : World :=
  {| active_connections := active_connections w;
     room_users := room_users w; user_rooms := user_rooms w;
     sio_rooms := f (sio_rooms w); sio_disconnected := sio_disconnected w;
     db := db w; outbox := outbox w; logger := logger w |}.

Definition set_sio_disconnected (f : list string → list string) (w : World) : World :=
  {| active_connections := active_connections w;
     room_users := room_users w; user_rooms := user_rooms w;
     sio_rooms := sio_rooms w; sio_disconnected := f (sio_disconnected w);
     db := db w; outbox := outbox w; logger := logger w |}.

Definition set_db (f : DB → DB) (w : World) : World :=
  {| active_connections := active_connections w;
     room_users := room_users w; user_rooms := user_rooms w;
     sio_rooms := sio_rooms w; sio_disconnected := sio_disconnected w;
     db := f (db w); outbox := outbox w; logger := logger w |}.

Definition set_outbox (f : list (target * event) → list (target * event))
    (w : World) : World :=
  {| active_connections := active_connections w;
     room_users := room_users w; user_rooms := user_rooms w;
     sio_rooms := sio_rooms w; sio_disconnected := sio_disconnected w;
     db := db w; outbox := f (outbox w); logger := logger w |}.

Definition set_logger (f : list (level * string) → list (level * string))
    (w : World) : World :=
  {| active_connections := active_connections w;
     room_users := room_users w; user_rooms := user_rooms w;
     sio_rooms := sio_rooms w; sio_disconnected := sio_disconnected w;
     db := db w; outbox := outbox w; logger := f (logger w) |}.

(** ** Computations that change the world and may raise *)

Inductive outcome (A : Type) :=
| Done (a : A)
| Raised (x : exn).
Arguments Done {A} a.
Arguments Raised {A} x.

Definition M (A : Type) : Type := World → outcome A * World.

Definition ret {A} (a : A) : M A := fun w => (Done a, w).

Definition bind {A B} (m : M A) (k : A → M B) : M B :=
  fun w => match m w with
           | (Done a, w') => k a w'
           | (Raised x, w') => (Raised x, w')
           end.

Definition raise {A} (x : exn) : M A := fun w => (Raised x, w).

(** [try: body except Exception: handler] -- the world keeps every change
    the body made before it raised. *)
Definition try_except {A} (body : M A) (handler : exn → M A) : M A :=
  fun w => match body w with
           | (Done a, w') => (Done a, w')
           | (Raised x, w') => handler x w'
           end.

Definition gets {A} (f : World → A) : M A := fun w => (Done (f w), w).
Definition modify (f : World → World) : M unit := fun w => (Done tt, f w).

Declare Scope py_scope.
Delimit Scope py_scope with py.
Notation "'let*' x ':=' m 'in' k" := (bind m (fun x => k))
  (at level 10, x name, m at level 100, k at level 200) : py_scope.
Notation "m '>>>' k" := (bind m (fun _ => k))
  (at level 100, k at level 200, right associativity) : py_scope.
Local Open Scope py_scope.

(** [for x in l: body(x)] *)
Fixpoint for_each {A} (l : list A) (body : A → M unit) : M unit :=
  match l with
  | [] => ret tt
  | x :: l' => body x >>> for_each l' body
  end.

(** The world a computation ends in, and what it returned. *)
Definition exec {A} (m : M A) (w : World) : World := snd (m w).
Definition result {A} (m : M A) (w : World) : outcome A := fst (m w).

(** ** Flask-SocketIO, the logger and the store *)

(** [emit(name, payload)] inside a handler: to the session of the request. *)
Definition emit (request : Request) (ev : event) : M unit :=
  modify (set_outbox (fun o => o ++ [(Reply (sid request), ev)])).

(** [self.socketio.emit(name, payload, room=room)] *)
Definition socketio_emit (ev : event) (room : string) : M unit :=
  modify (set_outbox (fun o => o ++ [(Room room, ev)])).

(** [disconnect()]: the server closes the session of the request. *)
Definition disconnect (request : Request) : M unit :=
  modify (set_sio_disconnected (fun l => l ++ [sid request])).

(** [m[k].add(x)]; [None] is the [KeyError] of a missing [k]. *)
Definition add_to (k x : string) (m : gmap string (gset string))
  : option (gmap string (gset string)) :=
  match m !! k with
  | Some s => Some (<[k := s ∪ {[x]}]> m)
  | None => None
  end.

(** [if k in m: m[k].discard(x)] *)
Definition discard_from (k x : string) (m : gmap string (gset string))
  : gmap string (gset string) :=
  match m !! k with
  | Some s => <[k := s ∖ {[x]}]> m
  | None => m
  end.

(** [if k not in m: m[k] = set()] *)
Definition setdefault_empty (k : string) (m : gmap string (gset string))
  : gmap string (gset string) :=
  match m !! k with
  | Some _ => m
  | None => <[k := ∅]> m
  end.

(** [join_room(room)] and [leave_room(room)] of Flask-SocketIO take the
    session from [flask.request]: [ctx] is the request the caller runs in,
    and there is none in a background task, where the call raises. *)
Definition join_room (ctx : option Request) (room : string) : M unit :=
  match ctx with
  | None => raise RuntimeError
  | Some request =>
      modify (set_sio_rooms (fun m =>
        <[room := default ∅ (m !! room) ∪ {[sid request]}]> m))
  end.

Definition leave_room (ctx : option Request) (room : string) : M unit :=
  match ctx with
  | None => raise RuntimeError
  | Some request => modify (set_sio_rooms (discard_from room (sid request)))
  end.

(** [self.logger.<level>(msg)]; the text keeps the fixed part of the
    message. *)
Definition log (l : level) (msg : string) : M unit :=
  modify (set_logger (fun g => g ++ [(l, msg)])).

Definition with_user_room_rows (f : list UserRoom → list UserRoom) (d : DB) : DB :=
  {| users := users d; user_sessions := user_sessions d;
     chat_rooms := chat_rooms d; user_room_rows := f (user_room_rows d);
     chat_messages := chat_messages d; system_logs := system_logs d |}.

Definition with_chat_messages (f : list ChatMessage → list ChatMessage) (d : DB) : DB :=
  {| users := users d; user_sessions := user_sessions d;
     chat_rooms := chat_rooms d; user_room_rows := user_room_rows d;
     chat_messages := f (chat_messages d); system_logs := system_logs d |}.

Definition with_system_logs (f : list SystemLog → list SystemLog) (d : DB) : DB :=
  {| users := users d; user_sessions := user_sessions d;
     chat_rooms := chat_rooms d; user_room_rows := user_room_rows d;
     chat_messages := chat_messages d; system_logs := f (system_logs d) |}.

(** Change the first row that satisfies [p] (the object [.first()] gave). *)
Fixpoint update_first {A} (p : A → bool) (f : A → A) (l : list A) : list A :=
  match l with
  | [] => []
  | x :: l' => if p x then f x :: l' else x :: update_first p f l'
  end.

(** [db.session.commit()] of the changes staged since the last commit:
    either all of them reach the store, or the commit raises and none
    does. *)
Definition commit (e : Env) (staged : DB → DB) : M unit :=
  if commit_ok e then modify (set_db staged) else raise StoreError.

(** [auth.log_security_event] *)
Definition log_security_event (e : Env) (request : Request)
    (lvl message : string) (uid : option string) : M unit :=
  try_except
    (commit e (with_system_logs (fun l => l ++
       [{| sl_level := lvl; sl_category := "auth"; sl_message := message;
           sl_user_id := uid; sl_ip_address := remote_addr request |}])))
    (fun _ => log ERROR "Failed to log security event").

(** ** [WebSocketManager] *)

Definition TTL_SECONDS : Z := 86400.

(** The loop [for session_id, conn_info in self.active_connections.items():
    if conn_info['user_id'] == user_id: user_session = session_id; break]. *)
Fixpoint find_user_session (uid : string) (conns : list (string * Conn))
  : option string :=
  match conns with
  | [] => None
  | (session_id, conn_info) :: rest =>
      if String.eqb (user_id conn_info) uid then Some session_id
      else find_user_session uid rest
  end.

Definition _verify_session_token (e : Env) (token : string) : M (option User) :=
  try_except
    (let* d := gets db in
     match first_active_session d token with
     | None => ret None
     | Some user_session =>
         if is_expired (utcnow e) user_session then ret None
         else match get_user d (us_user_id user_session) with
              | None => ret None
              | Some user =>
                  if is_active_user user then ret (Some user) else ret None
              end
     end)
    (fun _ => log ERROR "Token verification error" >>> ret None).

Definition has_active_membership (d : DB) (uid room_id : string) : bool :=
  existsb (fun m => membership_of uid room_id m && ur_is_active m)
          (user_room_rows d).

Definition summary_of (w : World) (room : ChatRoom) : room_summary :=
  {| rs_id := cr_id room;
     rs_name := cr_name room;
     rs_description := cr_description room;
     rs_is_public := cr_is_public room;
     rs_user_count := size (default ∅ (room_users w !! cr_id room)) |}.

Definition _send_available_rooms (uid : string) : M unit :=
  try_except
    (let* d := gets db in
     let public_rooms :=
       List.filter (fun r => cr_is_public r && cr_is_active r) (chat_rooms d) in
     let user_private_rooms :=
       List.filter (fun r => has_active_membership d uid (cr_id r)
                             && negb (cr_is_public r) && cr_is_active r)
                   (chat_rooms d) in
     let* rooms_data :=
       gets (fun w => map (summary_of w) (public_rooms ++ user_private_rooms)) in
     let* user_session := gets (fun w => find_user_session uid (active_connections w)) in
     if truthy user_session
     then socketio_emit (ev_available_rooms rooms_data) (default "" user_session)
     else ret tt)
    (fun _ => log ERROR "Send available rooms error").

(** [order_by(ChatMessage.created_at.desc())] *)
Definition newer_first (m1 m2 : ChatMessage) : Prop :=
  cm_created_at m2 ≤ cm_created_at m1.

#[global] Instance newer_first_dec : RelDecision newer_first :=
  fun m1 m2 => Z_le_dec (cm_created_at m2) (cm_created_at m1).

Definition _send_recent_messages (room_id uid : string) (limit : nat) : M unit :=
  try_except
    (let* d := gets db in
     let messages :=
       take limit
         (merge_sort newer_first
            (List.filter (fun m => String.eqb (cm_room_id m) room_id
                                   && negb (cm_is_deleted m))
                         (chat_messages d))) in
     let messages_data := map (to_dict d) (reverse messages) in
     let* user_session := gets (fun w => find_user_session uid (active_connections w)) in
     if truthy user_session
     then socketio_emit (ev_recent_messages room_id messages_data)
                        (default "" user_session)
     else ret tt)
    (fun _ => log ERROR "Send recent messages error").

Definition with_rooms (f : gset string → gset string) (c : Conn) : Conn :=
  {| user_id := user_id c; username := username c; rooms := f (rooms c);
     connected_at := connected_at c; ip_address := ip_address c |}.

(** The row a leave writes: [is_active = False], [left_at = utcnow()]. *)
Definition mark_left (now : Z) (m : UserRoom) : UserRoom :=
  {| ur_id := ur_id m; ur_user_id := ur_user_id m; ur_room_id := ur_room_id m;
     ur_joined_at := ur_joined_at m; ur_left_at := Some now;
     ur_is_active := false;
     ur_can_send_messages := ur_can_send_messages m;
     ur_is_moderator := ur_is_moderator m |}.

(** The row a join writes back: [is_active = True], [left_at = None]. *)
Definition mark_joined (m : UserRoom) : UserRoom :=
  {| ur_id := ur_id m; ur_user_id := ur_user_id m; ur_room_id := ur_room_id m;
     ur_joined_at := ur_joined_at m; ur_left_at := None;
     ur_is_active := true;
     ur_can_send_messages := ur_can_send_messages m;
     ur_is_moderator := ur_is_moderator m |}.

(** [UserRoom(user_id=u, room_id=r, is_active=True)] with the column
    defaults of the model. *)
Definition new_user_room (e : Env) (uid room_id : string) : UserRoom :=
  {| ur_id := uuid4 e; ur_user_id := uid; ur_room_id := room_id;
     ur_joined_at := utcnow e; ur_left_at := None; ur_is_active := true;
     ur_can_send_messages := true; ur_is_moderator := false |}.

(** [self.room_users[room_id].add(user_id)] and
    [self.user_rooms[user_id].add(room_id)] *)
Definition room_users_add (room_id uid : string) : M unit :=
  fun w => match add_to room_id uid (room_users w) with
           | Some m => (Done tt, set_room_users (fun _ => m) w)
           | None => (Raised KeyError, w)
           end.

Definition user_rooms_add (uid room_id : string) : M unit :=
  fun w => match add_to uid room_id (user_rooms w) with
           | Some m => (Done tt, set_user_rooms (fun _ => m) w)
           | None => (Raised KeyError, w)
           end.

(** [ctx] is the request the caller runs in, if any: [leave_room] needs it. *)
Definition _leave_room_internal (ctx : option Request) (e : Env)
    (session_id room_id : string) : M unit :=
  try_except
    (let* conns := gets active_connections in
     match dict_get session_id conns with
     | None => ret tt
     | Some conn_info =>
         let uid := user_id conn_info in
         let uname := username conn_info in
         (* Leave the room *)
         leave_room ctx room_id >>>
         modify (set_active_connections
                   (dict_alter (with_rooms (fun s => s ∖ {[room_id]})) session_id)) >>>
         (* Update tracking *)
         modify (set_room_users (discard_from room_id uid)) >>>
         modify (set_user_rooms (discard_from uid room_id)) >>>
         (* Update database *)
         let* d := gets db in
         (match first_membership d uid room_id with
          | Some _ =>
              commit e (with_user_room_rows
                          (update_first (membership_of uid room_id)
                                        (mark_left (utcnow e))))
          | None => ret tt
          end) >>>
         (* Notify room members *)
         socketio_emit (ev_user_left uid uname room_id (utcnow e)) room_id >>>
         (* Confirm to user *)
         socketio_emit (ev_room_left room_id (utcnow e)) session_id >>>
         log INFO "left room"
     end)
    (fun _ => log ERROR "Leave room internal error").

Definition handle_connect (e : Env) (request : Request)
    (auth : option (gmap string string)) : M bool :=
  try_except
    (match auth ≫= (.!! "token") with
     | None =>
         log WARNING "Unauthenticated connection attempt" >>>
         disconnect request >>>
         ret false
     | Some token =>
         let* verified := _verify_session_token e token in
         match verified with
         | None =>
             log WARNING "Invalid token connection attempt" >>>
             disconnect request >>>
             ret false
         | Some user =>
             let session_id := sid request in
             modify (set_active_connections (dict_set session_id
               {| user_id := u_id user; username := u_username user;
                  rooms := ∅; connected_at := utcnow e;
                  ip_address := remote_addr request |})) >>>
             modify (set_user_rooms (setdefault_empty (u_id user))) >>>
             log_security_event e request "INFO" "WebSocket connection"
                                (Some (u_id user)) >>>
             emit request (ev_connected (u_id user) (u_username user)
                                        session_id (utcnow e)) >>>
             _send_available_rooms (u_id user) >>>
             log INFO "connected via WebSocket" >>>
             ret true
         end
     end)
    (fun _ => log ERROR "Connection error" >>> disconnect request >>> ret false).

Definition handle_disconnect (e : Env) (request : Request) : M unit :=
  try_except
    (let session_id := sid request in
     let* conns := gets active_connections in
     match dict_get session_id conns with
     | Some conn_info =>
         (* Leave all rooms *)
         for_each (elements (rooms conn_info))
                  (fun room_id =>
                     _leave_room_internal (Some request) e session_id room_id) >>>
         (* Remove connection *)
         modify (set_active_connections (dict_del session_id)) >>>
         log_security_event e request "INFO" "WebSocket disconnection"
                            (Some (user_id conn_info)) >>>
         log INFO "disconnected from WebSocket"
     | None => ret tt
     end)
    (fun _ => log ERROR "Disconnection error").

Definition handle_join_room (e : Env) (request : Request)
    (data : gmap string string) : M unit :=
  try_except
    (let session_id := sid request in
     let* conns := gets active_connections in
     match dict_get session_id conns with
     | None => emit request (ev_error "Not authenticated")
     | Some conn_info =>
         let room_id_opt := data !! "room_id" in
         if negb (truthy room_id_opt)
         then emit request (ev_error "Room ID required")
         else
           let room_id := default "" room_id_opt in
           let uid := user_id conn_info in
           (* Verify room exists and user has access *)
           let* d := gets db in
           match get_room d room_id with
           | None => emit request (ev_error "Room not found or inactive")
           | Some room =>
               if negb (cr_is_active room)
               then emit request (ev_error "Room not found or inactive")
               else if negb (cr_is_public room)
                       && negb (found (first_active_membership d uid room_id))
               then emit request (ev_error "Access denied to private room")
               else
                 (* Join the room *)
                 join_room (Some request) room_id >>>
                 modify (set_active_connections
                           (dict_alter (with_rooms (fun s => s ∪ {[room_id]}))
                                       session_id)) >>>
                 (* Update room users tracking *)
                 modify (set_room_users (setdefault_empty room_id)) >>>
                 room_users_add room_id uid >>>
                 user_rooms_add uid room_id >>>
                 (* Update user room record *)
                 let* d := gets db in
                 commit e (match first_membership d uid room_id with
                           | None =>
                               with_user_room_rows
                                 (fun l => l ++ [new_user_room e uid room_id])
                           | Some _ =>
                               with_user_room_rows
                                 (update_first (membership_of uid room_id)
                                               mark_joined)
                           end) >>>
                 (* Notify room members *)
                 let uname := username conn_info in
                 socketio_emit (ev_user_joined uid uname room_id (utcnow e))
                               room_id >>>
                 (* Send room info to user *)
                 let* count :=
                   gets (fun w => size (default ∅ (room_users w !! room_id))) in
                 emit request (ev_room_joined room_id (cr_name room) count
                                              (utcnow e)) >>>
                 (* Send recent messages *)
                 _send_recent_messages room_id uid 50 >>>
                 log INFO "joined room"
           end
     end)
    (fun _ => log ERROR "Join room error" >>>
              emit request (ev_error "Failed to join room")).

Definition handle_leave_room (e : Env) (request : Request)
    (data : gmap string string) : M unit :=
  try_except
    (let session_id := sid request in
     let room_id_opt := data !! "room_id" in
     let* conns := gets active_connections in
     if dict_mem session_id conns && truthy room_id_opt
     then _leave_room_internal (Some request) e session_id
                               (default "" room_id_opt)
     else ret tt)
    (fun _ => log ERROR "Leave room error" >>>
              emit request (ev_error "Failed to leave room")).

Definition handle_send_message (e : Env) (request : Request)
    (data : gmap string string) : M unit :=
  try_except
    (let session_id := sid request in
     let* conns := gets active_connections in
     match dict_get session_id conns with
     | None => emit request (ev_error "Not authenticated")
     | Some conn_info =>
         let room_id_opt := data !! "room_id" in
         let content := strip (default "" (data !! "content")) in
         let message_type := default "text" (data !! "type") in
         if negb (truthy room_id_opt) || negb (str_truthy content)
         then emit request (ev_error "Room ID and content required")
         else
           let room_id := default "" room_id_opt in
           let uid := user_id conn_info in
           let uname := username conn_info in
           (* Verify user is in room *)
           if negb (bool_decide (room_id ∈ rooms conn_info))
           then emit request (ev_error "You are not in this room")
           else
             (* Check user permissions *)
             let* d := gets db in
             match first_active_membership d uid room_id with
             | Some {| ur_can_send_messages := false |} =>
                 emit request
                      (ev_error "You do not have permission to send messages")
             | _ =>
                 (* Create message record *)
                 let message :=
                   {| cm_id := uuid4 e; cm_user_id := uid; cm_room_id := room_id;
                      cm_content := content; cm_message_type := message_type;
                      cm_created_at := utcnow e;
                      cm_is_edited := false; cm_is_deleted := false |} in
                 commit e (with_chat_messages (fun l => l ++ [message])) >>>
                 (* Broadcast message to room *)
                 socketio_emit (ev_new_message (cm_id message) uid uname content
                                               message_type (cm_created_at message)
                                               room_id)
                               room_id >>>
                 log INFO "Message sent"
             end
     end)
    (fun _ => log ERROR "Send message error" >>>
              emit request (ev_error "Failed to send message")).

(** One pass of the [while True] loop of the background task, up to its
    [sleep].  The task runs outside of any request. *)
Definition _cleanup_inactive_connections (e : Env) : M unit :=
  try_except
    (let current_time := utcnow e in
     let* conns := gets active_connections in
     let inactive_sessions :=
       map fst (List.filter
                  (fun '(_, conn_info) =>
                     TTL_SECONDS <? current_time - connected_at conn_info)
                  conns) in
     (* Clean up inactive sessions *)
     for_each inactive_sessions (fun session_id =>
       let* conns := gets active_connections in
       match dict_get session_id conns with
       | Some conn_info =>
           (* Leave all rooms *)
           for_each (elements (rooms conn_info))
                    (fun room_id =>
                       _leave_room_internal None e session_id room_id) >>>
           (* Remove connection *)
           modify (set_active_connections (dict_del session_id)) >>>
           log INFO "Cleaned up inactive connection"
       | None => ret tt
       end))
    (fun _ => log ERROR "Cleanup task error").

(** ** Traces of requests *)

Inductive op :=
| Connect (e : Env) (request : Request) (auth : option (gmap string string))
| Disconnect (e : Env) (request : Request)
| Join (e : Env) (request : Request) (data : gmap string string)
| Leave (e : Env) (request : Request) (data : gmap string string)
| Send (e : Env) (request : Request) (data : gmap string string)
| Sweep (e : Env).

Definition step (w : World) (o : op) : World :=
  match o with
  | Connect e request auth => exec (handle_connect e request auth) w
  | Disconnect e request => exec (handle_disconnect e request) w
  | Join e request data => exec (handle_join_room e request data) w
  | Leave e request data => exec (handle_leave_room e request data) w
  | Send e request data => exec (handle_send_message e request data) w
  | Sweep e => exec (_cleanup_inactive_connections e) w
  end.

Definition run (ops : list op) (w : World) : World := fold_left step ops w.

(** ** What the statements below are about *)

(** The events a computation adds to the outbox. *)
Definition emitted {A} (m : M A) (w : World) : list (target * event) :=
  drop (length (outbox w)) (outbox (exec m w)).

Definition is_new_message (ev : event) : bool :=
  match ev with ev_new_message _ _ _ _ _ _ _ => true | _ => false end.

Definition is_error (ev : event) : bool :=
  match ev with ev_error _ => true | _ => false end.

(** ** A small deployment used in the examples *)

Module Scenario.

Definition alice : User :=
  {| u_id := "u1"; u_username := "alice"; u_status := ACTIVE;
     u_avatar_url := None |}.

Definition bob : User :=
  {| u_id := "u2"; u_username := "bob"; u_status := SUSPENDED;
     u_avatar_url := None |}.

Definition general : ChatRoom :=
  {| cr_id := "general"; cr_name := "General"; cr_description := "";
     cr_is_public := true; cr_is_active := true |}.

Definition archive : ChatRoom :=
  {| cr_id := "archive"; cr_name := "Archive"; cr_description := "";
     cr_is_public := true; cr_is_active := false |}.

Definition store : DB :=
  {| users := [alice; bob];
     user_sessions :=
       [ {| us_user_id := "u1"; us_session_token := "tok-alice";
            us_expires_at := 1000000; us_is_active := true |};
         {| us_user_id := "u1"; us_session_token := "tok-old";
            us_expires_at := 50; us_is_active := true |};
         {| us_user_id := "u2"; us_session_token := "tok-bob";
            us_expires_at := 1000000; us_is_active := true |} ];
     chat_rooms := [general; archive];
     user_room_rows := [];
     chat_messages := [];
     system_logs := [] |}.

(** A freshly started manager. *)
Definition boot : World :=
  {| active_connections := []; room_users := ∅; user_rooms := ∅;
     sio_rooms := ∅; sio_disconnected := [];
     db := store; outbox := []; logger := [] |}.

Definition at_ (t : Z) : Env := {| utcnow := t; commit_ok := true; uuid4 := "row" |}.
Definition store_down (t : Z) : Env :=
  {| utcnow := t; commit_ok := false; uuid4 := "row" |}.

Definition A : Request := {| sid := "A"; remote_addr := "10.0.0.1" |}.
Definition B : Request := {| sid := "B"; remote_addr := "10.0.0.2" |}.

Definition token (t : string) : option (gmap string string) :=
  Some {["token" := t]}.
Definition room (r : string) : gmap string string := {["room_id" := r]}.
Definition message (r c : string) : gmap string string :=
  {["room_id" := r; "content" := c]}.

(** alice connected once, as session [A]. *)
Definition one_session : World :=
  run [Connect (at_ 100) A (token "tok-alice")] boot.

(** alice connected once and in room [general]. *)
Definition one_joined : World :=
  run [Connect (at_ 100) A (token "tok-alice");
       Join (at_ 101) A (room "general")] boot.

(** The same, after room [general] was switched off in the store. *)
Definition general_closed : World :=
  set_db (fun d =>
    {| users := users d; user_sessions := user_sessions d;
       chat_rooms :=
         [ {| cr_id := "general"; cr_name := "General"; cr_description := "";
              cr_is_public := true; cr_is_active := false |}; archive ];
       user_room_rows := user_room_rows d;
       chat_messages := chat_messages d; system_logs := system_logs d |})
    one_joined.



(** alice connected from two devices, only [B] in room [general]. *)
Definition second_device_joined : World :=
  run [Connect (at_ 100) A (token "tok-alice");
       Connect (at_ 100) B (token "tok-alice");
       Join (at_ 102) B (room "general")] boot.

(** alice connected from two devices, both in room [general]. *)
Definition two_devices : World :=
  run [Connect (at_ 100) A (token "tok-alice");
       Connect (at_ 100) B (token "tok-alice");
       Join (at_ 101) A (room "general");
       Join (at_ 102) B (room "general")] boot.

End Scenario.

(** ** Connection attempts that must be turned away *)

(** A session row that cannot authenticate at [now]: it is inactive, or
    expired, or its owner is unknown or not [ACTIVE]. *)
Definition unusable_session (now : Z) (d : DB) (s : UserSession) : bool :=
  negb (us_is_active s)
  || (us_expires_at s <? now)
  || match get_user d (us_user_id s) with
     | Some u => negb (is_active_user u)
     | None => true
     end.

(** The token the client sent is missing, or every session row that carries
    it is unusable (an unknown token is carried by no row). *)
Definition bad_credentials (now : Z) (d : DB)
    (auth : option (gmap string string)) : bool :=
  match auth ≫= (.!! "token") with
  | None => true
  | Some t =>
      forallb (fun s => negb (String.eqb (us_session_token s) t)
                        || unusable_session now d s)
              (user_sessions d)
  end.

(** ** The preconditions of sending *)

Inductive send_error :=
| NotInRoom
| RoomUnavailable
| PermissionDenied
| EmptyMessage.

(** The text of each error; [handle_send_message] has no text for
    [RoomUnavailable], this one is the text [handle_join_room] uses. *)
Definition send_error_text (x : send_error) : string :=
  match x with
  | NotInRoom => "You are not in this room"
  | RoomUnavailable => "Room not found or inactive"
  | PermissionDenied => "You do not have permission to send messages"
  | EmptyMessage => "Room ID and content required"
  end.

(** The sender's membership record is present and forbids sending. *)
Definition sending_forbidden (d : DB) (uid room_id : string) : bool :=
  match first_active_membership d uid room_id with
  | Some m => negb (ur_can_send_messages m)
  | None => false
  end.

(** The order of the checks as the specification words it: membership of
    the session in the room, then the room, then the permission, then the
    content. *)
Definition claimed_send_failure (c : Conn) (d : DB) (data : gmap string string)
  : option send_error :=
  let room_id := default "" (data !! "room_id") in
  if negb (bool_decide (room_id ∈ rooms c)) then Some NotInRoom
  else if negb (match get_room d room_id with
                | Some r => cr_is_active r
                | None => false
                end) then Some RoomUnavailable
  else if sending_forbidden d (user_id c) room_id then Some PermissionDenied
  else if negb (str_truthy (strip (default "" (data !! "content"))))
       then Some EmptyMessage
  else None.

(** The specification's order, as a property of one run of the handler for
    the live session [c]: when a check fails, the sender is answered with
    the error of the first one that does. *)
Definition answers_in_claimed_order (e : Env) (request : Request)
    (data : gmap string string) (w : World) : Prop :=
  ∀ c x,
    dict_get (sid request) (active_connections w) = Some c →
    claimed_send_failure c (db w) data = Some x →
    emitted (handle_send_message e request data) w
    = [(Reply (sid request), ev_error (send_error_text x))].

(** The order of the checks as a reading of the handler: room id and
    content first, then membership of the session, then the permission;
    the room itself is not looked at. *)
Definition checked_send_failure (c : Conn) (d : DB) (data : gmap string string)
  : option send_error :=
  let room_id := default "" (data !! "room_id") in
  if negb (truthy (data !! "room_id"))
     || negb (str_truthy (strip (default "" (data !! "content"))))
  then Some EmptyMessage
  else if negb (bool_decide (room_id ∈ rooms c)) then Some NotInRoom
  else if sending_forbidden d (user_id c) room_id then Some PermissionDenied
  else None.

(** The row and the broadcast of a message that passed the checks. *)
Definition message_row (e : Env) (c : Conn) (data : gmap string string)
  : ChatMessage :=
  {| cm_id := uuid4 e; cm_user_id := user_id c;
     cm_room_id := default "" (data !! "room_id");
     cm_content := strip (default "" (data !! "content"));
     cm_message_type := default "text" (data !! "type");
     cm_created_at := utcnow e;
     cm_is_edited := false; cm_is_deleted := false |}.

Definition message_broadcast (e : Env) (c : Conn) (data : gmap string string)
  : target * event :=
  let room_id := default "" (data !! "room_id") in
  (Room room_id,
   ev_new_message (uuid4 e) (user_id c) (username c)
                  (strip (default "" (data !! "content")))
                  (default "text" (data !! "type")) (utcnow e) room_id).

(** ** Writes to the store that fail *)

(** The three requests that write to the store. *)
Inductive write_op := WJoin | WLeave | WSend.

Definition handler_of (o : write_op)
  : Env → Request → gmap string string → M unit :=
  match o with
  | WJoin => handle_join_room
  | WLeave => handle_leave_room
  | WSend => handle_send_message
  end.

(** The request passes the guards of [handle_join_room]: it comes from a
    live session, names a room that exists and is active, and the room is
    public or open to the user through an active membership row. *)
Definition join_admitted (request : Request) (data : gmap string string)
    (w : World) : bool :=
  match dict_get (sid request) (active_connections w) with
  | None => false
  | Some c =>
      let room_id := default "" (data !! "room_id") in
      truthy (data !! "room_id")
      && match get_room (db w) room_id with
         | Some room =>
             cr_is_active room
             && (cr_is_public room
                 || found (first_active_membership (db w) (user_id c) room_id))
         | None => false
         end
  end.

(** The request gets as far as its [db.session.commit()]: it comes from a
    live session and passes every guard before the write (for a join, the
    user also has an entry in [user_rooms], as every connected user has). *)
Definition reaches_write (o : write_op) (request : Request)
    (data : gmap string string) (w : World) : bool :=
  match dict_get (sid request) (active_connections w) with
  | None => false
  | Some c =>
      let room_id := default "" (data !! "room_id") in
      match o with
      | WJoin =>
          join_admitted request data w && found (user_rooms w !! user_id c)
      | WLeave =>
          truthy (data !! "room_id")
          && found (first_membership (db w) (user_id c) room_id)
      | WSend => negb (found (checked_send_failure c (db w) data))
      end
  end.

(** The same surroundings, with a store that accepts the commit. *)
Definition store_up (e : Env) : Env :=
  {| utcnow := utcnow e; commit_ok := true; uuid4 := uuid4 e |}.

(** What the handler logs, and what it answers to the client, when its
    commit raises. *)
Definition failure_log (o : write_op) : level * string :=
  match o with
  | WJoin => (ERROR, "Join room error")
  | WLeave => (ERROR, "Leave room internal error")
  | WSend => (ERROR, "Send message error")
  end.

Definition failure_answer (o : write_op) (request : Request)
  : list (target * event) :=
  match o with
  | WJoin => [(Reply (sid request), ev_error "Failed to join room")]
  | WLeave => []
  | WSend => [(Reply (sid request), ev_error "Failed to send message")]
  end.

(** No error event among the events a run emitted. *)
Definition surfaces_no_error {A} (m : M A) (w : World) : Prop :=
  Forall (fun te => is_error te.2 = false) (emitted m w).

(** ** What the per-user pushes send *)

(** The session a per-user push goes to: the first one of the user in the
    iteration order of [active_connections], unless its id is the empty
    string. *)
Definition push_target (uid : string) (w : World) : option string :=
  match find_user_session uid (active_connections w) with
  | Some session_id => if str_truthy session_id then Some session_id else None
  | None => None
  end.

(** The rows [_send_recent_messages] reads, in the order it sends them. *)
Definition recent_rows (d : DB) (room_id : string) (limit : nat)
  : list ChatMessage :=
  reverse (take limit
             (merge_sort newer_first
                (List.filter (fun m => String.eqb (cm_room_id m) room_id
                                       && negb (cm_is_deleted m))
                             (chat_messages d)))).

(** Chronological order: no message is older than one listed before it. *)
Definition older_first (m1 m2 : ChatMessage) : Prop :=
  cm_created_at m1 ≤ cm_created_at m2.

(** The rooms [_send_available_rooms] lists. *)
Definition listed_rooms (d : DB) (uid : string) : list ChatRoom :=
  List.filter (fun r => cr_is_public r && cr_is_active r) (chat_rooms d)
  ++ List.filter (fun r => has_active_membership d uid (cr_id r)
                           && negb (cr_is_public r) && cr_is_active r)
                 (chat_rooms d).

(** The sessions of a user, in the iteration order of
    [active_connections]. *)
Definition sessions_of (uid : string) (w : World) : list string :=
  map fst (List.filter (fun '(_, c) => String.eqb (user_id c) uid)
                       (active_connections w)).

(** ** What a join and a leave do *)

(** The state [handle_join_room] builds in memory before it writes. *)
Definition joined_memory (request : Request) (uid room_id : string)
    (w : World) : World :=
  set_user_rooms (fun m => default m (add_to uid room_id m))
    (set_room_users (fun m => <[room_id := default ∅ (m !! room_id) ∪ {[uid]}]> m)
       (set_active_connections
          (dict_alter (with_rooms (fun s => s ∪ {[room_id]})) (sid request))
          (set_sio_rooms
             (fun m => <[room_id := default ∅ (m !! room_id) ∪ {[sid request]}]> m)
             w))).

(** The state [_leave_room_internal] builds in memory before it writes. *)
Definition left_memory (request : Request) (session_id uid room_id : string)
    (w : World) : World :=
  set_user_rooms (discard_from uid room_id)
    (set_room_users (discard_from room_id uid)
       (set_active_connections
          (dict_alter (with_rooms (fun s => s ∖ {[room_id]})) session_id)
          (set_sio_rooms (discard_from room_id (sid request)) w))).

(** The membership rows after the write of a join. *)
Definition joined_rows (e : Env) (uid room_id : string) (d : DB) : DB :=
  match first_membership d uid room_id with
  | None => with_user_room_rows (fun l => l ++ [new_user_room e uid room_id])
  | Some _ =>
      with_user_room_rows (update_first (membership_of uid room_id) mark_joined)
  end d.

(** The membership rows after the write of a leave. *)
Definition left_rows (e : Env) (uid room_id : string) (d : DB) : DB :=
  match first_membership d uid room_id with
  | None => d
  | Some _ =>
      with_user_room_rows
        (update_first (membership_of uid room_id) (mark_left (utcnow e))) d
  end.

(** The rooms a session has joined; none for a session that is not live. *)
Definition joined_rooms (session_id : string) (w : World) : gset string :=
  match dict_get session_id (active_connections w) with
  | Some c => rooms c
  | None => ∅
  end.

(** [room_users.get(room_id, set())] and [user_rooms.get(user_id, set())] *)
Definition members_of (room_id : string) (w : World) : gset string :=
  default ∅ (room_users w !! room_id).

Definition rooms_of (uid : string) (w : World) : gset string :=
  default ∅ (user_rooms w !! uid).

(** ** Leaving a room the session is not in *)

(** A leave that changes nothing: registry, indexes and membership rows
    stay as they were and no event is emitted. *)
Definition leave_is_noop (e : Env) (request : Request)
    (data : gmap string string) (w : World) : Prop :=
  let m := handle_leave_room e request data in
  active_connections (exec m w) = active_connections w
  ∧ room_users (exec m w) = room_users w
  ∧ user_rooms (exec m w) = user_rooms w
  ∧ user_room_rows (db (exec m w)) = user_room_rows (db w)
  ∧ emitted m w = [].

(** ** The member index against the registry *)

(** The users of the live connections whose [rooms] contain the room. *)
Definition live_users (room_id : string) (conns : list (string * Conn))
  : gset string :=
  list_to_set
    (map (fun kc => user_id kc.2)
         (List.filter (fun kc => bool_decide (room_id ∈ rooms kc.2)) conns)).

Definition live_members (room_id : string) (w : World) : gset string :=
  live_users room_id (active_connections w).

(** [room_users] lists, for the room, exactly the users who are in it
    through some live connection. *)
Definition index_consistent_at (room_id : string) (w : World) : Prop :=
  members_of room_id w = live_members room_id w.

Definition index_consistent (w : World) : Prop :=
  ∀ room_id, index_consistent_at room_id w.

(** ** The reaper against a voluntary disconnect *)

(** The sessions one sweep at [e] picks up, in the order it visits them. *)
Definition expired_sessions (e : Env) (w : World) : list string :=
  map fst (List.filter
             (fun '(_, conn_info) =>
                TTL_SECONDS <? utcnow e - connected_at conn_info)
             (active_connections w)).

(** Registry, indexes and membership rows: the part of the world the
    comparison of the two teardown paths is about. *)
Definition end_state (w : World)
  : list (string * Conn) * gmap string (gset string)
    * gmap string (gset string) * list UserRoom :=
  (active_connections w, room_users w, user_rooms w, user_room_rows (db w)).

(** No user has two live sessions. *)
Definition one_session_per_user (w : World) : Prop :=
  NoDup (map (fun kc => user_id kc.2) (active_connections w)).

(** The requests the index is maintained by. *)
Definition is_membership_op (o : op) : bool :=
  match o with
  | Join _ _ _ | Leave _ _ _ | Disconnect _ _ => true
  | _ => false
  end.

(** The teardown the reaper performs on one session, as it would go if it
    ran in the request of that session (it does not: the reaper is a
    background task). *)
Definition reap_in_request (e : Env) (request : Request) : M unit :=
  let session_id := sid request in
  let* conns := gets active_connections in
  match dict_get session_id conns with
  | Some conn_info =>
      for_each (elements (rooms conn_info))
               (fun room_id =>
                  _leave_room_internal (Some request) e session_id room_id) >>>
      modify (set_active_connections (dict_del session_id)) >>>
      log INFO "Cleaned up inactive connection"
  | None => ret tt
  end.

(** ** The handlers and methods that only read the manager

    [handle_typing_start], [handle_typing_stop], [handle_get_room_users],
    [broadcast_system_message], [send_notification], [get_active_users] and
    [get_room_stats] change neither the dictionaries nor the store, and with
    a payload of strings no statement of their bodies raises (every lookup
    is guarded): each is the function from the world to what it emits or
    returns. *)

(** An entry of the [room_users] payload. *)
Record room_user := {
  ru_id : string;
  ru_username : string;
  ru_avatar_url : option string;
  ru_online : bool }.

(** The events of these handlers, by event name. *)
Inductive notice :=
| nt_error (message : string)
| nt_user_typing (uname room_id : string) (typing : bool)
| nt_room_users (room_id : string) (users : list room_user)
| nt_system_message (content type : string) (timestamp : Z) (room_id : string)
| nt_notification (payload : string).

(** Who gets an event: one target, or, with [include_self=False], the
    Socket.IO room without the session of the request. *)
Inductive audience :=
| Only (t : target)
| Others (room self : string).

Definition handle_typing_start (request : Request) (data : gmap string string)
    (w : World) : list (audience * notice) :=
  let session_id := sid request in
  let room_id_opt := data !! "room_id" in
  match dict_get session_id (active_connections w) with
  | Some conn_info =>
      if truthy room_id_opt
      then
        let room_id := default "" room_id_opt in
        if bool_decide (room_id ∈ rooms conn_info)
        then [(Others room_id session_id,
               nt_user_typing (username conn_info) room_id true)]
        else []
      else []
  | None => []
  end.

Definition handle_typing_stop (request : Request) (data : gmap string string)
    (w : World) : list (audience * notice) :=
  let session_id := sid request in
  let room_id_opt := data !! "room_id" in
  match dict_get session_id (active_connections w) with
  | Some conn_info =>
      if truthy room_id_opt
      then
        let room_id := default "" room_id_opt in
        if bool_decide (room_id ∈ rooms conn_info)
        then [(Others room_id session_id,
               nt_user_typing (username conn_info) room_id false)]
        else []
      else []
  | None => []
  end.

(** [any(conn['user_id'] == user_id for conn in
    self.active_connections.values())] *)
Definition is_online (uid : string) (w : World) : bool :=
  existsb (fun kc => String.eqb (user_id kc.2) uid) (active_connections w).

(** The loop of [handle_get_room_users] over the ids of the room. *)
Fixpoint users_data (w : World) (uids : list string) : list room_user :=
  match uids with
  | [] => []
  | uid :: rest =>
      match get_user (db w) uid with
      | Some user =>
          {| ru_id := u_id user; ru_username := u_username user;
             ru_avatar_url := u_avatar_url user;
             ru_online := is_online uid w |} :: users_data w rest
      | None => users_data w rest
      end
  end.

Definition handle_get_room_users (request : Request)
    (data : gmap string string) (w : World) : list (audience * notice) :=
  let session_id := sid request in
  let room_id_opt := data !! "room_id" in
  match dict_get session_id (active_connections w) with
  | None => [(Only (Reply session_id), nt_error "Not authenticated")]
  | Some conn_info =>
      match room_id_opt with
      | Some room_id =>
          if bool_decide (room_id ∈ rooms conn_info)
          then
            (* Get active users in room *)
            let room_user_ids := default ∅ (room_users w !! room_id) in
            [(Only (Reply session_id),
              nt_room_users room_id (users_data w (elements room_user_ids)))]
          else [(Only (Reply session_id), nt_error "You are not in this room")]
      | None => [(Only (Reply session_id), nt_error "You are not in this room")]
      end
  end.

Definition broadcast_system_message (e : Env) (room_id message message_type : string)
    (w : World) : list (audience * notice) :=
  match room_users w !! room_id with
  | Some _ =>
      [(Only (Room room_id),
        nt_system_message message message_type (utcnow e) room_id)]
  | None => []
  end.

(** The loop of [send_notification] over [self.active_connections.items()]. *)
Fixpoint notify_sessions (uid notification : string)
    (conns : list (string * Conn)) : list (audience * notice) :=
  match conns with
  | [] => []
  | (session_id, conn_info) :: rest =>
      if String.eqb (user_id conn_info) uid
      then (Only (Room session_id), nt_notification notification)
           :: notify_sessions uid notification rest
      else notify_sessions uid notification rest
  end.

Definition send_notification (uid notification : string) (w : World)
  : list (audience * notice) :=
  notify_sessions uid notification (active_connections w).

(** An entry of what [get_active_users] returns. *)
Record active_user := {
  au_user_id : string;
  au_username : string;
  au_connected_at : Z;
  au_rooms : nat;
  au_connections : nat }.

Definition one_more_connection (a : active_user) : active_user :=
  {| au_user_id := au_user_id a; au_username := au_username a;
     au_connected_at := au_connected_at a; au_rooms := au_rooms a;
     au_connections := S (au_connections a) |}.

(** One round of the loop of [get_active_users]: the dictionary
    [active_users] after the connection [conn_info]. *)
Definition count_connection (active_users : list (string * active_user))
    (conn_info : Conn) : list (string * active_user) :=
  let uid := user_id conn_info in
  if dict_mem uid active_users
  then dict_alter one_more_connection uid active_users
  else dict_set uid
         {| au_user_id := uid; au_username := username conn_info;
            au_connected_at := connected_at conn_info;
            au_rooms := size (rooms conn_info); au_connections := 1 |}
         active_users.

Definition get_active_users (w : World) : list active_user :=
  map snd (fold_left count_connection (map snd (active_connections w)) []).

(** What [get_room_stats] returns. *)
Record room_stat := {
  st_name : string;
  st_user_count : nat;
  st_is_public : bool }.

Record room_stats := {
  total_rooms : nat;
  st_active_connections : nat;
  st_rooms : gmap string room_stat }.

Definition get_room_stats (w : World) : room_stats :=
  {| total_rooms := size (room_users w);
     st_active_connections := length (active_connections w);
     st_rooms :=
       map_imap (fun room_id user_ids =>
                   match get_room (db w) room_id with
                   | Some room =>
                       Some {| st_name := cr_name room;
                               st_user_count := size user_ids;
                               st_is_public := cr_is_public room |}
                   | None => None
                   end)
                (room_users w) |}.

(** ** Connecting, joining: what decides *)

(** The user [_verify_session_token] returns for the token of [auth]: the
    owner of the first active session row that carries it, if that row is
    not expired at [now] and the owner is [ACTIVE]. *)
Definition authenticated_user (now : Z) (d : DB)
    (auth : option (gmap string string)) : option User :=
  match auth ≫= (.!! "token") with
  | None => None
  | Some t =>
      match first_active_session d t with
      | None => None
      | Some s =>
          if is_expired now s then None
          else match get_user d (us_user_id s) with
               | Some u => if is_active_user u then Some u else None
               | None => None
               end
      end
  end.

(** The entry [handle_connect] stores for a user. *)
Definition new_connection (e : Env) (request : Request) (user : User) : Conn :=
  {| user_id := u_id user; username := u_username user; rooms := ∅;
     connected_at := utcnow e; ip_address := remote_addr request |}.

(** The guards of [handle_join_room] for a live session, in the order of
    the handler, with the text of the error each one answers. *)
Definition checked_join_failure (c : Conn) (d : DB) (data : gmap string string)
  : option string :=
  let room_id := default "" (data !! "room_id") in
  if negb (truthy (data !! "room_id")) then Some "Room ID required"
  else match get_room d room_id with
       | None => Some "Room not found or inactive"
       | Some room =>
           if negb (cr_is_active room) then Some "Room not found or inactive"
           else if negb (cr_is_public room)
                   && negb (found (first_active_membership d (user_id c) room_id))
           then Some "Access denied to private room"
           else None
       end.

(** ** Invariants of the dictionaries *)

(** Every user of a registered session has an entry in [user_rooms]. *)
Definition users_indexed (w : World) : Prop :=
  ∀ uid, uid ∈ map (fun kc => user_id kc.2) (active_connections w) →
         is_Some (user_rooms w !! uid).

(** [room_users] lists, for every room, only users who are in the room
    through some registered session. *)
Definition no_ghost_members (w : World) : Prop :=
  ∀ room_id, members_of room_id w ⊆ live_members room_id w.

(** A sequence of requests as Socket.IO delivers them: every connection
    comes with a session id that is not registered at that moment.  The
    sweep of the background task is not a request. *)
Fixpoint request_trace (ops : list op) (w : World) : bool :=
  match ops with
  | [] => true
  | o :: rest =>
      match o with
      | Connect _ request _ =>
          negb (dict_mem (sid request) (active_connections w))
      | Sweep _ => false
      | _ => true
      end
      && request_trace rest (step w o)
  end.

(** ** A deployment with a private room *)

Module Staff.

Definition staff : ChatRoom :=
  {| cr_id := "staff"; cr_name := "Staff"; cr_description := "";
     cr_is_public := false; cr_is_active := true |}.

(** alice is a member of [staff]. *)
Definition membership : UserRoom :=
  {| ur_id := "m1"; ur_user_id := "u1"; ur_room_id := "staff";
     ur_joined_at := 10; ur_left_at := None; ur_is_active := true;
     ur_can_send_messages := true; ur_is_moderator := false |}.

Definition store : DB :=
  {| users := users Scenario.store;
     user_sessions := user_sessions Scenario.store;
     chat_rooms := [Scenario.general; staff];
     user_room_rows := [membership];
     chat_messages := [];
     system_logs := [] |}.

Definition boot : World :=
  {| active_connections := []; room_users := ∅; user_rooms := ∅;
     sio_rooms := ∅; sio_disconnected := [];
     db := store; outbox := []; logger := [] |}.

(** alice connected as [A] and in [staff]. *)
Definition in_staff : World :=
  run [Connect (Scenario.at_ 100) Scenario.A (Scenario.token "tok-alice");
       Join (Scenario.at_ 101) Scenario.A (Scenario.room "staff")] boot.

End Staff.

(** ** Invariants of the store *)

(** No user has two membership rows for one room. *)
Definition one_row_per_membership (d : DB) : Prop :=
  ∀ uid room_id,
    (length (List.filter (membership_of uid room_id) (user_room_rows d)) ≤ 1)%nat.

(** The content of a stored message is not empty and has no white space
    around it. *)
Definition trimmed (m : ChatMessage) : Prop :=
  cm_content m ≠ "" ∧ strip (cm_content m) = cm_content m.

(** ** Invariants of the transport *)

(** A session is in the Socket.IO room of a chat room exactly when the
    registry lists the room for it. *)
Definition transport_matches_registry (w : World) : Prop :=
  ∀ room_id session_id,
    session_id ∈ default ∅ (sio_rooms w !! room_id)
    ↔ room_id ∈ joined_rooms session_id w.

(** * Properties *)

Ltac unfold_m :=
  unfold exec, result, try_except, bind, ret, raise, gets, modify,
    emit, socketio_emit, disconnect, log, commit, join_room, leave_room in *.

#[local] Set Warnings "-clear-no-such-hyp".

(** ** White space *)

Lemma without_prefix_Some w l r : without_prefix w l = Some r ↔ l = w ++ r.
Proof.
  revert l. induction w as [|a w IH]; intros l; cbn.
  - split; [by intros [= ->] | by intros ->].
  - destruct l as [|b l]; [done|].
    destruct (Ascii.eqb_spec a b) as [->|Hne].
    + rewrite IH. split; [by intros -> | by intros [= ->]].
    + split; [done | by intros [= -> _]].
Qed.

Lemma without_suffix_Some w l r : without_suffix w l = Some r ↔ l = r ++ w.
Proof.
  unfold without_suffix. split.
  - intros H. apply fmap_Some in H as (r' & H & ->).
    apply without_prefix_Some in H.
    apply (f_equal reverse) in H.
    by rewrite reverse_involutive, reverse_app, reverse_involutive in H.
  - intros ->. rewrite reverse_app.
    rewrite (proj2 (without_prefix_Some (reverse w) (reverse w ++ reverse r)
                      (reverse r)) eq_refl).
    cbn. by rewrite reverse_involutive.
Qed.

Lemma head_omap_Some {A B} (f : A → option B) l r :
  head (omap f l) = Some r → ∃ x, x ∈ l ∧ f x = Some r.
Proof.
  induction l as [|x l IH]; [done|]. cbn.
  destruct (f x) as [y|] eqn:Hx; cbn.
  - intros [= ->]. exists x. split; [by left | done].
  - intros H. destruct (IH H) as (x' & Hin & Hx'). exists x'. split; [by right | done].
Qed.

Lemma head_omap_None {A B} (f : A → option B) l :
  head (omap f l) = None → ∀ x, x ∈ l → f x = None.
Proof.
  induction l as [|x l IH]; cbn.
  - intros _ y Hy. by apply elem_of_nil in Hy.
  - destruct (f x) as [y|] eqn:Hx; cbn; [done|].
    intros H y Hy. apply elem_of_cons in Hy as [-> | Hy]; [done | by apply IH].
Qed.

Lemma utf8_length c : (1 ≤ length (utf8 c))%nat.
Proof.
  unfold utf8.
  destruct (c <? 128)%N; [cbn; lia|]. destruct (c <? 2048)%N; [cbn; lia|].
  destruct (c <? 65536)%N; cbn; lia.
Qed.

Lemma drop_space_left_Some l r :
  drop_space_left l = Some r → ∃ c, c ∈ whitespace ∧ l = utf8 c ++ r.
Proof.
  unfold drop_space_left. intros H.
  destruct (head_omap_Some _ _ _ H) as (c & Hc & H').
  exists c. split; [exact Hc | exact (proj1 (without_prefix_Some _ _ _) H')].
Qed.

Lemma drop_space_right_Some l r :
  drop_space_right l = Some r → ∃ c, c ∈ whitespace ∧ l = r ++ utf8 c.
Proof.
  unfold drop_space_right. intros H.
  destruct (head_omap_Some _ _ _ H) as (c & Hc & H').
  exists c. split; [exact Hc | exact (proj1 (without_suffix_Some _ _ _) H')].
Qed.

Lemma drop_space_left_None l c r :
  drop_space_left l = None → c ∈ whitespace → l ≠ utf8 c ++ r.
Proof.
  unfold drop_space_left. intros H Hc Hl.
  pose proof (head_omap_None _ _ H c Hc) as Hnone. cbv beta in Hnone.
  apply without_prefix_Some in Hl. rewrite Hl in Hnone. discriminate Hnone.
Qed.

Lemma drop_space_right_None l c r :
  drop_space_right l = None → c ∈ whitespace → l ≠ r ++ utf8 c.
Proof.
  unfold drop_space_right. intros H Hc Hl.
  pose proof (head_omap_None _ _ H c Hc) as Hnone. cbv beta in Hnone.
  apply without_suffix_Some in Hl. rewrite Hl in Hnone. discriminate Hnone.
Qed.

Lemma drop_space_left_shorter l r :
  drop_space_left l = Some r → (length r < length l)%nat.
Proof.
  intros H. apply drop_space_left_Some in H as (c & _ & ->).
  rewrite length_app. pose proof (utf8_length c). lia.
Qed.

Lemma drop_space_right_shorter l r :
  drop_space_right l = Some r → (length r < length l)%nat.
Proof.
  intros H. apply drop_space_right_Some in H as (c & _ & ->).
  rewrite length_app. pose proof (utf8_length c). lia.
Qed.

(** With a round for every byte, [repeatedly] stops because nothing is left
    to drop, not for want of rounds. *)
Lemma repeatedly_done step rounds l :
  (∀ l r, step l = Some r → (length r < length l)%nat) →
  (length l ≤ rounds)%nat →
  step (repeatedly step rounds l) = None.
Proof.
  intros Hstep. revert l. induction rounds as [|n IH]; intros l Hlen; cbn [repeatedly].
  - destruct (step l) as [r|] eqn:Hr; [|done].
    apply Hstep in Hr. lia.
  - destruct (step l) as [r|] eqn:Hr; [|done].
    apply IH. apply Hstep in Hr. lia.
Qed.

Lemma repeatedly_nothing step rounds l :
  step l = None → repeatedly step rounds l = l.
Proof. intros H. destruct rounds; cbn [repeatedly]; [done | by rewrite H]. Qed.

Lemma lstrip_bytes_suffix l : lstrip_bytes l `suffix_of` l.
Proof.
  unfold lstrip_bytes. generalize (length l) as n. intros n. revert l.
  induction n as [|n IH]; intros l; cbn [repeatedly]; [done|].
  destruct (drop_space_left l) as [r|] eqn:Hr; [|done].
  apply drop_space_left_Some in Hr as (c & _ & ->).
  etrans; [apply IH | by apply suffix_app_r].
Qed.

Lemma rstrip_bytes_prefix l : rstrip_bytes l `prefix_of` l.
Proof.
  unfold rstrip_bytes. generalize (length l) as n. intros n. revert l.
  induction n as [|n IH]; intros l; cbn [repeatedly]; [done|].
  destruct (drop_space_right l) as [r|] eqn:Hr; [|done].
  apply drop_space_right_Some in Hr as (c & _ & ->).
  etrans; [apply IH | by apply prefix_app_r].
Qed.

Lemma lstrip_bytes_done l : drop_space_left (lstrip_bytes l) = None.
Proof. apply repeatedly_done; [apply drop_space_left_shorter | done]. Qed.

Lemma rstrip_bytes_done l : drop_space_right (rstrip_bytes l) = None.
Proof. apply repeatedly_done; [apply drop_space_right_shorter | done]. Qed.

Lemma drop_space_left_prefix p l :
  p `prefix_of` l → drop_space_left l = None → drop_space_left p = None.
Proof.
  intros [k ->] Hl. destruct (drop_space_left p) as [r|] eqn:Hp; [|done].
  apply drop_space_left_Some in Hp as (c & Hc & ->).
  exfalso. apply (drop_space_left_None _ c (r ++ k) Hl Hc).
  by rewrite app_assoc.
Qed.

(** What [strip] returns neither starts nor ends with white space, so that
    a second [strip] changes nothing. *)
Lemma strip_bytes_done l :
  let l' := rstrip_bytes (lstrip_bytes l) in
  drop_space_left l' = None ∧ drop_space_right l' = None.
Proof.
  split; [|apply rstrip_bytes_done].
  apply (drop_space_left_prefix _ (lstrip_bytes l));
    [apply rstrip_bytes_prefix | apply lstrip_bytes_done].
Qed.

Lemma strip_bytes s :
  strip s
  = string_of_list_ascii (rstrip_bytes (lstrip_bytes (list_ascii_of_string s))).
Proof.
  unfold strip, rstrip, lstrip. by rewrite list_ascii_of_string_of_list_ascii.
Qed.

Lemma strip_idemp s : strip (strip s) = strip s.
Proof.
  rewrite (strip_bytes (strip s)), (strip_bytes s).
  rewrite list_ascii_of_string_of_list_ascii.
  destruct (strip_bytes_done (list_ascii_of_string s)) as [Hl Hr].
  unfold lstrip_bytes at 1. rewrite (repeatedly_nothing _ _ _ Hl).
  unfold rstrip_bytes at 1. by rewrite (repeatedly_nothing _ _ _ Hr).
Qed.

(** ** [strip] on an encoding is [strip] on the code points *)

(** [lia] for goals with a division or a remainder by a constant. *)
Ltac lia_div := zify; Z.to_euclidean_division_equations; lia.

Lemma N_of_ascii_of_N n : (n < 256)%N → N_of_ascii (ascii_of_N n) = n.
Proof. apply N_ascii_embedding. Qed.

Lemma utf8_cases c :
  code_point c →
  (c < 128 ∧ utf8 c = [ascii_of_N c])%N
  ∨ (128 ≤ c < 2048
     ∧ utf8 c = [ascii_of_N (192 + c / 64); ascii_of_N (128 + c mod 64)])%N
  ∨ (2048 ≤ c < 65536
     ∧ utf8 c = [ascii_of_N (224 + c / 4096);
                 ascii_of_N (128 + (c / 64) mod 64);
                 ascii_of_N (128 + c mod 64)])%N
  ∨ (65536 ≤ c < 1114112
     ∧ utf8 c = [ascii_of_N (240 + c / 262144);
                 ascii_of_N (128 + (c / 4096) mod 64);
                 ascii_of_N (128 + (c / 64) mod 64);
                 ascii_of_N (128 + c mod 64)])%N.
Proof.
  unfold code_point, utf8. intros Hc.
  destruct (N.ltb_spec c 128); [left; done|].
  destruct (N.ltb_spec c 2048); [right; left; done|].
  destruct (N.ltb_spec c 65536); [right; right; left; done|].
  right; right; right; done.
Qed.

Ltac decide_N :=
  repeat match goal with
         | |- context [(?a <=? ?b)%N] => destruct (N.leb_spec a b)
         | |- context [(?a <? ?b)%N] => destruct (N.ltb_spec a b)
         end;
  try done; try lia_div.

(** An encoding is a first byte, which is no continuation byte and
    announces the length, and continuation bytes after it; it decodes to its
    code point. *)
Lemma utf8_shape c :
  code_point c →
  ∃ b k, utf8 c = b :: k
         ∧ continuation b = false
         ∧ Forall (fun a => continuation a = true) k
         ∧ length (utf8 c) = announced b
         ∧ decode1 (utf8 c) = c.
Proof.
  intros Hc. unfold continuation, announced, decode1.
  destruct (utf8_cases c Hc)
    as [[H ->] | [[H ->] | [[H ->] | [H ->]]]]; eexists _, _;
    (split; [reflexivity|]); cbn [map length];
    rewrite ?N_of_ascii_of_N by lia_div.
  all: split; [decide_N|].
  all: split; [repeat constructor; rewrite ?N_of_ascii_of_N by lia_div; decide_N|].
  all: split; [decide_N|].
  all: try done; lia_div.
Qed.

Lemma whitespace_code_points : Forall code_point whitespace.
Proof. unfold whitespace. repeat constructor. Qed.

Lemma is_space_elem c : is_space c = true ↔ c ∈ whitespace.
Proof.
  unfold is_space. rewrite existsb_exists. split.
  - intros (c' & Hin & Heq). apply N.eqb_eq in Heq as ->.
    by apply list_elem_of_In.
  - intros Hin. exists c. split; [by apply list_elem_of_In | apply N.eqb_refl].
Qed.

(** No encoding is the beginning of another one. *)
Lemma utf8_prefix_free c c' r r' :
  code_point c → code_point c' →
  utf8 c ++ r = utf8 c' ++ r' → c = c' ∧ r = r'.
Proof.
  intros Hc Hc' Heq.
  destruct (utf8_shape c Hc) as (b & k & Hshape & _ & _ & Hlen & Hvalue).
  destruct (utf8_shape c' Hc') as (b' & k' & Hshape' & _ & _ & Hlen' & Hvalue').
  assert (b = b') as Hb by (rewrite Hshape, Hshape' in Heq; by injection Heq).
  assert (length (utf8 c) = length (utf8 c')) as Hsame
    by (rewrite Hlen, Hlen'; by rewrite Hb).
  apply app_inj_1 in Heq as [Heq ->]; [|done].
  split; [|done]. by rewrite <- Hvalue, <- Hvalue', Heq.
Qed.

Lemma last_first_byte r r' b b' k k' :
  Forall (fun a => continuation a = true) k →
  Forall (fun a => continuation a = true) k' →
  continuation b = false → continuation b' = false →
  r ++ b :: k = r' ++ b' :: k' → r = r' ∧ b = b' ∧ k = k'.
Proof.
  revert k'. induction k as [|a k IH] using rev_ind; intros k' Hk Hk' Hb Hb' Heq.
  - destruct k' as [|a' k' _] using rev_ind.
    + apply app_inj_tail in Heq as [-> ->]. done.
    + apply Forall_app in Hk' as [_ Ha']. apply List.Forall_inv in Ha'. cbv beta in Ha'.
      rewrite app_comm_cons, app_assoc in Heq.
      apply app_inj_tail in Heq as [_ ->]. congruence.
  - apply Forall_app in Hk as [Hk Ha]. apply List.Forall_inv in Ha. cbv beta in Ha.
    destruct k' as [|a' k' _] using rev_ind.
    + rewrite app_comm_cons, app_assoc in Heq.
      apply app_inj_tail in Heq as [_ ->]. congruence.
    + apply Forall_app in Hk' as [Hk' _].
      rewrite !app_comm_cons, !app_assoc in Heq.
      apply app_inj_tail in Heq as [Heq ->].
      destruct (IH k' Hk Hk' Hb Hb' Heq) as (-> & -> & ->). done.
Qed.

(** No encoding is the end of another one, or of a sequence of them. *)
Lemma utf8_suffix_free c c' r r' :
  code_point c → code_point c' →
  r ++ utf8 c = r' ++ utf8 c' → c = c' ∧ r = r'.
Proof.
  intros Hc Hc' Heq.
  destruct (utf8_shape c Hc) as (b & k & Hshape & Hb & Hk & _ & Hvalue).
  destruct (utf8_shape c' Hc') as (b' & k' & Hshape' & Hb' & Hk' & _ & Hvalue').
  rewrite Hshape, Hshape' in Heq.
  destruct (last_first_byte _ _ _ _ _ _ Hk Hk' Hb Hb' Heq) as (-> & -> & ->).
  split; [|done]. rewrite <- Hvalue, <- Hvalue'. by rewrite Hshape, Hshape'.
Qed.

Lemma whitespace_code_point c : c ∈ whitespace → code_point c.
Proof.
  intros Hin. pose proof whitespace_code_points as Hall.
  rewrite Forall_forall in Hall. by apply Hall.
Qed.

Lemma drop_space_left_utf8 c r :
  code_point c →
  drop_space_left (utf8 c ++ r) = if is_space c then Some r else None.
Proof.
  intros Hc. destruct (drop_space_left (utf8 c ++ r)) as [r'|] eqn:Hdrop.
  - apply drop_space_left_Some in Hdrop as (c' & Hin & Heq).
    apply utf8_prefix_free in Heq as [-> ->];
      [| done | by apply whitespace_code_point].
    by rewrite (proj2 (is_space_elem c') Hin).
  - destruct (is_space c) eqn:Hsp; [|done].
    apply is_space_elem in Hsp.
    by destruct (drop_space_left_None _ c r Hdrop Hsp).
Qed.

Lemma drop_space_right_utf8 c r :
  code_point c →
  drop_space_right (r ++ utf8 c) = if is_space c then Some r else None.
Proof.
  intros Hc. destruct (drop_space_right (r ++ utf8 c)) as [r'|] eqn:Hdrop.
  - apply drop_space_right_Some in Hdrop as (c' & Hin & Heq).
    apply utf8_suffix_free in Heq as [-> ->];
      [| done | by apply whitespace_code_point].
    by rewrite (proj2 (is_space_elem c') Hin).
  - destruct (is_space c) eqn:Hsp; [|done].
    apply is_space_elem in Hsp.
    by destruct (drop_space_right_None _ c r Hdrop Hsp).
Qed.

Lemma drop_space_left_nil : drop_space_left [] = None.
Proof. reflexivity. Qed.

Lemma drop_space_right_nil : drop_space_right [] = None.
Proof. reflexivity. Qed.

Lemma lstrip_points_code_points x :
  Forall code_point x → Forall code_point (lstrip_points x).
Proof.
  induction 1 as [|c x Hc Hx IH]; [constructor|]. cbn [lstrip_points].
  destruct (is_space c); [done | by constructor].
Qed.

Lemma repeatedly_drop_left rounds x :
  Forall code_point x →
  (length (concat (map utf8 x)) ≤ rounds)%nat →
  repeatedly drop_space_left rounds (concat (map utf8 x))
  = concat (map utf8 (lstrip_points x)).
Proof.
  intros Hx. revert rounds. induction Hx as [|c x Hc Hx IH]; intros rounds Hlen.
  - cbn [map concat lstrip_points].
    apply repeatedly_nothing, drop_space_left_nil.
  - cbn [map concat lstrip_points] in *. rewrite length_app in Hlen.
    pose proof (utf8_length c).
    destruct rounds as [|rounds]; [lia|]. cbn [repeatedly].
    rewrite drop_space_left_utf8 by done.
    destruct (is_space c); [apply IH; lia | done].
Qed.

Lemma repeatedly_drop_right rounds x :
  Forall code_point x →
  (length (concat (map utf8 x)) ≤ rounds)%nat →
  repeatedly drop_space_right rounds (concat (map utf8 x))
  = concat (map utf8 (reverse (lstrip_points (reverse x)))).
Proof.
  revert rounds. induction x as [|c x IH] using rev_ind; intros rounds Hx Hlen.
  - cbn. apply repeatedly_nothing, drop_space_right_nil.
  - apply Forall_app in Hx as [Hx Hc]. apply List.Forall_inv in Hc.
    rewrite map_app, concat_app in *. cbn [map concat] in *.
    rewrite app_nil_r in *. rewrite length_app in Hlen.
    pose proof (utf8_length c).
    destruct rounds as [|rounds]; [lia|]. cbn [repeatedly].
    rewrite drop_space_right_utf8 by done.
    rewrite reverse_app, reverse_singleton. cbn [app lstrip_points].
    destruct (is_space c).
    + apply IH; [done | lia].
    + rewrite reverse_cons, reverse_involutive.
      by rewrite map_app, concat_app; cbn; rewrite app_nil_r.
Qed.

(** [strip] computes, on the encoding of any sequence of code points, the
    encoding of the sequence without the white space at its two ends. *)
Lemma strip_encode x :
  Forall code_point x → strip (encode x) = encode (strip_points x).
Proof.
  intros Hx. rewrite strip_bytes. unfold encode, strip_points.
  rewrite list_ascii_of_string_of_list_ascii. f_equal.
  unfold lstrip_bytes. rewrite repeatedly_drop_left by done.
  unfold rstrip_bytes. rewrite repeatedly_drop_right;
    [done | by apply lstrip_points_code_points | done].
Qed.

Example strip_of_unicode_white_space :
  strip (encode [12288; 104; 105; 8195; 12288]%N) = "hi"
  ∧ strip (encode [12288]%N) = ""
  ∧ strip (encode [160; 133; 8232; 5760]%N) = ""
  ∧ strip (encode [9; 99; 97; 102; 224; 32]%N) = encode [99; 97; 102; 224]%N
  ∧ strip (encode [8203; 97]%N) = encode [8203; 97]%N.
Proof. repeat split; reflexivity. Qed.

Lemma encode_inj x y :
  Forall code_point x → Forall code_point y → encode x = encode y → x = y.
Proof.
  unfold encode. intros Hx Hy Heq.
  apply (f_equal list_ascii_of_string) in Heq.
  rewrite !list_ascii_of_string_of_list_ascii in Heq.
  revert y Hy Heq. induction Hx as [|c x Hc Hx IH]; intros y Hy Heq.
  - destruct Hy as [|c' y Hc' Hy]; [done|]. cbn [map concat] in Heq.
    pose proof (utf8_length c'). apply (f_equal length) in Heq.
    rewrite length_app in Heq. cbn in Heq. lia.
  - destruct Hy as [|c' y Hc' Hy]; cbn [map concat] in Heq.
    + pose proof (utf8_length c). apply (f_equal length) in Heq.
      rewrite length_app in Heq. cbn in Heq. lia.
    + apply utf8_prefix_free in Heq as [-> Heq]; [|done..].
      f_equal. by apply IH.
Qed.

Lemma lstrip_points_length x : (length (lstrip_points x) ≤ length x)%nat.
Proof.
  induction x as [|c x IH]; [done|]. cbn [lstrip_points].
  destruct (is_space c); cbn; lia.
Qed.

(** A string that [strip] leaves as it is neither starts nor ends with a
    white space character. *)
Lemma strip_fixed x :
  Forall code_point x → strip (encode x) = encode x →
  (∀ c x', x = c :: x' → is_space c = false)
  ∧ (∀ c x', x = x' ++ [c] → is_space c = false).
Proof.
  intros Hx Hfix. rewrite strip_encode in Hfix by done.
  apply encode_inj in Hfix; [| |done].
  2: { unfold strip_points. apply Forall_reverse, lstrip_points_code_points,
         Forall_reverse. by apply lstrip_points_code_points. }
  assert (length (strip_points x) = length x) as Hlen by (by rewrite Hfix).
  unfold strip_points in Hlen. rewrite length_reverse in Hlen.
  pose proof (lstrip_points_length (reverse (lstrip_points x))) as H1.
  pose proof (lstrip_points_length x) as H2.
  rewrite length_reverse in H1.
  split.
  - intros c x' ->. destruct (is_space c) eqn:Hsp; [|done].
    cbn [lstrip_points] in H2, Hlen, H1. rewrite Hsp in H2, Hlen, H1.
    pose proof (lstrip_points_length x'). cbn in *. lia.
  - intros c x' ->. destruct (is_space c) eqn:Hsp; [|done].
    assert (lstrip_points (x' ++ [c]) = x' ++ [c]) as Hsame.
    { pose proof (lstrip_points_length (x' ++ [c])).
      destruct (x' ++ [c]) as [|c0 x0] eqn:Hx0; [done|].
      cbn [lstrip_points] in *. destruct (is_space c0); [|done].
      pose proof (lstrip_points_length x0). cbn in *. lia. }
    rewrite Hsame, reverse_app, reverse_singleton in Hlen.
    cbn [app lstrip_points] in Hlen. rewrite Hsp in Hlen.
    pose proof (lstrip_points_length (reverse x')) as H3.
    rewrite length_reverse in H3. rewrite length_app in Hlen. cbn in Hlen. lia.
Qed.

(** ** Sets, dictionaries and loops *)

Lemma union_singleton_idemp (s : gset string) x : s ∪ {[x]} ∪ {[x]} = s ∪ {[x]}.
Proof. by rewrite <- (assoc_L (∪)), (idemp_L (∪)). Qed.

Lemma difference_singleton_absent (s : gset string) x : x ∉ s → s ∖ {[x]} = s.
Proof. intros H. apply difference_disjoint_L. by apply disjoint_singleton_r. Qed.

Lemma elem_of_union_singleton (s : gset string) x : x ∈ s ∪ {[x]}.
Proof. apply elem_of_union_r. by apply elem_of_singleton. Qed.

Lemma discard_from_absent k x (m : gmap string (gset string)) :
  x ∉ default ∅ (m !! k) → discard_from k x m = m.
Proof.
  unfold discard_from. intros Hx.
  destruct (m !! k) as [s|] eqn:Hk; [|done]. cbn in Hx.
  apply insert_id. rewrite Hk. f_equal.
  symmetry. by apply difference_singleton_absent.
Qed.

Lemma discard_from_lookup r r' u (m : gmap string (gset string)) :
  default ∅ (discard_from r u m !! r')
  = if decide (r' = r) then default ∅ (m !! r) ∖ {[u]} else default ∅ (m !! r').
Proof.
  unfold discard_from. destruct (decide (r' = r)) as [->|Hne].
  - destruct (m !! r) as [s|] eqn:Hs.
    + by rewrite lookup_insert_eq.
    + rewrite Hs. cbn. set_solver.
  - destruct (m !! r) as [s|] eqn:Hs; [|done].
    by rewrite lookup_insert_ne.
Qed.

Lemma dict_mem_get {V} k (d : list (string * V)) :
  dict_mem k d = found (dict_get k d).
Proof. unfold dict_mem. by destruct (dict_get k d). Qed.

Lemma dict_get_alter_eq {V} (f : V → V) k (d : list (string * V)) :
  dict_get k (dict_alter f k d) = f <$> dict_get k d.
Proof.
  induction d as [|[k' v] d IH]; [done|]. cbn.
  destruct (String.eqb k k') eqn:Hk; cbn; rewrite Hk; [done | exact IH].
Qed.

Lemma dict_alter_idemp {V} (f : V → V) k (d : list (string * V)) :
  (∀ v, f (f v) = f v) → dict_alter f k (dict_alter f k d) = dict_alter f k d.
Proof.
  intros Hf. induction d as [|[k' v] d IH]; [done|]. cbn.
  destruct (String.eqb k k') eqn:Hk; cbn; rewrite Hk; [by rewrite Hf|].
  by rewrite IH.
Qed.

Lemma dict_alter_id {V} (f : V → V) k (d : list (string * V)) v :
  dict_get k d = Some v → f v = v → dict_alter f k d = d.
Proof.
  intros Hg Hf. induction d as [|[k' v'] d IH]; [done|]. cbn in *.
  destruct (String.eqb k k'); [|by rewrite IH].
  injection Hg as ->. by rewrite Hf.
Qed.

Lemma found_Some {A} (o : option A) : found o = true → ∃ a, o = Some a.
Proof. destruct o; [eauto | done]. Qed.

Lemma found_find {A} (p : A → bool) l : found (find p l) = existsb p l.
Proof.
  induction l as [|x l IH]; [done|]. cbn. by destruct (p x).
Qed.

Lemma for_each_done {A} (l : list A) (body : A → M unit) w :
  (∀ x w, result (body x) w = Done tt) →
  for_each l body w = (Done tt, fold_left (fun w x => exec (body x) w) l w).
Proof.
  intros Hdone. revert w. induction l as [|x l IH]; intros w; [done|].
  cbn [for_each fold_left]. unfold bind.
  specialize (Hdone x w). unfold result, exec in *.
  destruct (body x w) as [o w1]. cbn in Hdone. subst o. apply IH.
Qed.

Lemma emitted_app {A} (m : M A) w l :
  outbox (exec m w) = outbox w ++ l → emitted m w = l.
Proof. unfold emitted. intros ->. apply drop_app_length. Qed.

(** ** What each method does to the world *)

Lemma send_recent_messages_run room_id uid limit w :
  _send_recent_messages room_id uid limit w
  = (Done tt,
     set_outbox (fun o => o ++
       match push_target uid w with
       | Some s =>
           [(Room s, ev_recent_messages room_id
                       (map (to_dict (db w)) (recent_rows (db w) room_id limit)))]
       | None => []
       end) w).
Proof.
  unfold _send_recent_messages, push_target, recent_rows. unfold_m. cbn.
  destruct (find_user_session uid (active_connections w)) as [s|]; cbn.
  - destruct (str_truthy s); cbn; [done|].
    destruct w; unfold set_outbox; cbn. by rewrite app_nil_r.
  - destruct w; unfold set_outbox; cbn. by rewrite app_nil_r.
Qed.

Lemma send_available_rooms_run uid w :
  _send_available_rooms uid w
  = (Done tt,
     set_outbox (fun o => o ++
       match push_target uid w with
       | Some s =>
           [(Room s, ev_available_rooms
                       (map (summary_of w) (listed_rooms (db w) uid)))]
       | None => []
       end) w).
Proof.
  unfold _send_available_rooms, push_target, listed_rooms. unfold_m. cbn.
  destruct (find_user_session uid (active_connections w)) as [s|]; cbn.
  - destruct (str_truthy s); cbn; [done|].
    destruct w; unfold set_outbox; cbn. by rewrite app_nil_r.
  - destruct w; unfold set_outbox; cbn. by rewrite app_nil_r.
Qed.

Lemma leave_room_internal_run request e session_id room_id w c :
  dict_get session_id (active_connections w) = Some c →
  let wm := left_memory request session_id (user_id c) room_id w in
  _leave_room_internal (Some request) e session_id room_id w
  = (Done tt,
     if found (first_membership (db w) (user_id c) room_id) && negb (commit_ok e)
     then set_logger (fun g => g ++ [(ERROR, "Leave room internal error")]) wm
     else set_logger (fun g => g ++ [(INFO, "left room")])
            (set_outbox (fun o => o ++
               [(Room room_id,
                 ev_user_left (user_id c) (username c) room_id (utcnow e));
                (Room session_id, ev_room_left room_id (utcnow e))])
               (set_db (left_rows e (user_id c) room_id) wm))).
Proof.
  intros Hc wm. subst wm.
  unfold _leave_room_internal, left_memory, left_rows. unfold_m. cbn.
  rewrite Hc. cbn.
  destruct (first_membership (db w) (user_id c) room_id) eqn:Hrow; cbn.
  - destruct (commit_ok e); cbn; [|done].
    destruct w; unfold set_logger, set_outbox; cbn in *.
    by rewrite Hrow, <- app_assoc.
  - destruct w; unfold set_logger, set_outbox, set_db; cbn in *.
    by rewrite Hrow, <- app_assoc.
Qed.

Lemma leave_room_internal_no_request e session_id room_id w c :
  dict_get session_id (active_connections w) = Some c →
  _leave_room_internal None e session_id room_id w
  = (Done tt,
     set_logger (fun g => g ++ [(ERROR, "Leave room internal error")]) w).
Proof.
  intros Hc. unfold _leave_room_internal. unfold_m. cbn. by rewrite Hc.
Qed.

Lemma leave_room_internal_gone ctx e session_id room_id w :
  dict_get session_id (active_connections w) = None →
  _leave_room_internal ctx e session_id room_id w = (Done tt, w).
Proof.
  intros Hc. unfold _leave_room_internal. unfold_m. cbn. by rewrite Hc.
Qed.

Lemma leave_room_internal_done request e session_id room_id w :
  result (_leave_room_internal (Some request) e session_id room_id) w = Done tt.
Proof.
  unfold result.
  destruct (dict_get session_id (active_connections w)) as [c|] eqn:Hc.
  - by rewrite (leave_room_internal_run request e _ _ w c Hc).
  - by rewrite (leave_room_internal_gone _ e _ _ w Hc).
Qed.

Lemma handle_leave_room_run e request data w c :
  dict_get (sid request) (active_connections w) = Some c →
  truthy (data !! "room_id") = true →
  handle_leave_room e request data w
  = _leave_room_internal (Some request) e (sid request)
      (default "" (data !! "room_id")) w.
Proof.
  intros Hc Hrid. unfold handle_leave_room, try_except, bind, gets.
  rewrite dict_mem_get, Hc, Hrid. cbn [found andb].
  by rewrite (leave_room_internal_run request e _ _ w c Hc).
Qed.

Lemma handle_leave_room_skipped e request data w :
  found (dict_get (sid request) (active_connections w))
  && truthy (data !! "room_id") = false →
  handle_leave_room e request data w = (Done tt, w).
Proof.
  intros Hskip. unfold handle_leave_room, try_except, bind, gets.
  by rewrite dict_mem_get, Hskip.
Qed.

Lemma find_user_session_alter uid f k conns :
  find_user_session uid (dict_alter (with_rooms f) k conns)
  = find_user_session uid conns.
Proof.
  induction conns as [|[k' c'] conns IH]; [done|]. cbn.
  destruct (String.eqb k k'); cbn; [done|]. by rewrite IH.
Qed.

Lemma recent_rows_joined e uid room_id d r n :
  recent_rows (joined_rows e uid room_id d) r n = recent_rows d r n.
Proof. unfold joined_rows. by destruct (first_membership d uid room_id). Qed.

Lemma to_dict_joined e uid room_id d m :
  to_dict (joined_rows e uid room_id d) m = to_dict d m.
Proof. unfold joined_rows. by destruct (first_membership d uid room_id). Qed.

Lemma get_room_joined e uid room_id d r :
  get_room (joined_rows e uid room_id d) r = get_room d r.
Proof. unfold joined_rows. by destruct (first_membership d uid room_id). Qed.

Lemma joined_rows_active e uid room_id d :
  found (first_active_membership (joined_rows e uid room_id d) uid room_id)
  = true.
Proof.
  unfold first_active_membership, joined_rows, first_membership.
  rewrite found_find.
  destruct (find (membership_of uid room_id) (user_room_rows d)) as [m|] eqn:Hf;
    cbn.
  - induction (user_room_rows d) as [|x l IH]; [done|]. cbn in *.
    destruct (membership_of uid room_id x) eqn:Hx; cbn.
    + unfold membership_of in *. cbn. by rewrite Hx.
    + rewrite IH by done. apply orb_true_r.
  - rewrite existsb_app. cbn. unfold membership_of. cbn.
    rewrite !String.eqb_refl. cbn. apply orb_true_r.
Qed.

Lemma join_room_run e request data w c :
  join_admitted request data w = true →
  dict_get (sid request) (active_connections w) = Some c →
  let room_id := default "" (data !! "room_id") in
  let wm := joined_memory request (user_id c) room_id w in
  let w' := exec (handle_join_room e request data) w in
  active_connections w' = active_connections wm
  ∧ room_users w' = room_users wm
  ∧ user_rooms w' = user_rooms wm
  ∧ sio_rooms w' = sio_rooms wm
  ∧ if found (user_rooms w !! user_id c) && commit_ok e
    then db w' = joined_rows e (user_id c) room_id (db w)
         ∧ logger w' = logger w ++ [(INFO, "joined room")]
         ∧ outbox w'
           = outbox w ++
             (Room room_id,
              ev_user_joined (user_id c) (username c) room_id (utcnow e))
             :: (Reply (sid request),
                 ev_room_joined room_id
                   (from_option cr_name "" (get_room (db w) room_id))
                   (size (default ∅ (room_users wm !! room_id))) (utcnow e))
             :: match push_target (user_id c) w with
                | Some s =>
                    [(Room s, ev_recent_messages room_id
                                (map (to_dict (db w))
                                     (recent_rows (db w) room_id 50)))]
                | None => []
                end
    else db w' = db w
         ∧ logger w' = logger w ++ [(ERROR, "Join room error")]
         ∧ outbox w'
           = outbox w ++ [(Reply (sid request), ev_error "Failed to join room")].
Proof.
  intros Hadm Hc room_id wm w'. subst w' wm room_id.
  unfold join_admitted in Hadm. rewrite Hc in Hadm.
  apply andb_true_iff in Hadm as [Hrid Hroom].
  destruct (get_room (db w) (default "" (data !! "room_id")))
    as [room|] eqn:Hg; [|done].
  apply andb_true_iff in Hroom as [Hact Hacc].
  assert (add_to (default "" (data !! "room_id")) (user_id c)
            (setdefault_empty (default "" (data !! "room_id")) (room_users w))
          = Some (<[default "" (data !! "room_id") :=
                    default ∅ (room_users w !! default "" (data !! "room_id"))
                    ∪ {[user_id c]}]> (room_users w))) as Hadd.
  { unfold add_to, setdefault_empty.
    destruct (room_users w !! default "" (data !! "room_id")) as [members|] eqn:Hm.
    - by rewrite Hm.
    - by rewrite lookup_insert_eq, insert_insert_eq. }
  unfold exec. remember (handle_join_room e request data w) as r eqn:Hr.
  unfold handle_join_room, try_except in Hr.
  unfold bind at 1 in Hr. unfold gets at 1 in Hr. rewrite Hc, Hrid in Hr.
  cbn [negb] in Hr. unfold bind at 1 in Hr. unfold gets at 1 in Hr.
  rewrite Hg, Hact in Hr. cbn [negb] in Hr.
  replace (negb (cr_is_public room)
           && negb (found (first_active_membership (db w) (user_id c)
                             (default "" (data !! "room_id")))))
    with false in Hr
    by (destruct (cr_is_public room); cbn in *; [done | by rewrite Hacc]).
  unfold bind at 1 in Hr. unfold join_room, modify at 1 in Hr.
  unfold bind at 1 in Hr. unfold modify at 1 in Hr.
  unfold bind at 1 in Hr. unfold modify at 1 in Hr.
  unfold bind at 1 in Hr. unfold room_users_add in Hr.
  cbn [room_users set_room_users set_active_connections set_sio_rooms] in Hr.
  rewrite Hadd in Hr. unfold bind at 1 in Hr. unfold user_rooms_add in Hr.
  cbn [user_rooms set_room_users set_active_connections set_sio_rooms] in Hr.
  unfold joined_memory.
  cbn [active_connections room_users user_rooms sio_rooms set_user_rooms
       set_room_users set_active_connections set_sio_rooms].
  destruct (add_to (user_id c) (default "" (data !! "room_id")) (user_rooms w))
    as [rooms'|] eqn:Hrooms.
  - assert (found (user_rooms w !! user_id c) = true) as ->
      by (unfold add_to in Hrooms; by destruct (user_rooms w !! user_id c)).
    cbn [andb default].
    unfold bind at 1 in Hr. unfold gets at 1 in Hr. unfold bind at 1 in Hr.
    unfold commit in Hr.
    destruct (commit_ok e).
    + unfold modify at 1 in Hr. unfold bind at 1 in Hr.
      unfold socketio_emit at 1 in Hr.
      unfold modify at 1 in Hr. unfold bind at 1 in Hr. unfold gets at 1 in Hr.
      unfold bind at 1 in Hr. unfold emit, modify at 1 in Hr.
      unfold bind at 1 in Hr.
      rewrite send_recent_messages_run in Hr. unfold log, modify in Hr.
      unfold push_target in Hr.
      cbn [active_connections set_logger set_outbox set_db set_user_rooms
           set_room_users set_active_connections set_sio_rooms] in Hr.
      rewrite find_user_session_alter in Hr.
      cbn [db set_logger set_outbox set_db set_user_rooms
           set_room_users set_active_connections set_sio_rooms] in Hr.
      fold (joined_rows e (user_id c) (default "" (data !! "room_id")) (db w))
        in Hr.
      rewrite recent_rows_joined in Hr.
      rewrite (map_ext _ _ (to_dict_joined e (user_id c)
                              (default "" (data !! "room_id")) (db w))) in Hr.
      subst r.
      cbn [snd active_connections room_users user_rooms sio_rooms db logger
           outbox set_logger set_outbox set_db set_user_rooms set_room_users
           set_active_connections set_sio_rooms from_option].
      unfold push_target.
      repeat split. by rewrite <- !app_assoc.
    + unfold raise, bind, log, emit, modify in Hr. subst r. by cbn.
  - assert (found (user_rooms w !! user_id c) = false) as ->
      by (unfold add_to in Hrooms; by destruct (user_rooms w !! user_id c)).
    cbn [andb default].
    unfold bind, log, emit, modify in Hr. subst r. by cbn.
Qed.

Lemma join_room_rejected e request data w :
  join_admitted request data w = false →
  let w' := exec (handle_join_room e request data) w in
  active_connections w' = active_connections w
  ∧ room_users w' = room_users w
  ∧ user_rooms w' = user_rooms w
  ∧ db w' = db w
  ∧ ∃ msg, outbox w' = outbox w ++ [(Reply (sid request), ev_error msg)].
Proof.
  intros Hadm. unfold join_admitted in Hadm. cbn zeta. unfold exec.
  remember (handle_join_room e request data w) as r eqn:Hr.
  unfold handle_join_room, try_except in Hr.
  unfold bind at 1 in Hr. unfold gets at 1 in Hr.
  destruct (dict_get (sid request) (active_connections w)) as [c|].
  2: { unfold emit, modify in Hr. subst r. cbn. eauto 10. }
  destruct (truthy (data !! "room_id")); cbn [negb andb] in Hr, Hadm.
  2: { unfold emit, modify in Hr. subst r. cbn. eauto 10. }
  unfold bind at 1 in Hr. unfold gets at 1 in Hr.
  destruct (get_room (db w) (default "" (data !! "room_id"))) as [room|].
  2: { unfold emit, modify in Hr. subst r. cbn. eauto 10. }
  destruct (cr_is_active room); cbn [negb andb] in Hr, Hadm.
  2: { unfold emit, modify in Hr. subst r. cbn. eauto 10. }
  destruct (cr_is_public room); cbn [negb andb orb] in Hr, Hadm; [done|].
  rewrite Hadm in Hr. cbn [negb] in Hr.
  unfold emit, modify in Hr. subst r. cbn. eauto 10.
Qed.

Lemma send_message_run e request data w c :
  dict_get (sid request) (active_connections w) = Some c →
  let m := handle_send_message e request data in
  match checked_send_failure c (db w) data with
  | Some x =>
      outbox (exec m w)
      = outbox w ++ [(Reply (sid request), ev_error (send_error_text x))]
      ∧ db (exec m w) = db w
  | None =>
      if commit_ok e
      then outbox (exec m w) = outbox w ++ [message_broadcast e c data]
           ∧ db (exec m w)
             = with_chat_messages (fun l => l ++ [message_row e c data]) (db w)
      else outbox (exec m w)
           = outbox w ++ [(Reply (sid request), ev_error "Failed to send message")]
           ∧ db (exec m w) = db w
  end.
Proof.
  intros Hc m. subst m.
  unfold checked_send_failure, handle_send_message, sending_forbidden.
  unfold_m. cbn. rewrite Hc. cbn.
  destruct (negb (truthy (data !! "room_id"))
            || negb (str_truthy (strip (default "" (data !! "content")))));
    cbn; [done|].
  destruct (negb (bool_decide (default "" (data !! "room_id") ∈ rooms c)));
    cbn; [done|].
  destruct (first_active_membership (db w) (user_id c)
              (default "" (data !! "room_id"))) as [[? ? ? ? ? ? [] ?]|];
    cbn; try done; by destruct (commit_ok e).
Qed.

Lemma log_security_event_memory e request lvl message uid w :
  let w' := exec (log_security_event e request lvl message uid) w in
  result (log_security_event e request lvl message uid) w = Done tt
  ∧ active_connections w' = active_connections w
  ∧ room_users w' = room_users w
  ∧ user_rooms w' = user_rooms w
  ∧ user_room_rows (db w') = user_room_rows (db w).
Proof.
  unfold log_security_event. unfold_m. by destruct (commit_ok e).
Qed.

(** ** Connecting *)

Lemma verify_session_token_rejects e t w :
  forallb (fun s => negb (String.eqb (us_session_token s) t)
                    || unusable_session (utcnow e) (db w) s)
          (user_sessions (db w)) = true →
  _verify_session_token e t w = (Done None, w).
Proof.
  intros Hbad. unfold _verify_session_token. unfold_m. cbn.
  unfold first_active_session.
  destruct (find _ (user_sessions (db w))) as [s|] eqn:Hf; [|done].
  apply find_some in Hf as [Hin Hp].
  apply andb_true_iff in Hp as [Ht Ha].
  rewrite forallb_forall in Hbad. specialize (Hbad s Hin).
  rewrite Ht in Hbad. cbn in Hbad. unfold unusable_session in Hbad.
  rewrite Ha in Hbad. cbn in Hbad. unfold is_expired.
  destruct (us_expires_at s <? utcnow e); [done|]. cbn in Hbad.
  destruct (get_user (db w) (us_user_id s)) as [u|]; [|done].
  by destruct (is_active_user u).
Qed.

(** C6. A connection attempt with a missing token, or with a token that is
    unknown, expired, tied to an inactive session record or owned by a user
    who is not active, is refused: the handler returns [False], the server
    closes the transport session, and [active_connections] is unchanged. *)
Theorem connect_rejects_bad_credentials e request auth w :
  bad_credentials (utcnow e) (db w) auth = true →
  let m := handle_connect e request auth in
  result m w = Done false
  ∧ sio_disconnected (exec m w) = sio_disconnected w ++ [sid request]
  ∧ active_connections (exec m w) = active_connections w.
Proof.
  intros Hbad m.
  assert (∃ w', m w = (Done false, w')
                ∧ sio_disconnected w' = sio_disconnected w ++ [sid request]
                ∧ active_connections w' = active_connections w)
    as (w' & Hm & Hclosed & Hreg).
  { subst m. unfold bad_credentials in Hbad.
    unfold handle_connect, try_except.
    destruct (auth ≫= (.!! "token")) as [t|].
    - unfold bind at 1.
      rewrite (verify_session_token_rejects e t w Hbad).
      unfold_m. cbn. eauto.
    - unfold_m. cbn. eauto. }
  unfold result, exec. by rewrite Hm.
Qed.

Lemma connect_rejects_bad_credentials_witness :
  let m := handle_connect (Scenario.at_ 100) Scenario.A (Scenario.token "tok-old") in
  bad_credentials 100 Scenario.store (Scenario.token "tok-old") = true
  ∧ result m Scenario.boot = Done false
  ∧ sio_disconnected (exec m Scenario.boot) = ["A"]
  ∧ active_connections (exec m Scenario.boot) = [].
Proof.
  split; [reflexivity |].
  apply (connect_rejects_bad_credentials
           (Scenario.at_ 100) Scenario.A (Scenario.token "tok-old")
           Scenario.boot).
  reflexivity.
Defined.

(** ** Sending *)

(** C8. A [send_message] whose content is empty after trimming is answered
    with one error event to the sender; the store is left as it was (no
    [ChatMessage] row is created) and no [new_message] is emitted. *)
Theorem send_empty_content_rejected e request data w :
  strip (default "" (data !! "content")) = "" →
  let m := handle_send_message e request data in
  (∃ msg, emitted m w = [(Reply (sid request), ev_error msg)])
  ∧ chat_messages (db (exec m w)) = chat_messages (db w)
  ∧ Forall (fun te => is_new_message te.2 = false) (emitted m w).
Proof.
  intros Hc m.
  assert (∃ msg, outbox (exec m w)
                 = outbox w ++ [(Reply (sid request), ev_error msg)]
                 ∧ db (exec m w) = db w) as (msg & Ho & Hd).
  { subst m. unfold handle_send_message. unfold_m. cbn.
    destruct (dict_get (sid request) (active_connections w)) as [c|]; cbn.
    - rewrite Hc. cbn. rewrite orb_true_r. cbn. eauto.
    - eauto. }
  apply emitted_app in Ho. rewrite Ho, Hd.
  split; [eauto | split; [done | by repeat constructor]].
Qed.

Lemma send_empty_content_rejected_witness :
  let data := Scenario.message "general"
                (encode [32; 12288; 8195; 8232; 160; 9]%N) in
  let m := handle_send_message (Scenario.at_ 200) Scenario.A data in
  strip (default "" (data !! "content")) = ""
  ∧ (∃ msg, emitted m Scenario.one_joined = [(Reply "A", ev_error msg)])
  ∧ chat_messages (db (exec m Scenario.one_joined))
    = chat_messages (db Scenario.one_joined)
  ∧ Forall (fun te => is_new_message te.2 = false)
           (emitted m Scenario.one_joined).
Proof.
  intros data m. split; [reflexivity |].
  apply (send_empty_content_rejected (Scenario.at_ 200) Scenario.A data).
  reflexivity.
Defined.

(** White space is Unicode's: a content of ideographic spaces is refused,
    and what is stored of a content has none of them around it. *)
Example send_of_ideographic_space :
  let blank := Scenario.message "general" (encode [12288; 12288]%N) in
  let padded := Scenario.message "general"
                  (encode [12288; 104; 105; 12288]%N) in
  let refused := handle_send_message (Scenario.at_ 200) Scenario.A blank in
  let stored := handle_send_message (Scenario.at_ 200) Scenario.A padded in
  emitted refused Scenario.one_joined
  = [(Reply "A", ev_error "Room ID and content required")]
  ∧ chat_messages (db (exec refused Scenario.one_joined)) = []
  ∧ map cm_content (chat_messages (db (exec stored Scenario.one_joined)))
    = ["hi"].
Proof. repeat split; reflexivity. Qed.

(** C1 (as amended). For a [send_message] from a live session the handler
    checks, in this order: that a room id is given and the content is not
    empty after trimming, that the session is in the room, and that the
    sender's active membership record, if there is one, allows sending.  The
    first check that fails decides the error the sender gets and nothing is
    stored; the room's existence and [is_active] flag are not checked.  When
    no check fails the message is stored and broadcast, or, if the store
    refuses the commit, the sender gets the generic failure. *)
Theorem send_checks_in_handler_order e request data w c :
  dict_get (sid request) (active_connections w) = Some c →
  let m := handle_send_message e request data in
  match checked_send_failure c (db w) data with
  | Some x =>
      emitted m w = [(Reply (sid request), ev_error (send_error_text x))]
      ∧ db (exec m w) = db w
  | None =>
      if commit_ok e
      then emitted m w = [message_broadcast e c data]
           ∧ chat_messages (db (exec m w))
             = chat_messages (db w) ++ [message_row e c data]
      else emitted m w
           = [(Reply (sid request), ev_error "Failed to send message")]
           ∧ db (exec m w) = db w
  end.
Proof.
  intros Hc m. pose proof (send_message_run e request data w c Hc) as H.
  cbn zeta in H. fold m in H.
  destruct (checked_send_failure c (db w) data).
  - destruct H as [H1 H2]. by rewrite (emitted_app _ _ _ H1).
  - destruct (commit_ok e); destruct H as [H1 H2];
      rewrite (emitted_app _ _ _ H1); by rewrite H2.
Qed.

Lemma send_checks_in_handler_order_witness :
  let c := {| user_id := "u1"; username := "alice"; rooms := ∅;
              connected_at := 100; ip_address := "10.0.0.1" |} in
  let data := Scenario.message "general" " " in
  let m := handle_send_message (Scenario.at_ 200) Scenario.A data in
  dict_get "A" (active_connections Scenario.one_session) = Some c
  ∧ emitted m Scenario.one_session
    = [(Reply "A", ev_error "Room ID and content required")]
  ∧ db (exec m Scenario.one_session) = db Scenario.one_session.
Proof.
  intros c data m. split; [reflexivity |].
  apply (send_checks_in_handler_order
           (Scenario.at_ 200) Scenario.A data Scenario.one_session c).
  reflexivity.
Defined.

(** C1 (as stated) fails.  Session [A] is not in [general] and sends blank
    content: the stated order answers [NotInRoom], the handler answers that
    room id and content are required.  And once [general] is switched off, a
    session that is in it still gets its message through, where the stated
    order answers [RoomUnavailable]. *)
Lemma send_checks_not_in_claimed_order :
  ¬ answers_in_claimed_order (Scenario.at_ 200) Scenario.A
      (Scenario.message "general" " ") Scenario.one_session
  ∧ ¬ answers_in_claimed_order (Scenario.at_ 200) Scenario.A
        (Scenario.message "general" "hi") Scenario.general_closed.
Proof.
  split; intros H.
  - specialize (H {| user_id := "u1"; username := "alice"; rooms := ∅;
                     connected_at := 100; ip_address := "10.0.0.1" |}
                  NotInRoom eq_refl eq_refl).
    vm_compute in H. discriminate H.
  - specialize (H {| user_id := "u1"; username := "alice";
                     rooms := {["general"]};
                     connected_at := 100; ip_address := "10.0.0.1" |}
                  RoomUnavailable eq_refl eq_refl).
    vm_compute in H. discriminate H.
Qed.

(** ** Store failures *)

(** C3 (as amended). When the commit of a join, a leave or a send raises,
    the failure is logged, the store keeps its rows, and the registry and
    both indexes are exactly what they are when the commit succeeds.  A
    leave answers nothing to the client; a join and a send answer the
    client with a generic error event ("Failed to join room", "Failed to
    send message") and emit nothing else. *)
Theorem store_failure_is_logged_and_answered o e request data w :
  commit_ok e = false →
  reaches_write o request data w = true →
  let m := handler_of o e request data in
  let m_up := handler_of o (store_up e) request data in
  active_connections (exec m w) = active_connections (exec m_up w)
  ∧ room_users (exec m w) = room_users (exec m_up w)
  ∧ user_rooms (exec m w) = user_rooms (exec m_up w)
  ∧ db (exec m w) = db w
  ∧ logger (exec m w) = logger w ++ [failure_log o]
  ∧ emitted m w = failure_answer o request.
Proof.
  intros Hdown Hreach m m_up.
  pose proof Hreach as Hlive. unfold reaches_write in Hlive.
  destruct (dict_get (sid request) (active_connections w)) as [c|] eqn:Hc;
    [|done].
  destruct o; subst m m_up; cbn [handler_of failure_log failure_answer].
  - (* join *)
    apply andb_true_iff in Hlive as [Hadm Hkey].
    pose proof (join_room_run e request data w c Hadm Hc) as Hrun.
    pose proof (join_room_run (store_up e) request data w c Hadm Hc) as Hup.
    cbn zeta in Hrun, Hup. rewrite Hdown, andb_false_r in Hrun.
    destruct Hrun as (-> & -> & -> & _ & -> & -> & Hout).
    destruct Hup as (-> & -> & -> & _).
    by rewrite (emitted_app _ _ _ Hout).
  - (* leave *)
    apply andb_true_iff in Hlive as [Hrid Hrow].
    unfold exec.
    rewrite !(handle_leave_room_run _ request data w c Hc Hrid),
      !(leave_room_internal_run request _ _ _ w c Hc).
    rewrite Hrow, Hdown. cbn.
    repeat split. unfold emitted, exec.
    rewrite (handle_leave_room_run _ request data w c Hc Hrid),
      (leave_room_internal_run request _ _ _ w c Hc), Hrow, Hdown. cbn.
    by rewrite drop_all.
  - (* send *)
    pose proof (send_message_run e request data w c Hc) as Hrun.
    cbn zeta in Hrun.
    destruct (checked_send_failure c (db w) data) eqn:Hchk; [done|].
    rewrite Hdown in Hrun. destruct Hrun as [Hout Hdb].
    rewrite (emitted_app _ _ _ Hout), Hdb.
    unfold checked_send_failure, sending_forbidden in Hchk.
    unfold handle_send_message. unfold_m. cbn. rewrite Hc. cbn.
    destruct (negb (truthy (data !! "room_id"))
              || negb (str_truthy (strip (default "" (data !! "content")))));
      [done|]. cbn.
    destruct (negb (bool_decide (default "" (data !! "room_id") ∈ rooms c)));
      [done|]. cbn.
    destruct (first_active_membership (db w) (user_id c)
                (default "" (data !! "room_id"))) as [[? ? ? ? ? ? [] ?]|];
      cbn in *; try done; by rewrite Hdown.
Qed.

Lemma store_failure_is_logged_and_answered_witness :
  let e := Scenario.store_down 200 in
  let data := Scenario.room "general" in
  let m := handle_join_room e Scenario.A data in
  let m_up := handle_join_room (store_up e) Scenario.A data in
  (commit_ok e = false
   ∧ reaches_write WJoin Scenario.A data Scenario.one_session = true)
  ∧ active_connections (exec m Scenario.one_session)
    = active_connections (exec m_up Scenario.one_session)
  ∧ room_users (exec m Scenario.one_session)
    = room_users (exec m_up Scenario.one_session)
  ∧ user_rooms (exec m Scenario.one_session)
    = user_rooms (exec m_up Scenario.one_session)
  ∧ db (exec m Scenario.one_session) = db Scenario.one_session
  ∧ logger (exec m Scenario.one_session)
    = logger Scenario.one_session ++ [(ERROR, "Join room error")]
  ∧ emitted m Scenario.one_session
    = [(Reply "A", ev_error "Failed to join room")].
Proof.
  intros e data m m_up. split; [split; reflexivity |].
  apply (store_failure_is_logged_and_answered
           WJoin e Scenario.A data Scenario.one_session); reflexivity.
Defined.

(** C3 (as stated) fails: with the store down, a join and a send that reach
    their commit both answer the client with an error event. *)
Lemma store_failure_reaches_the_client :
  commit_ok (Scenario.store_down 200) = false
  ∧ reaches_write WJoin Scenario.A (Scenario.room "general")
      Scenario.one_session = true
  ∧ ¬ surfaces_no_error
        (handle_join_room (Scenario.store_down 200) Scenario.A
           (Scenario.room "general"))
        Scenario.one_session
  ∧ reaches_write WSend Scenario.A (Scenario.message "general" "hi")
      Scenario.one_joined = true
  ∧ ¬ surfaces_no_error
        (handle_send_message (Scenario.store_down 200) Scenario.A
           (Scenario.message "general" "hi"))
        Scenario.one_joined.
Proof.
  repeat split; try reflexivity; unfold surfaces_no_error; intros H.
  - vm_compute in H. inversion H as [|? ? Hhd]. discriminate Hhd.
  - vm_compute in H. inversion H as [|? ? Hhd]. discriminate Hhd.
Qed.

(** ** Joining twice *)

(** C7. A live session that joins an accessible, active room twice in a
    row: the second join leaves the session's [rooms], the registry, and
    both indexes ([room_users], [user_rooms]) exactly as the first join left
    them, whatever the store does with either commit. *)
Theorem join_twice_changes_nothing e1 e2 request data w :
  join_admitted request data w = true →
  let room_id := default "" (data !! "room_id") in
  let w1 := exec (handle_join_room e1 request data) w in
  let w2 := exec (handle_join_room e2 request data) w1 in
  room_id ∈ joined_rooms (sid request) w1
  ∧ joined_rooms (sid request) w2 = joined_rooms (sid request) w1
  ∧ active_connections w2 = active_connections w1
  ∧ room_users w2 = room_users w1
  ∧ user_rooms w2 = user_rooms w1.
Proof.
  intros Hadm room_id w1 w2.
  pose proof Hadm as Hlive. unfold join_admitted in Hlive.
  destruct (dict_get (sid request) (active_connections w)) as [c|] eqn:Hc;
    [|done].
  apply andb_true_iff in Hlive as [Hrid Hroom].
  fold room_id in Hroom.
  destruct (get_room (db w) room_id) as [room|] eqn:Hg; [|done].
  apply andb_true_iff in Hroom as [Hact Hacc].
  (* the first join *)
  pose proof (join_room_run e1 request data w c Hadm Hc) as H1.
  cbn zeta in H1. fold room_id w1 in H1.
  destruct H1 as (Hac1 & Hru1 & Hur1 & _ & Hrest1).
  unfold joined_memory in Hac1, Hru1, Hur1. cbn in Hac1, Hru1, Hur1.
  set (c1 := with_rooms (fun s => s ∪ {[room_id]}) c).
  assert (dict_get (sid request) (active_connections w1) = Some c1) as Hc1.
  { by rewrite Hac1, dict_get_alter_eq, Hc. }
  assert (join_admitted request data w1 = true) as Hadm1.
  { unfold join_admitted. rewrite Hc1, Hrid. fold room_id.
    cbn [andb user_id c1 with_rooms].
    assert (get_room (db w1) room_id = Some room
            ∧ cr_is_public room
              || found (first_active_membership (db w1) (user_id c) room_id)
              = true) as [-> ->]; [|by rewrite Hact].
    destruct (found (user_rooms w !! user_id c) && commit_ok e1);
      destruct Hrest1 as (-> & _); [|done].
    rewrite get_room_joined, joined_rows_active.
    split; [done | apply orb_true_r]. }
  (* the second join *)
  pose proof (join_room_run e2 request data w1 c1 Hadm1 Hc1) as H2.
  cbn zeta in H2. fold room_id w2 in H2.
  destruct H2 as (Hac2 & Hru2 & Hur2 & _).
  unfold joined_memory in Hac2, Hru2, Hur2. cbn in Hac2, Hru2, Hur2.
  assert (active_connections w2 = active_connections w1) as Hac.
  { rewrite Hac2, Hac1. apply dict_alter_idemp.
    intros [u n rs t a]. unfold with_rooms. cbn. f_equal.
    apply union_singleton_idemp. }
  unfold joined_rooms. rewrite Hac, Hc1.
  split; [apply elem_of_union_singleton|].
  split; [done|]. split; [done|]. split.
  - rewrite Hru2, Hru1, lookup_insert_eq, insert_insert_eq. cbn.
    f_equal. apply union_singleton_idemp.
  - rewrite Hur2, Hur1. unfold add_to.
    destruct (user_rooms w !! user_id c) as [s|] eqn:Hs; cbn.
    + rewrite lookup_insert_eq. cbn. rewrite insert_insert_eq.
      f_equal. apply union_singleton_idemp.
    + by rewrite Hs.
Qed.

Lemma join_twice_changes_nothing_witness :
  let data := Scenario.room "general" in
  let w1 := exec (handle_join_room (Scenario.at_ 200) Scenario.A data)
                 Scenario.one_session in
  let w2 := exec (handle_join_room (Scenario.at_ 300) Scenario.A data) w1 in
  join_admitted Scenario.A data Scenario.one_session = true
  ∧ "general" ∈ joined_rooms "A" w1
  ∧ joined_rooms "A" w2 = joined_rooms "A" w1
  ∧ active_connections w2 = active_connections w1
  ∧ room_users w2 = room_users w1
  ∧ user_rooms w2 = user_rooms w1.
Proof.
  intros data w1 w2. split; [reflexivity |].
  apply (join_twice_changes_nothing
           (Scenario.at_ 200) (Scenario.at_ 300) Scenario.A data
           Scenario.one_session).
  reflexivity.
Defined.

(** ** Leaving a room the session is not in *)

(** C4 (as amended). A live session leaves a room it never joined: no error
    is answered and the connection registry is unchanged, but the leave is
    carried out all the same.  [user_left] goes to the room and [room_left]
    to the session (nothing is emitted when the store refuses the commit);
    the store is unchanged when the user has no membership row for the
    room, otherwise that row is marked as left; each index is unchanged
    when it does not list the user under that room. *)
Theorem leave_of_unjoined_room e request data w c :
  dict_get (sid request) (active_connections w) = Some c →
  truthy (data !! "room_id") = true →
  default "" (data !! "room_id") ∉ rooms c →
  let room_id := default "" (data !! "room_id") in
  let m := handle_leave_room e request data in
  result m w = Done tt
  ∧ surfaces_no_error m w
  ∧ active_connections (exec m w) = active_connections w
  ∧ emitted m w
    = (if found (first_membership (db w) (user_id c) room_id)
          && negb (commit_ok e)
       then []
       else [(Room room_id,
              ev_user_left (user_id c) (username c) room_id (utcnow e));
             (Room (sid request), ev_room_left room_id (utcnow e))])
  ∧ db (exec m w)
    = (if commit_ok e then left_rows e (user_id c) room_id (db w) else db w)
  ∧ (first_membership (db w) (user_id c) room_id = None → db (exec m w) = db w)
  ∧ (user_id c ∉ members_of room_id w → room_users (exec m w) = room_users w)
  ∧ (room_id ∉ rooms_of (user_id c) w → user_rooms (exec m w) = user_rooms w).
Proof.
  intros Hc Hrid Hnot room_id m.
  assert (emitted m w
          = (if found (first_membership (db w) (user_id c) room_id)
                && negb (commit_ok e)
             then []
             else [(Room room_id,
                    ev_user_left (user_id c) (username c) room_id (utcnow e));
                   (Room (sid request), ev_room_left room_id (utcnow e))]))
    as Hem.
  { apply emitted_app. subst m. unfold exec.
    rewrite (handle_leave_room_run e request data w c Hc Hrid),
      (leave_room_internal_run request e _ _ w c Hc).
    fold room_id.
    destruct (found (first_membership (db w) (user_id c) room_id)
              && negb (commit_ok e)); cbn; [by rewrite app_nil_r | done]. }
  unfold surfaces_no_error. rewrite Hem. clear Hem.
  subst m. unfold result, exec.
  rewrite (handle_leave_room_run e request data w c Hc Hrid),
    (leave_room_internal_run request e _ _ w c Hc).
  fold room_id. unfold left_rows, members_of, rooms_of.
  destruct (first_membership (db w) (user_id c) room_id) as [row|] eqn:Hrow;
    destruct (commit_ok e); cbn; rewrite ?Hrow;
    (repeat split; try done;
     first [ by repeat constructor
           | by apply discard_from_absent
           | apply (dict_alter_id _ _ _ c Hc); destruct c; unfold with_rooms;
             cbn; f_equal; cbn in Hnot;
             by apply difference_singleton_absent ]).
Qed.

Lemma leave_of_unjoined_room_witness :
  let c := {| user_id := "u1"; username := "alice"; rooms := ∅;
              connected_at := 100; ip_address := "10.0.0.1" |} in
  let data := Scenario.room "general" in
  let m := handle_leave_room (Scenario.at_ 200) Scenario.A data in
  (dict_get "A" (active_connections Scenario.one_session) = Some c
   ∧ truthy (data !! "room_id") = true
   ∧ (default "" (data !! "room_id") ∉ rooms c))
  ∧ result m Scenario.one_session = Done tt
  ∧ surfaces_no_error m Scenario.one_session
  ∧ active_connections (exec m Scenario.one_session)
    = active_connections Scenario.one_session.
Proof.
  intros c data m.
  assert (default "" (data !! "room_id") ∉ rooms c) as Hnot
    by (apply not_elem_of_empty).
  split; [split; [reflexivity | split; [reflexivity | exact Hnot]] |].
  pose proof (leave_of_unjoined_room (Scenario.at_ 200) Scenario.A data
                Scenario.one_session c eq_refl eq_refl Hnot) as H.
  cbn zeta in H. destruct H as (H1 & H2 & H3 & _).
  split; [exact H1 | split; [exact H2 | exact H3]].
Defined.

(** C4 (as stated) fails.  Session [A] never joined [general] and leaves it:
    [user_left] and [room_left] are emitted.  And when the same user is in
    [general] on a second device, that leave also takes the user out of
    [room_users] and marks the membership row as left. *)
Lemma leave_of_unjoined_room_is_not_a_noop :
  ("general" ∉ joined_rooms "A" Scenario.one_session)
  ∧ ¬ leave_is_noop (Scenario.at_ 200) Scenario.A (Scenario.room "general")
        Scenario.one_session
  ∧ ("general" ∉ joined_rooms "A" Scenario.second_device_joined)
  ∧ (let w' := exec (handle_leave_room (Scenario.at_ 200) Scenario.A
                       (Scenario.room "general"))
                    Scenario.second_device_joined in
     room_users w' ≠ room_users Scenario.second_device_joined
     ∧ user_room_rows (db w')
       ≠ user_room_rows (db Scenario.second_device_joined)).
Proof.
  split; [intros H; vm_compute in H; discriminate H |].
  split.
  { intros (_ & _ & _ & _ & H). vm_compute in H. discriminate H. }
  split; [intros H; vm_compute in H; discriminate H |].
  split.
  - intros H. apply (f_equal (fun m => m !! "general")) in H.
    vm_compute in H. discriminate H.
  - intros H. vm_compute in H. discriminate H.
Qed.

(** ** Per-user pushes *)

Lemma find_user_session_head uid w :
  find_user_session uid (active_connections w) = head (sessions_of uid w).
Proof.
  unfold sessions_of.
  induction (active_connections w) as [|[k c] conns IH]; [done|]. cbn.
  by destruct (String.eqb (user_id c) uid).
Qed.

(** C9. [_send_available_rooms] and [_send_recent_messages] emit at most one
    event, addressed to one session: the first session of the user in the
    iteration order of [active_connections], however many sessions that user
    has (and none at all if the user has no session, or if that first
    session id is the empty string). *)
Theorem per_user_push_goes_to_first_session uid room_id limit w :
  let rooms_ev :=
    ev_available_rooms (map (summary_of w) (listed_rooms (db w) uid)) in
  let recent_ev :=
    ev_recent_messages room_id
      (map (to_dict (db w)) (recent_rows (db w) room_id limit)) in
  match head (sessions_of uid w) with
  | Some s =>
      if str_truthy s
      then emitted (_send_available_rooms uid) w = [(Room s, rooms_ev)]
           ∧ emitted (_send_recent_messages room_id uid limit) w
             = [(Room s, recent_ev)]
      else emitted (_send_available_rooms uid) w = []
           ∧ emitted (_send_recent_messages room_id uid limit) w = []
  | None =>
      emitted (_send_available_rooms uid) w = []
      ∧ emitted (_send_recent_messages room_id uid limit) w = []
  end.
Proof.
  intros rooms_ev recent_ev.
  assert (∀ m evs, m w = (Done tt, set_outbox (fun o => o ++ evs) w)
                   → emitted m w = evs) as Hem.
  { intros m evs Hm. apply emitted_app. unfold exec. by rewrite Hm. }
  pose proof (send_available_rooms_run uid w) as Hrooms.
  pose proof (send_recent_messages_run room_id uid limit w) as Hrecent.
  apply Hem in Hrooms, Hrecent. rewrite Hrooms, Hrecent.
  unfold push_target. rewrite find_user_session_head.
  destruct (head (sessions_of uid w)) as [s|]; [|done].
  by destruct (str_truthy s).
Qed.

(** With two devices, the push for a join made on the second one goes to
    the first one. *)
Example per_user_push_with_two_devices :
  sessions_of "u1" Scenario.two_devices = ["A"; "B"]
  ∧ map fst (emitted (_send_recent_messages "general" "u1" 50)
                     Scenario.two_devices) = [Room "A"]
  ∧ map fst (emitted (_send_available_rooms "u1") Scenario.two_devices)
    = [Room "A"].
Proof. repeat split; reflexivity. Qed.

(** ** Recent messages *)

#[local] Instance newer_first_trans : Transitive newer_first.
Proof. unfold newer_first. intros x y z ? ?. lia. Qed.

#[local] Instance newer_first_total : Total newer_first.
Proof. unfold newer_first. intros x y. lia. Qed.

#[local] Instance older_first_trans : Transitive older_first.
Proof. unfold older_first. intros x y z ? ?. lia. Qed.

Lemma recent_rows_length d room_id limit :
  (length (recent_rows d room_id limit) ≤ limit)%nat.
Proof. unfold recent_rows. rewrite length_reverse, length_take. lia. Qed.

Lemma recent_rows_from_room d room_id limit :
  Forall (fun m => In m (chat_messages d)
                   ∧ cm_room_id m = room_id
                   ∧ cm_is_deleted m = false)
         (recent_rows d room_id limit).
Proof.
  unfold recent_rows. apply Forall_reverse, Forall_take.
  rewrite merge_sort_Permutation. apply Forall_forall. intros m Hm.
  apply list_elem_of_In, filter_In in Hm as [Hin Hp].
  apply andb_true_iff in Hp as [Hr Hd].
  apply String.eqb_eq in Hr. apply negb_true_iff in Hd. done.
Qed.

Lemma recent_rows_chronological d room_id limit :
  StronglySorted older_first (recent_rows d room_id limit).
Proof.
  unfold recent_rows. apply Sorted_StronglySorted; [apply _|].
  apply (Sorted_reverse newer_first).
  apply StronglySorted_Sorted.
  set (l := merge_sort newer_first _).
  assert (StronglySorted newer_first l) as Hl
    by (apply StronglySorted_merge_sort; apply _).
  rewrite <- (take_drop limit l) in Hl.
  by apply StronglySorted_app_1_l in Hl.
Qed.

(** The one event [_send_recent_messages] emits with limit 50 carries at most
    50 messages; each is a row of that room with [is_deleted] false, and
    they are listed oldest first. *)
Lemma send_recent_messages_payload room_id uid w :
  let rows := recent_rows (db w) room_id 50 in
  let ev := ev_recent_messages room_id (map (to_dict (db w)) rows) in
  (emitted (_send_recent_messages room_id uid 50) w = []
   ∨ ∃ s, emitted (_send_recent_messages room_id uid 50) w = [(Room s, ev)])
  ∧ (length (map (to_dict (db w)) rows) ≤ 50)%nat
  ∧ Forall (fun m => In m (chat_messages (db w))
                     ∧ cm_room_id m = room_id
                     ∧ cm_is_deleted m = false) rows
  ∧ StronglySorted older_first rows.
Proof.
  intros rows ev. split; [|split; [|split]].
  - pose proof (send_recent_messages_run room_id uid 50 w) as Hrun.
    assert (outbox (exec (_send_recent_messages room_id uid 50) w)
            = outbox w ++ match push_target uid w with
                          | Some s => [(Room s, ev)]
                          | None => []
                          end) as Hout
      by (unfold exec; by rewrite Hrun).
    apply emitted_app in Hout. rewrite Hout.
    destruct (push_target uid w); eauto.
  - rewrite length_map. apply recent_rows_length.
  - apply recent_rows_from_room.
  - apply recent_rows_chronological.
Qed.




(** ** The member index against the registry *)

(** C2 fails on the code.  alice is in [general] on two devices, [A] and
    [B], and the index agrees with the registry.  Then [A] leaves: session
    [B] still has [general] in its [rooms], yet [room_users] no longer lists
    alice for [general]. *)
Theorem index_forgets_user_with_second_session :
  let w := Scenario.two_devices in
  let w' := run [Leave (Scenario.at_ 200) Scenario.A (Scenario.room "general")] w in
  index_consistent_at "general" w
  ∧ joined_rooms "B" w' = {["general"]}
  ∧ live_members "general" w' = {["u1"]}
  ∧ members_of "general" w' = ∅
  ∧ ¬ index_consistent w'.
Proof.
  intros w w'.
  assert (live_members "general" w' = {["u1"]}) as Hlive by reflexivity.
  assert (members_of "general" w' = ∅) as Hidx by reflexivity.
  split; [reflexivity|]. split; [reflexivity|].
  split; [exact Hlive|]. split; [exact Hidx|].
  intros H. specialize (H "general"). unfold index_consistent_at in H.
  rewrite Hlive, Hidx in H.
  assert ("u1" ∈ (∅ : gset string)) as Habs
    by (rewrite H; by apply elem_of_singleton).
  by apply not_elem_of_empty in Habs.
Qed.

Section Index.

Implicit Types (d : list (string * Conn)) (w : World).

Lemma live_users_cons room_id k c d :
  live_users room_id ((k, c) :: d)
  = (if bool_decide (room_id ∈ rooms c) then {[user_id c]} else ∅)
    ∪ live_users room_id d.
Proof.
  unfold live_users. cbn. destruct (bool_decide (room_id ∈ rooms c)); cbn.
  - done.
  - by rewrite (left_id_L ∅ (∪)).
Qed.

Lemma live_users_subset room_id d u :
  u ∈ live_users room_id d → u ∈ map (fun kc => user_id kc.2) d.
Proof.
  induction d as [|[k c] d IH]; [intros Hu; by apply elem_of_empty in Hu|].
  rewrite live_users_cons, elem_of_union. cbn. intros [Hu | Hu].
  - destruct (bool_decide (room_id ∈ rooms c)).
    + apply elem_of_singleton in Hu as ->. by left.
    + by apply elem_of_empty in Hu.
  - right. by apply IH.
Qed.

Lemma dict_get_elem_of d k c :
  dict_get k d = Some c → (k, c) ∈ d.
Proof.
  induction d as [|[k' c'] d IH]; [done|]. cbn.
  destruct (String.eqb_spec k k') as [->|Hne].
  - intros [= ->]. by left.
  - intros H. right. by apply IH.
Qed.

(** Adding a room to the [rooms] of one session. *)
Lemma live_users_join r r' k c d :
  dict_get k d = Some c →
  live_users r' (dict_alter (with_rooms (fun s => s ∪ {[r]})) k d)
  = if decide (r' = r) then live_users r d ∪ {[user_id c]}
    else live_users r' d.
Proof.
  induction d as [|[k' c'] d IH]; [done|]. cbn [dict_get dict_alter].
  destruct (String.eqb k k') eqn:Hk.
  - intros [= ->]. rewrite !live_users_cons. cbn.
    destruct (decide (r' = r)) as [->|Hne].
    + rewrite (bool_decide_eq_true_2 (r ∈ rooms c ∪ {[r]}))
        by apply elem_of_union_singleton.
      rewrite ?live_users_cons.
      destruct (bool_decide (r ∈ rooms c)); set_solver.
    + assert (bool_decide (r' ∈ rooms c ∪ {[r]}) = bool_decide (r' ∈ rooms c))
        as -> by (apply bool_decide_ext; set_solver).
      done.
  - intros Hc. rewrite !live_users_cons, (IH Hc).
    destruct (decide (r' = r)) as [->|Hne]; [|done].
    rewrite ?live_users_cons. set_solver.
Qed.

(** Removing a room from the [rooms] of the one session of a user. *)
Lemma live_users_leave r r' k c d :
  dict_get k d = Some c →
  NoDup (map (fun kc => user_id kc.2) d) →
  live_users r' (dict_alter (with_rooms (fun s => s ∖ {[r]})) k d)
  = if decide (r' = r) then live_users r d ∖ {[user_id c]}
    else live_users r' d.
Proof.
  induction d as [|[k' c'] d IH]; [done|]. cbn [dict_get dict_alter map].
  intros Hc Hnd. apply NoDup_cons in Hnd as [Hfresh Hnd]. cbn in Hfresh.
  destruct (String.eqb k k') eqn:Hk.
  - injection Hc as ->. rewrite !live_users_cons. cbn.
    destruct (decide (r' = r)) as [->|Hne].
    + rewrite (bool_decide_eq_false_2 (r ∈ rooms c ∖ {[r]})) by set_solver.
      rewrite ?live_users_cons.
      assert (user_id c ∉ live_users r d) as Hout.
      { intros Hin. apply Hfresh. by apply live_users_subset in Hin. }
      destruct (bool_decide (r ∈ rooms c)); set_solver.
    + assert (bool_decide (r' ∈ rooms c ∖ {[r]}) = bool_decide (r' ∈ rooms c))
        as -> by (apply bool_decide_ext; set_solver).
      done.
  - rewrite !live_users_cons, (IH Hc Hnd).
    destruct (decide (r' = r)) as [->|Hne]; [|done].
    rewrite ?live_users_cons.
    assert (user_id c' ≠ user_id c) as Hother.
    { intros Heq. apply Hfresh. rewrite Heq.
      apply dict_get_elem_of in Hc.
      apply (list_elem_of_fmap_2 (fun kc : string * Conn => user_id kc.2)) in Hc.
      done. }
    destruct (bool_decide (r ∈ rooms c')); set_solver.
Qed.

(** Deleting a session that is in no room [r]. *)
Lemma live_users_del r k c d :
  dict_get k d = Some c → r ∉ rooms c →
  live_users r (dict_del k d) = live_users r d.
Proof.
  induction d as [|[k' c'] d IH]; [done|]. cbn [dict_get dict_del].
  destruct (String.eqb k k') eqn:Hk.
  - intros [= ->] Hr. rewrite live_users_cons.
    rewrite bool_decide_eq_false_2 by done. by rewrite (left_id_L ∅ (∪)).
  - intros Hc Hr. by rewrite !live_users_cons, (IH Hc Hr).
Qed.

End Index.

Lemma map_user_id_alter f k (d : list (string * Conn)) :
  map (fun kc => user_id kc.2) (dict_alter (with_rooms f) k d)
  = map (fun kc => user_id kc.2) d.
Proof.
  induction d as [|[k' c] d IH]; [done|]. cbn.
  destruct (String.eqb k k'); cbn; [done | by rewrite IH].
Qed.

Lemma map_user_id_del k (d : list (string * Conn)) :
  sublist (map (fun kc => user_id kc.2) (dict_del k d))
          (map (fun kc => user_id kc.2) d).
Proof.
  induction d as [|[k' c] d IH]; [done|]. cbn.
  destruct (String.eqb k k'); cbn.
  - by apply sublist_cons.
  - by apply sublist_skip.
Qed.

Lemma members_of_join r r' u w :
  default ∅ (<[r := default ∅ (room_users w !! r) ∪ {[u]}]> (room_users w) !! r')
  = if decide (r' = r) then members_of r w ∪ {[u]} else members_of r' w.
Proof.
  unfold members_of. destruct (decide (r' = r)) as [->|Hne].
  - by rewrite lookup_insert_eq.
  - by rewrite lookup_insert_ne.
Qed.

Lemma members_of_leave r r' u w :
  default ∅ (discard_from r u (room_users w) !! r')
  = if decide (r' = r) then members_of r w ∖ {[u]} else members_of r' w.
Proof. unfold members_of. apply discard_from_lookup. Qed.

(** One join keeps the index equal to the registry. *)
Lemma join_keeps_index e request data w :
  index_consistent w →
  index_consistent (exec (handle_join_room e request data) w).
Proof.
  intros Hidx r'. unfold index_consistent_at, members_of, live_members.
  destruct (join_admitted request data w) eqn:Hadm.
  - pose proof Hadm as Hlive. unfold join_admitted in Hlive.
    destruct (dict_get (sid request) (active_connections w)) as [c|] eqn:Hc;
      [|done].
    destruct (join_room_run e request data w c Hadm Hc) as (-> & -> & _).
    unfold joined_memory.
    cbn [active_connections room_users set_user_rooms set_room_users
         set_active_connections set_sio_rooms].
    rewrite members_of_join, (live_users_join _ _ _ c) by done.
    destruct (decide _); [|apply Hidx].
    f_equal. apply Hidx.
  - destruct (join_room_rejected e request data w Hadm) as (-> & -> & _).
    apply Hidx.
Qed.

Lemma leave_internal_keeps_index request e session_id room_id w :
  one_session_per_user w → index_consistent w →
  let w' := exec (_leave_room_internal (Some request) e session_id room_id) w in
  one_session_per_user w' ∧ index_consistent w'
  ∧ dict_get session_id (active_connections w')
    = with_rooms (fun s => s ∖ {[room_id]})
        <$> dict_get session_id (active_connections w).
Proof.
  intros Hone Hidx. cbn zeta. unfold exec.
  destruct (dict_get session_id (active_connections w)) as [c|] eqn:Hc.
  - rewrite (leave_room_internal_run request e _ _ w c Hc).
    assert (∀ w1, active_connections w1
                  = dict_alter (with_rooms (fun s => s ∖ {[room_id]}))
                      session_id (active_connections w) →
                  room_users w1 = discard_from room_id (user_id c) (room_users w) →
                  one_session_per_user w1 ∧ index_consistent w1
                  ∧ dict_get session_id (active_connections w1)
                    = Some (with_rooms (fun s => s ∖ {[room_id]}) c)) as Hgoal.
    { intros w1 Hac Hru. split; [|split].
      - unfold one_session_per_user. by rewrite Hac, map_user_id_alter.
      - intros r'. unfold index_consistent_at, members_of, live_members.
        rewrite Hac, Hru, members_of_leave,
          (live_users_leave _ _ _ c) by done.
        destruct (decide _); [|apply Hidx]. f_equal. apply Hidx.
      - by rewrite Hac, dict_get_alter_eq, Hc. }
    destruct (found _ && negb _); by apply Hgoal.
  - rewrite (leave_room_internal_gone _ e _ _ w Hc). cbn. by rewrite Hc.
Qed.

(** One leave keeps the index equal to the registry, as long as no user has
    two sessions. *)
Lemma leave_keeps_index e request data w :
  one_session_per_user w → index_consistent w →
  one_session_per_user (exec (handle_leave_room e request data) w)
  ∧ index_consistent (exec (handle_leave_room e request data) w).
Proof.
  intros Hone Hidx.
  destruct (found (dict_get (sid request) (active_connections w))
            && truthy (data !! "room_id")) eqn:Hgo.
  - apply andb_true_iff in Hgo as [Hlive Hrid].
    apply found_Some in Hlive as [c Hc]. unfold exec.
    rewrite (handle_leave_room_run e request data w c Hc Hrid).
    destruct (leave_internal_keeps_index request e (sid request)
                (default "" (data !! "room_id")) w Hone Hidx) as (H1 & H2 & _).
    done.
  - unfold exec. by rewrite (handle_leave_room_skipped e request data w Hgo).
Qed.

Lemma leave_loop_keeps_index request e session_id room_ids w :
  one_session_per_user w → index_consistent w →
  let w' := fold_left
              (fun w room_id =>
                 exec (_leave_room_internal (Some request) e session_id room_id) w)
              room_ids w in
  one_session_per_user w' ∧ index_consistent w'
  ∧ dict_get session_id (active_connections w')
    = with_rooms (fun s => s ∖ list_to_set room_ids)
        <$> dict_get session_id (active_connections w).
Proof.
  revert w. induction room_ids as [|r room_ids IH]; intros w Hone Hidx.
  - cbn. split; [done|]. split; [done|].
    destruct (dict_get session_id (active_connections w)) as [[u n rs t a]|];
      [|done].
    cbn. unfold with_rooms. cbn. do 2 f_equal. set_solver.
  - cbn [fold_left].
    destruct (leave_internal_keeps_index request e session_id r w Hone Hidx)
      as (Hone1 & Hidx1 & Hget1).
    destruct (IH _ Hone1 Hidx1) as (Hone2 & Hidx2 & Hget2).
    split; [done|]. split; [done|].
    rewrite Hget2, Hget1.
    destruct (dict_get session_id (active_connections w)) as [[u n rs t a]|];
      [|done].
    cbn. unfold with_rooms. cbn. do 2 f_equal. set_solver.
Qed.

(** One disconnect keeps the index equal to the registry, as long as no
    user has two sessions. *)
Lemma disconnect_keeps_index e request w :
  one_session_per_user w → index_consistent w →
  one_session_per_user (exec (handle_disconnect e request) w)
  ∧ index_consistent (exec (handle_disconnect e request) w).
Proof.
  intros Hone Hidx. unfold exec.
  remember (handle_disconnect e request w) as r eqn:Hr.
  unfold handle_disconnect, try_except in Hr.
  unfold bind at 1 in Hr. unfold gets at 1 in Hr.
  destruct (dict_get (sid request) (active_connections w)) as [c|] eqn:Hc.
  2: { unfold ret in Hr. by subst r. }
  unfold bind at 1 in Hr.
  rewrite for_each_done in Hr by (intros; apply leave_room_internal_done).
  destruct (leave_loop_keeps_index request e (sid request)
              (elements (rooms c)) w Hone Hidx) as (Hone1 & Hidx1 & Hget1).
  set (w1 := fold_left _ (elements (rooms c)) w) in *.
  rewrite Hc in Hget1. cbn in Hget1.
  unfold bind at 1 in Hr. unfold modify at 1 in Hr. unfold bind at 1 in Hr.
  destruct (log_security_event_memory e request "INFO"
              "WebSocket disconnection" (Some (user_id c))
              (set_active_connections (dict_del (sid request)) w1))
    as (Hdone & Hac & Hru & Hur & _).
  unfold result, exec in *.
  destruct (log_security_event _ _ _ _ _ _) as [o w2]. cbn in *. subst o.
  unfold log, modify in Hr. subst r.
  split.
  - unfold one_session_per_user.
    cbn [snd active_connections set_logger]. rewrite Hac.
    eapply sublist_NoDup; [exact Hone1 | apply map_user_id_del].
  - intros r'. unfold index_consistent_at, members_of, live_members.
    cbn [snd active_connections room_users set_logger].
    rewrite Hac, Hru.
    rewrite (live_users_del r' _ _ _ Hget1).
    + apply Hidx1.
    + cbn. rewrite list_to_set_elements_L. set_solver.
Qed.

(** X23. As long as no user has two live sessions, any sequence of joins,
    leaves and disconnects keeps [room_users] equal, room by room, to the
    users of the live connections in the room. *)
Theorem index_consistent_with_one_session_per_user ops w :
  forallb is_membership_op ops = true →
  one_session_per_user w → index_consistent w →
  one_session_per_user (run ops w) ∧ index_consistent (run ops w).
Proof.
  revert w. induction ops as [|o ops IH]; intros w Hops Hone Hidx; [done|].
  cbn in Hops. apply andb_true_iff in Hops as [Ho Hops].
  unfold run. cbn [fold_left]. apply (IH _ Hops).
  - destruct o; try done; cbn [step].
    + by apply disconnect_keeps_index.
    + unfold one_session_per_user.
      destruct (join_admitted request data w) eqn:Hadm.
      * pose proof Hadm as Hlive. unfold join_admitted in Hlive.
        destruct (dict_get (sid request) (active_connections w)) as [c|] eqn:Hc;
          [|done].
        destruct (join_room_run e request data w c Hadm Hc) as (-> & _).
        unfold joined_memory. cbn. by rewrite map_user_id_alter.
      * by destruct (join_room_rejected e request data w Hadm) as (-> & _).
    + by apply leave_keeps_index.
  - destruct o; try done; cbn [step].
    + by apply disconnect_keeps_index.
    + by apply join_keeps_index.
    + by apply leave_keeps_index.
Qed.

Lemma index_consistent_with_one_session_per_user_witness :
  let ops := [Join (Scenario.at_ 200) Scenario.A (Scenario.room "general");
              Leave (Scenario.at_ 300) Scenario.A (Scenario.room "general");
              Join (Scenario.at_ 400) Scenario.A (Scenario.room "general");
              Disconnect (Scenario.at_ 500) Scenario.A] in
  (forallb is_membership_op ops = true
   ∧ one_session_per_user Scenario.one_session
   ∧ index_consistent Scenario.one_session)
  ∧ one_session_per_user (run ops Scenario.one_session)
  ∧ index_consistent (run ops Scenario.one_session).
Proof.
  intros ops.
  assert (one_session_per_user Scenario.one_session) as Hone.
  { unfold one_session_per_user.
    change (active_connections Scenario.one_session)
      with [("A", {| user_id := "u1"; username := "alice"; rooms := ∅;
                     connected_at := 100; ip_address := "10.0.0.1" |})].
    cbn. apply NoDup_singleton. }
  assert (index_consistent Scenario.one_session) as Hidx.
  { intros r. unfold index_consistent_at, members_of, live_members, live_users.
    change (active_connections Scenario.one_session)
      with [("A", {| user_id := "u1"; username := "alice"; rooms := ∅;
                     connected_at := 100; ip_address := "10.0.0.1" |})].
    change (room_users Scenario.one_session)
      with (∅ : gmap string (gset string)).
    rewrite lookup_empty. cbn.
    rewrite bool_decide_eq_false_2 by apply not_elem_of_empty. done. }
  split; [split; [reflexivity | split; [exact Hone | exact Hidx]] |].
  exact (index_consistent_with_one_session_per_user ops Scenario.one_session
           eq_refl Hone Hidx).
Defined.

(** ** The reaper against a voluntary disconnect *)

(** Outside of a request every [_leave_room_internal] of the teardown loop
    stops at [leave_room]: the loop only writes to the log. *)
Lemma reaper_leave_loop e session_id c room_ids w :
  dict_get session_id (active_connections w) = Some c →
  ∃ lines,
    for_each room_ids
      (fun room_id => _leave_room_internal None e session_id room_id) w
    = (Done tt, set_logger (fun g => g ++ lines) w).
Proof.
  revert w. induction room_ids as [|r room_ids IH]; intros w Hc.
  - exists []. unfold for_each, ret, set_logger. destruct w; cbn.
    by rewrite app_nil_r.
  - cbn [for_each]. unfold bind.
    rewrite (leave_room_internal_no_request e session_id r w c Hc).
    destruct (IH (set_logger (fun g => g ++ [(ERROR, "Leave room internal error")]) w))
      as [lines Hrest]; [done|].
    rewrite Hrest. exists ((ERROR, "Leave room internal error") :: lines).
    destruct w; unfold set_logger; cbn. by rewrite <- app_assoc.
Qed.

Lemma reaper_session_loop e session_ids w :
  ∃ w', for_each session_ids (fun session_id =>
          let* conns := gets active_connections in
          match dict_get session_id conns with
          | Some conn_info =>
              for_each (elements (rooms conn_info))
                (fun room_id => _leave_room_internal None e session_id room_id) >>>
              modify (set_active_connections (dict_del session_id)) >>>
              log INFO "Cleaned up inactive connection"
          | None => ret tt
          end) w = (Done tt, w')
    ∧ active_connections w'
      = fold_left (fun d k => dict_del k d) session_ids (active_connections w)
    ∧ room_users w' = room_users w
    ∧ user_rooms w' = user_rooms w
    ∧ db w' = db w
    ∧ outbox w' = outbox w.
Proof.
  set (body := fun session_id : string => _).
  revert w. induction session_ids as [|k session_ids IH]; intros w.
  - exists w. by cbn.
  - cbn [for_each fold_left]. unfold bind at 1. unfold body at 1.
    unfold bind at 1. unfold gets at 1.
    destruct (dict_get k (active_connections w)) as [c|] eqn:Hc.
    + unfold bind at 1.
      destruct (reaper_leave_loop e k c (elements (rooms c)) w Hc)
        as [lines ->].
      unfold bind at 1. unfold modify at 1. unfold log, modify.
      match goal with |- context [for_each session_ids body ?w1] =>
        destruct (IH w1) as (w' & Hrun & Hreg & Hru & Hur & Hdb & Hout)
      end.
      exists w'. rewrite Hrun. by cbn in *.
    + unfold ret at 1.
      destruct (IH w) as (w' & Hrun & Hreg & Hru & Hur & Hdb & Hout).
      exists w'. rewrite Hrun. repeat split; try done.
      rewrite Hreg. f_equal. clear -Hc.
      induction (active_connections w) as [|[k' v] d IHd]; [done|].
      cbn in *. destruct (String.eqb k k'); [done|]. by rewrite <- IHd.
Qed.

(** What one sweep does, whatever the world: it deletes the expired
    sessions from the registry and leaves both indexes, the store and the
    outbox as they were. *)
Lemma reaper_only_deletes_registry_entries e w :
  let w' := exec (_cleanup_inactive_connections e) w in
  active_connections w'
  = fold_left (fun d k => dict_del k d) (expired_sessions e w)
              (active_connections w)
  ∧ room_users w' = room_users w
  ∧ user_rooms w' = user_rooms w
  ∧ db w' = db w
  ∧ outbox w' = outbox w.
Proof.
  intros w'. subst w'. unfold exec.
  remember (_cleanup_inactive_connections e w) as r eqn:Hr.
  unfold _cleanup_inactive_connections, try_except in Hr.
  unfold bind at 1 in Hr. unfold gets at 1 in Hr.
  fold (expired_sessions e w) in Hr.
  destruct (reaper_session_loop e (expired_sessions e w) w)
    as (w' & Hrun & H).
  rewrite Hrun in Hr. subst r. exact H.
Qed.

(** C5 fails on the code.  alice is in [general] through session [A], which
    is older than 24 hours.  A voluntary disconnect of [A] takes alice out
    of both indexes and marks her membership row as left.  One sweep of the
    reaper removes [A] from the registry as well, but it runs outside of a
    request, so each leave stops at [leave_room]: both indexes still list
    alice and her row is still active. *)
Theorem reaper_differs_from_disconnect :
  let e := Scenario.at_ 90000 in
  let w := Scenario.one_joined in
  let swept := exec (_cleanup_inactive_connections e) w in
  let closed := exec (handle_disconnect e Scenario.A) w in
  expired_sessions e w = ["A"]
  ∧ active_connections swept = [] ∧ active_connections closed = []
  ∧ members_of "general" swept = {["u1"]} ∧ members_of "general" closed = ∅
  ∧ rooms_of "u1" swept = {["general"]} ∧ rooms_of "u1" closed = ∅
  ∧ map ur_is_active (user_room_rows (db swept)) = [true]
  ∧ map ur_is_active (user_room_rows (db closed)) = [false]
  ∧ end_state swept ≠ end_state closed.
Proof.
  intros e w swept closed.
  repeat (split; [reflexivity|]).
  intros H. apply (f_equal (fun s => map ur_is_active s.2)) in H.
  vm_compute in H. discriminate H.
Qed.

Lemma leave_loop_room_users request e session_id c room_ids w :
  dict_get session_id (active_connections w) = Some c →
  room_users
    (fold_left
       (fun w room_id =>
          exec (_leave_room_internal (Some request) e session_id room_id) w)
       room_ids w)
  = fold_left (fun m room_id => discard_from room_id (user_id c) m)
              room_ids (room_users w).
Proof.
  revert w c. induction room_ids as [|r room_ids IH]; intros w c Hc; [done|].
  cbn [fold_left].
  set (w1 := exec (_leave_room_internal (Some request) e session_id r) w).
  assert (dict_get session_id (active_connections w1)
          = Some (with_rooms (fun s => s ∖ {[r]}) c)
          ∧ room_users w1 = discard_from r (user_id c) (room_users w))
    as [Hc1 Hru1].
  { subst w1. unfold exec.
    rewrite (leave_room_internal_run request e _ _ w c Hc).
    destruct (found _ && negb _); cbn; by rewrite dict_get_alter_eq, Hc. }
  by rewrite (IH w1 _ Hc1), Hru1.
Qed.

Lemma discard_loop_lookup r u room_ids (m : gmap string (gset string)) :
  r ∈ room_ids →
  u ∉ default ∅
        (fold_left (fun m room_id => discard_from room_id u m) room_ids m !! r).
Proof.
  assert (∀ l m', u ∉ default ∅ (m' !! r) →
            u ∉ default ∅
                  (fold_left (fun m room_id => discard_from room_id u m) l m'
                   !! r)) as Hkeep.
  { induction l as [|r' l IH]; intros m' Hm'; [done|]. cbn [fold_left].
    apply IH. rewrite discard_from_lookup. destruct (decide _); set_solver. }
  revert m. induction room_ids as [|r' room_ids IH]; intros m Hin.
  - by apply elem_of_nil in Hin.
  - cbn [fold_left]. apply elem_of_cons in Hin as [<- | Hin]; [|by apply IH].
    apply Hkeep. rewrite discard_from_lookup.
    rewrite decide_True by done. set_solver.
Qed.

(** X24. In every world, for every live session that is in a room whose
    index entry lists its user: a voluntary disconnect takes the user out of
    that entry, a sweep of the reaper leaves the user in it. *)
Theorem reaper_leaves_members_behind e request w c room_id :
  dict_get (sid request) (active_connections w) = Some c →
  room_id ∈ rooms c →
  user_id c ∈ members_of room_id w →
  user_id c ∈ members_of room_id (exec (_cleanup_inactive_connections e) w)
  ∧ user_id c ∉ members_of room_id (exec (handle_disconnect e request) w).
Proof.
  intros Hc Hroom Hmember. split.
  - unfold members_of.
    by destruct (reaper_only_deletes_registry_entries e w) as (_ & -> & _).
  - unfold members_of, exec.
    remember (handle_disconnect e request w) as r eqn:Hr.
    unfold handle_disconnect, try_except in Hr.
    unfold bind at 1 in Hr. unfold gets at 1 in Hr. rewrite Hc in Hr.
    unfold bind at 1 in Hr.
    rewrite for_each_done in Hr by (intros; apply leave_room_internal_done).
    pose proof (leave_loop_room_users request e (sid request) c
                  (elements (rooms c)) w Hc) as Hloop.
    set (w1 := fold_left _ (elements (rooms c)) w) in *.
    unfold bind at 1 in Hr. unfold modify at 1 in Hr. unfold bind at 1 in Hr.
    destruct (log_security_event_memory e request "INFO"
                "WebSocket disconnection" (Some (user_id c))
                (set_active_connections (dict_del (sid request)) w1))
      as (Hdone & _ & Hru & _).
    unfold result, exec in *.
    destruct (log_security_event _ _ _ _ _ _) as [o w2]. cbn in *. subst o.
    unfold log, modify in Hr. subst r.
    cbn [snd room_users set_logger]. rewrite Hru, Hloop.
    apply discard_loop_lookup. by apply elem_of_elements.
Qed.

Lemma reaper_leaves_members_behind_witness :
  let c := {| user_id := "u1"; username := "alice"; rooms := {["general"]};
              connected_at := 100; ip_address := "10.0.0.1" |} in
  let e := Scenario.at_ 90000 in
  (dict_get "A" (active_connections Scenario.one_joined) = Some c
   ∧ "general" ∈ rooms c
   ∧ "u1" ∈ members_of "general" Scenario.one_joined)
  ∧ "u1" ∈ members_of "general"
             (exec (_cleanup_inactive_connections e) Scenario.one_joined)
  ∧ "u1" ∉ members_of "general"
             (exec (handle_disconnect e Scenario.A) Scenario.one_joined).
Proof.
  intros c e.
  assert ("general" ∈ rooms c) as Hroom by (vm_compute; reflexivity).
  assert ("u1" ∈ members_of "general" Scenario.one_joined) as Hmember.
  { vm_compute. reflexivity. }
  split; [split; [reflexivity | split; [exact Hroom | exact Hmember]] |].
  exact (reaper_leaves_members_behind e Scenario.A Scenario.one_joined c
           "general" eq_refl Hroom Hmember).
Defined.

(** The two teardown loops are the same code: run in the request of the
    session, the reaper's teardown ends in the state a voluntary disconnect
    ends in.  What separates the two is only where the reaper runs. *)
Lemma reap_in_request_matches_disconnect e request w :
  end_state (exec (reap_in_request e request) w)
  = end_state (exec (handle_disconnect e request) w).
Proof.
  unfold exec.
  remember (handle_disconnect e request w) as r eqn:Hr.
  remember (reap_in_request e request w) as r' eqn:Hr'.
  unfold handle_disconnect, try_except in Hr. unfold reap_in_request in Hr'.
  unfold bind at 1 in Hr. unfold gets at 1 in Hr.
  unfold bind at 1 in Hr'. unfold gets at 1 in Hr'.
  destruct (dict_get (sid request) (active_connections w)) as [c|] eqn:Hc.
  2: { unfold ret in Hr, Hr'. by subst r r'. }
  unfold bind at 1 in Hr. unfold bind at 1 in Hr'.
  rewrite for_each_done in Hr, Hr'
    by (intros; apply leave_room_internal_done).
  set (w1 := fold_left _ (elements (rooms c)) w) in *.
  unfold bind at 1 in Hr. unfold modify at 1 in Hr. unfold bind at 1 in Hr.
  unfold bind, modify, log in Hr'.
  destruct (log_security_event_memory e request "INFO"
              "WebSocket disconnection" (Some (user_id c))
              (set_active_connections (dict_del (sid request)) w1))
    as (Hdone & Hac & Hru & Hur & Hrows).
  unfold result, exec in *.
  destruct (log_security_event _ _ _ _ _ _) as [o w2]. cbn in *. subst o.
  unfold log, modify in Hr. subst r r'. unfold end_state. cbn.
  by rewrite Hac, Hru, Hur, Hrows.
Qed.

(** * The rest of the manager *)

(** ** Connecting *)

Lemma dict_get_set_eq {V} k (v : V) d : dict_get k (dict_set k v d) = Some v.
Proof.
  induction d as [|[k' v'] d IH]; cbn.
  - by rewrite String.eqb_refl.
  - destruct (String.eqb k k') eqn:Hk; cbn; rewrite ?Hk, ?String.eqb_refl; done.
Qed.

Lemma dict_set_fresh {V} k (v : V) d :
  dict_get k d = None → dict_set k v d = d ++ [(k, v)].
Proof.
  induction d as [|[k' v'] d IH]; [done|]. cbn.
  destruct (String.eqb k k'); [done|]. intros H. by rewrite IH.
Qed.

Lemma verify_session_token_run e t w :
  _verify_session_token e t w
  = (Done (authenticated_user (utcnow e) (db w) (Some {["token" := t]})), w).
Proof.
  unfold _verify_session_token, authenticated_user. unfold_m. cbn.
  rewrite lookup_singleton_eq.
  destruct (first_active_session (db w) t) as [s|]; [|done].
  destruct (is_expired (utcnow e) s); [done|].
  destruct (get_user (db w) (us_user_id s)) as [u|]; [|done].
  by destruct (is_active_user u).
Qed.

Lemma listed_rooms_logged f d uid :
  listed_rooms (with_system_logs f d) uid = listed_rooms d uid.
Proof. done. Qed.

(** What a connection attempt of an authenticated user does. *)
Lemma handle_connect_accepted e request auth w user :
  authenticated_user (utcnow e) (db w) auth = Some user →
  let w' := exec (handle_connect e request auth) w in
  let registry := dict_set (sid request) (new_connection e request user)
                    (active_connections w) in
  result (handle_connect e request auth) w = Done true
  ∧ active_connections w' = registry
  ∧ room_users w' = room_users w
  ∧ user_rooms w' = setdefault_empty (u_id user) (user_rooms w)
  ∧ sio_rooms w' = sio_rooms w
  ∧ sio_disconnected w' = sio_disconnected w
  ∧ user_room_rows (db w') = user_room_rows (db w)
  ∧ chat_messages (db w') = chat_messages (db w)
  ∧ outbox w'
    = outbox w ++
      (Reply (sid request),
       ev_connected (u_id user) (u_username user) (sid request) (utcnow e))
      :: match find_user_session (u_id user) registry with
         | Some s =>
             if str_truthy s
             then [(Room s, ev_available_rooms
                              (map (summary_of w)
                                   (listed_rooms (db w) (u_id user))))]
             else []
         | None => []
         end.
Proof.
  intros Hauth w' registry. subst w' registry.
  unfold authenticated_user in Hauth. unfold result, exec.
  remember (handle_connect e request auth w) as r eqn:Hr.
  unfold handle_connect, try_except in Hr.
  destruct (auth ≫= (.!! "token")) as [t|]; [|done].
  unfold bind at 1 in Hr. rewrite verify_session_token_run in Hr.
  unfold authenticated_user in Hr. cbn [mbind option_bind] in Hr.
  rewrite lookup_singleton_eq in Hr. cbn in Hr.
  destruct (first_active_session (db w) t) as [s|]; [|done].
  destruct (is_expired (utcnow e) s); [done|].
  destruct (get_user (db w) (us_user_id s)) as [u|]; [|done].
  destruct (is_active_user u); [|done]. injection Hauth as ->.
  unfold bind at 1 in Hr. unfold modify at 1 in Hr.
  unfold bind at 1 in Hr. unfold modify at 1 in Hr.
  unfold bind at 1 in Hr. unfold log_security_event, try_except, commit in Hr.
  destruct (commit_ok e).
  - unfold modify at 1 in Hr. unfold bind at 1 in Hr.
    unfold emit, modify at 1 in Hr. unfold bind at 1 in Hr.
    rewrite send_available_rooms_run in Hr. unfold bind, log, modify, ret in Hr.
    subst r. unfold push_target. cbn.
    repeat split.
    rewrite <- app_assoc. cbn. do 2 f_equal.
    by destruct (find_user_session _ _) as [s0|]; [destruct (str_truthy s0)|].
  - unfold raise, log, modify in Hr. unfold bind at 1 in Hr.
    unfold emit, modify at 1 in Hr. unfold bind at 1 in Hr.
    rewrite send_available_rooms_run in Hr. unfold bind, log, modify, ret in Hr.
    subst r. unfold push_target. cbn.
    repeat split.
    rewrite <- app_assoc. cbn. do 2 f_equal.
    by destruct (find_user_session _ _) as [s0|]; [destruct (str_truthy s0)|].
Qed.

Lemma dict_get_set_ne {V} k k' (v : V) d :
  k' ≠ k → dict_get k' (dict_set k v d) = dict_get k' d.
Proof.
  intros Hne. induction d as [|[k0 v0] d IH]; cbn.
  - by rewrite (proj2 (String.eqb_neq k' k)).
  - destruct (String.eqb k k0) eqn:Hk; cbn.
    + apply String.eqb_eq in Hk as <-.
      by rewrite (proj2 (String.eqb_neq k' k)).
    + by rewrite IH.
Qed.

Lemma rooms_of_setdefault u u' w :
  default ∅ (setdefault_empty u (user_rooms w) !! u') = rooms_of u' w.
Proof.
  unfold rooms_of, setdefault_empty.
  destruct (user_rooms w !! u) eqn:Hu; [done|].
  destruct (decide (u' = u)) as [->|Hne].
  - by rewrite lookup_insert_eq, Hu.
  - by rewrite lookup_insert_ne.
Qed.

Lemma found_setdefault u (m : gmap string (gset string)) :
  found (setdefault_empty u m !! u) = true.
Proof.
  unfold setdefault_empty. destruct (m !! u) eqn:Hu.
  - by rewrite Hu.
  - by rewrite lookup_insert_eq.
Qed.

Lemma find_user_session_app uid d k c :
  find_user_session uid (d ++ [(k, c)])
  = match find_user_session uid d with
    | Some s => Some s
    | None => if String.eqb (user_id c) uid then Some k else None
    end.
Proof.
  induction d as [|[k' c'] d IH]; [done|]. cbn.
  by destruct (String.eqb (user_id c') uid).
Qed.

(** X1. A connection attempt with the token of a usable session is
    accepted: the handler returns [True], the session is registered for the
    owner of the token with no room and the time of the attempt, every other
    session stays as it was, the user has an entry in [user_rooms]
    afterwards (with the rooms it had, if any), [room_users] is untouched,
    the transport is not closed, and the first event is [connected], to the
    new session.  This does not depend on the store accepting the security
    log. *)
Theorem connect_registers_session e request auth w user :
  authenticated_user (utcnow e) (db w) auth = Some user →
  let m := handle_connect e request auth in
  result m w = Done true
  ∧ dict_get (sid request) (active_connections (exec m w))
    = Some {| user_id := u_id user; username := u_username user; rooms := ∅;
              connected_at := utcnow e; ip_address := remote_addr request |}
  ∧ (∀ k, k ≠ sid request →
       dict_get k (active_connections (exec m w))
       = dict_get k (active_connections w))
  ∧ room_users (exec m w) = room_users w
  ∧ found (user_rooms (exec m w) !! u_id user) = true
  ∧ (∀ u, rooms_of u (exec m w) = rooms_of u w)
  ∧ sio_disconnected (exec m w) = sio_disconnected w
  ∧ ∃ rest,
      emitted m w
      = (Reply (sid request),
         ev_connected (u_id user) (u_username user) (sid request) (utcnow e))
        :: rest.
Proof.
  intros Hauth m. subst m.
  destruct (handle_connect_accepted e request auth w user Hauth)
    as (Hres & Hreg & Hru & Hur & _ & Hdis & _ & _ & Hout).
  split; [exact Hres|]. rewrite Hreg, Hru, Hur, Hdis.
  split; [apply dict_get_set_eq|].
  split; [intros k Hk; by apply dict_get_set_ne|].
  split; [done|]. split; [apply found_setdefault|].
  split; [intros u; unfold rooms_of at 1; rewrite Hur; apply rooms_of_setdefault|].
  split; [done|]. eexists. apply emitted_app. exact Hout.
Qed.

Lemma connect_registers_session_witness :
  authenticated_user 100 (db Scenario.boot) (Scenario.token "tok-alice")
  = Some Scenario.alice
  ∧ let m := handle_connect (Scenario.store_down 100) Scenario.A
               (Scenario.token "tok-alice") in
    result m Scenario.boot = Done true
    ∧ dict_get "A" (active_connections (exec m Scenario.boot))
      = Some {| user_id := "u1"; username := "alice"; rooms := ∅;
                connected_at := 100; ip_address := "10.0.0.1" |}
    ∧ (∀ k, k ≠ "A" →
         dict_get k (active_connections (exec m Scenario.boot))
         = dict_get k (active_connections Scenario.boot))
    ∧ room_users (exec m Scenario.boot) = room_users Scenario.boot
    ∧ found (user_rooms (exec m Scenario.boot) !! "u1") = true
    ∧ (∀ u, rooms_of u (exec m Scenario.boot) = rooms_of u Scenario.boot)
    ∧ sio_disconnected (exec m Scenario.boot) = sio_disconnected Scenario.boot
    ∧ ∃ rest,
        emitted m Scenario.boot
        = (Reply "A", ev_connected "u1" "alice" "A" 100) :: rest.
Proof.
  split; [reflexivity|].
  apply (connect_registers_session (Scenario.store_down 100) Scenario.A
           (Scenario.token "tok-alice") Scenario.boot Scenario.alice).
  reflexivity.
Defined.

(** X2. When the session id is new and the store is up, an accepted
    connection emits exactly two events: [connected] to the new session, and
    the [available_rooms] list to the oldest live session of the same user --
    to the new session only when the user had no other one. *)
Theorem connect_sends_rooms_to_oldest_session e request auth w user :
  authenticated_user (utcnow e) (db w) auth = Some user →
  dict_get (sid request) (active_connections w) = None →
  commit_ok e = true →
  let oldest :=
    default (sid request)
            (find_user_session (u_id user) (active_connections w)) in
  str_truthy oldest = true →
  emitted (handle_connect e request auth) w
  = [(Reply (sid request),
      ev_connected (u_id user) (u_username user) (sid request) (utcnow e));
     (Room oldest,
      ev_available_rooms
        (map (summary_of w) (listed_rooms (db w) (u_id user))))].
Proof.
  intros Hauth Hfresh Hup oldest Holdest. subst oldest.
  destruct (handle_connect_accepted e request auth w user Hauth)
    as (_ & _ & _ & _ & _ & _ & _ & _ & Hout).
  apply emitted_app. rewrite Hout. f_equal. f_equal.
  rewrite (dict_set_fresh _ _ _ Hfresh), find_user_session_app.
  unfold new_connection. cbn [user_id]. rewrite String.eqb_refl.
  destruct (find_user_session (u_id user) (active_connections w)) as [s|];
    cbn in *; by rewrite Holdest.
Qed.

Lemma connect_sends_rooms_to_oldest_session_witness :
  (authenticated_user 200 (db Scenario.one_session) (Scenario.token "tok-alice")
   = Some Scenario.alice
   ∧ dict_get "B" (active_connections Scenario.one_session) = None
   ∧ commit_ok (Scenario.at_ 200) = true
   ∧ str_truthy
       (default "B" (find_user_session "u1"
                       (active_connections Scenario.one_session))) = true)
  ∧ emitted (handle_connect (Scenario.at_ 200) Scenario.B
               (Scenario.token "tok-alice")) Scenario.one_session
    = [(Reply "B", ev_connected "u1" "alice" "B" 200);
       (Room "A",
        ev_available_rooms
          (map (summary_of Scenario.one_session)
               (listed_rooms (db Scenario.one_session) "u1")))].
Proof.
  split; [repeat split; reflexivity|].
  apply (connect_sends_rooms_to_oldest_session (Scenario.at_ 200) Scenario.B
           (Scenario.token "tok-alice") Scenario.one_session Scenario.alice);
    reflexivity.
Defined.

(** ** Joining *)

Lemma checked_join_failure_admitted request data w c :
  dict_get (sid request) (active_connections w) = Some c →
  join_admitted request data w
  = negb (found (checked_join_failure c (db w) data)).
Proof.
  intros Hc. unfold join_admitted, checked_join_failure. rewrite Hc.
  destruct (truthy (data !! "room_id")); cbn; [|done].
  destruct (get_room (db w) (default "" (data !! "room_id"))) as [room|];
    [|done].
  destruct (cr_is_active room); cbn; [|done].
  destruct (cr_is_public room); cbn; [done|].
  by destruct (found (first_active_membership _ _ _)).
Qed.

Lemma join_room_refused e request data w c msg :
  dict_get (sid request) (active_connections w) = Some c →
  checked_join_failure c (db w) data = Some msg →
  handle_join_room e request data w
  = (Done tt,
     set_outbox (fun o => o ++ [(Reply (sid request), ev_error msg)]) w).
Proof.
  intros Hc Hmsg. unfold checked_join_failure in Hmsg.
  unfold handle_join_room, try_except.
  unfold bind at 1. unfold gets at 1. rewrite Hc.
  destruct (truthy (data !! "room_id")); cbn [negb] in *.
  2: { injection Hmsg as <-. done. }
  unfold bind at 1. unfold gets at 1.
  destruct (get_room (db w) (default "" (data !! "room_id"))) as [room|].
  2: { injection Hmsg as <-. done. }
  destruct (cr_is_active room); cbn [negb] in *.
  2: { injection Hmsg as <-. done. }
  destruct (negb (cr_is_public room) && _); [|done].
  injection Hmsg as <-. done.
Qed.

(** X3. [handle_join_room] checks, in this order: that the session is
    registered ("Not authenticated"), that a room id is given ("Room ID
    required"), that the room exists and is active ("Room not found or
    inactive"), and that the room is public or the user holds an active
    membership row ("Access denied to private room").  The first check that
    fails is answered with its error, to the session of the request, and
    nothing else happens: no Socket.IO room is entered, registry, indexes,
    store and log stay as they were.  A request that passes all four is
    carried out: the room is in the session's [rooms] afterwards. *)
Theorem join_checks_in_handler_order e request data w :
  let w' := exec (handle_join_room e request data) w in
  let refused msg :=
    set_outbox (fun o => o ++ [(Reply (sid request), ev_error msg)]) w in
  match dict_get (sid request) (active_connections w) with
  | None => w' = refused "Not authenticated"
  | Some c =>
      match checked_join_failure c (db w) data with
      | Some msg => w' = refused msg
      | None =>
          default "" (data !! "room_id") ∈ joined_rooms (sid request) w'
      end
  end.
Proof.
  intros w' refused. subst w' refused. cbn beta.
  destruct (dict_get (sid request) (active_connections w)) as [c|] eqn:Hc.
  - destruct (checked_join_failure c (db w) data) as [msg|] eqn:Hmsg.
    + unfold exec. by rewrite (join_room_refused e request data w c msg).
    + assert (join_admitted request data w = true) as Hadm
        by (by rewrite (checked_join_failure_admitted _ _ _ c), Hmsg).
      destruct (join_room_run e request data w c Hadm Hc) as (Hreg & _).
      unfold joined_rooms. rewrite Hreg. unfold joined_memory.
      cbn [active_connections set_user_rooms set_room_users
           set_active_connections set_sio_rooms].
      rewrite dict_get_alter_eq, Hc. cbn. apply elem_of_union_singleton.
  - unfold exec, handle_join_room, try_except, bind, gets. by rewrite Hc.
Qed.

(** ** Notifications and the list of the users of a room *)

Lemma is_online_sessions uid w :
  is_online uid w = negb (bool_decide (sessions_of uid w = [])).
Proof.
  unfold is_online, sessions_of.
  induction (active_connections w) as [|[k c] d IH]; [done|]. cbn.
  destruct (String.eqb (user_id c) uid); cbn; [done | exact IH].
Qed.

(** X4. [send_notification] emits the notification once to every live
    session of the user, in the order the sessions connected, and to nobody
    else; a user without a live session gets nothing.  (The two per-user
    pushes of the handlers reach one session only.) *)
Theorem notification_reaches_every_session uid notification w :
  send_notification uid notification w
  = map (fun session_id => (Only (Room session_id), nt_notification notification))
        (sessions_of uid w)
  ∧ (send_notification uid notification w = [] ↔ is_online uid w = false).
Proof.
  assert (send_notification uid notification w
          = map (fun session_id =>
                   (Only (Room session_id), nt_notification notification))
                (sessions_of uid w)) as Heq.
  { unfold send_notification, sessions_of.
    induction (active_connections w) as [|[k c] d IH]; [done|]. cbn.
    destruct (String.eqb (user_id c) uid); cbn; by rewrite IH. }
  split; [exact Heq|].
  rewrite Heq, is_online_sessions.
  destruct (sessions_of uid w) as [|s l]; cbn; split; done.
Qed.

Lemma get_user_id d uid user : get_user d uid = Some user → u_id user = uid.
Proof.
  unfold get_user. intros H. apply find_some in H as [_ H].
  by apply String.eqb_eq.
Qed.

Lemma users_data_ids w uids :
  map ru_id (users_data w uids)
  = List.filter (fun uid => found (get_user (db w) uid)) uids.
Proof.
  induction uids as [|uid uids IH]; [done|]. cbn.
  destruct (get_user (db w) uid) as [user|] eqn:Hu; cbn; [|exact IH].
  by rewrite IH, (get_user_id _ _ _ Hu).
Qed.

Lemma users_data_online w uids :
  Forall (fun u => ru_online u = is_online (ru_id u) w) (users_data w uids).
Proof.
  induction uids as [|uid uids IH]; [constructor|]. cbn.
  destruct (get_user (db w) uid) as [user|] eqn:Hu; [|exact IH].
  constructor; [|exact IH]. cbn. by rewrite (get_user_id _ _ _ Hu).
Qed.

Lemma live_members_online room_id uid w :
  uid ∈ live_members room_id w → is_online uid w = true.
Proof.
  intros Hin. apply live_users_subset in Hin.
  unfold is_online. apply existsb_exists.
  apply list_elem_of_fmap in Hin as (kc & -> & Hkc).
  exists kc. split; [by apply list_elem_of_In | apply String.eqb_refl].
Qed.

(** X5. A session that is in a room and asks for its users is answered with
    one [room_users] event: it lists, each once, the users of the room's
    [room_users] entry that have a row in the users table, each with the
    [online] flag saying whether some live session belongs to the user.  When
    the entry holds only users that are in the room through a live session,
    every listed user is online. *)
Theorem room_users_payload request data w c room_id :
  dict_get (sid request) (active_connections w) = Some c →
  data !! "room_id" = Some room_id →
  room_id ∈ rooms c →
  ∃ listed,
    handle_get_room_users request data w
    = [(Only (Reply (sid request)), nt_room_users room_id listed)]
    ∧ map ru_id listed
      = List.filter (fun uid => found (get_user (db w) uid))
                    (elements (members_of room_id w))
    ∧ NoDup (map ru_id listed)
    ∧ Forall (fun u => ru_online u = is_online (ru_id u) w) listed
    ∧ (members_of room_id w ⊆ live_members room_id w →
       Forall (fun u => ru_online u = true) listed).
Proof.
  intros Hc Hrid Hin.
  exists (users_data w (elements (members_of room_id w))).
  split.
  { unfold handle_get_room_users. rewrite Hc, Hrid.
    by rewrite bool_decide_eq_true_2. }
  split; [apply users_data_ids|].
  split.
  { rewrite users_data_ids. apply NoDup_ListNoDup, List.NoDup_filter, NoDup_ListNoDup, NoDup_elements. }
  split; [apply users_data_online|].
  intros Hsub.
  pose proof (users_data_ids w (elements (members_of room_id w))) as Hids.
  pose proof (users_data_online w (elements (members_of room_id w))) as Hon.
  rewrite Forall_forall in Hon. apply Forall_forall. intros u Hu.
  rewrite (Hon u Hu). apply (live_members_online room_id). apply Hsub.
  apply elem_of_elements.
  assert (ru_id u ∈ map ru_id (users_data w (elements (members_of room_id w))))
    as Hid by (by apply list_elem_of_fmap_2).
  rewrite Hids in Hid. apply list_elem_of_In, List.filter_In in Hid as [Hid _].
  by apply list_elem_of_In.
Qed.

Lemma room_users_payload_witness :
  let c := {| user_id := "u1"; username := "alice"; rooms := {["general"]};
              connected_at := 100; ip_address := "10.0.0.1" |} in
  let w := Scenario.one_joined in
  (dict_get "A" (active_connections w) = Some c
   ∧ Scenario.room "general" !! "room_id" = Some "general"
   ∧ "general" ∈ rooms c)
  ∧ ∃ listed,
      handle_get_room_users Scenario.A (Scenario.room "general") w
      = [(Only (Reply "A"), nt_room_users "general" listed)]
      ∧ map ru_id listed
        = List.filter (fun uid => found (get_user (db w) uid))
                      (elements (members_of "general" w))
      ∧ NoDup (map ru_id listed)
      ∧ Forall (fun u => ru_online u = is_online (ru_id u) w) listed
      ∧ (members_of "general" w ⊆ live_members "general" w →
         Forall (fun u => ru_online u = true) listed).
Proof.
  intros c w.
  assert ("general" ∈ rooms c) as Hroom by (vm_compute; reflexivity).
  split; [split; [reflexivity | split; [reflexivity | exact Hroom]] |].
  exact (room_users_payload Scenario.A (Scenario.room "general") w c "general"
           eq_refl eq_refl Hroom).
Defined.

(** ** After a leave *)

Lemma handle_leave_room_registry e request data w c :
  dict_get (sid request) (active_connections w) = Some c →
  truthy (data !! "room_id") = true →
  active_connections (exec (handle_leave_room e request data) w)
  = dict_alter (with_rooms (fun s => s ∖ {[default "" (data !! "room_id")]}))
               (sid request) (active_connections w).
Proof.
  intros Hc Hrid. unfold exec.
  rewrite (handle_leave_room_run e request data w c Hc Hrid),
    (leave_room_internal_run request e _ _ w c Hc).
  by destruct (found _ && negb _).
Qed.

(** X6. Once a live session has asked to leave a room, it is out of it,
    whether or not the store accepted the write: the room is not in the
    session's [rooms]; its typing indicators for the room are dropped; its
    request for the users of the room is answered "You are not in this
    room"; and a message it sends to the room is answered with an error and
    not stored. *)
Theorem left_session_is_out_of_the_room e request data w c room_id :
  dict_get (sid request) (active_connections w) = Some c →
  data !! "room_id" = Some room_id →
  room_id ≠ "" →
  let w' := exec (handle_leave_room e request data) w in
  joined_rooms (sid request) w' = rooms c ∖ {[room_id]}
  ∧ handle_typing_start request data w' = []
  ∧ handle_typing_stop request data w' = []
  ∧ handle_get_room_users request data w'
    = [(Only (Reply (sid request)), nt_error "You are not in this room")]
  ∧ ∀ e' data', data' !! "room_id" = Some room_id →
      let m := handle_send_message e' request data' in
      db (exec m w') = db w'
      ∧ emitted m w'
        = [(Reply (sid request),
            ev_error (if str_truthy (strip (default "" (data' !! "content")))
                      then "You are not in this room"
                      else "Room ID and content required"))].
Proof.
  intros Hc Hrid Hne w'.
  assert (truthy (data !! "room_id") = true) as Htr
    by (rewrite Hrid; by destruct room_id).
  assert (dict_get (sid request) (active_connections w')
          = Some (with_rooms (fun s => s ∖ {[room_id]}) c)) as Hc'.
  { subst w'. rewrite (handle_leave_room_registry e request data w c Hc Htr).
    by rewrite dict_get_alter_eq, Hc, Hrid. }
  assert (bool_decide (room_id ∈ rooms (with_rooms (fun s => s ∖ {[room_id]}) c))
          = false) as Hout.
  { apply bool_decide_eq_false_2. cbn. set_solver. }
  split; [unfold joined_rooms; by rewrite Hc'|].
  unfold handle_typing_start, handle_typing_stop, handle_get_room_users.
  cbn zeta. rewrite Hc', Htr, Hrid. cbn [default from_option id]. rewrite Hout.
  do 3 (split; [done|]).
  intros e' data' Hrid'.
  pose proof (send_message_run e' request data' w' _ Hc') as Hrun.
  cbn zeta in Hrun. unfold checked_send_failure in Hrun.
  rewrite Hrid' in Hrun. rewrite Hrid in Htr. rewrite Htr in Hrun.
  cbn [negb orb default from_option id] in Hrun. rewrite Hout in Hrun.
  destruct (str_truthy (strip (default "" (data' !! "content"))));
    cbn [negb] in Hrun; destruct Hrun as [Ho Hd];
    (split; [exact Hd | by apply emitted_app]).
Qed.

Lemma left_session_is_out_of_the_room_witness :
  let c := {| user_id := "u1"; username := "alice"; rooms := {["general"]};
              connected_at := 100; ip_address := "10.0.0.1" |} in
  let request := Scenario.A in
  let data := Scenario.room "general" in
  let w' := exec (handle_leave_room (Scenario.store_down 200) request data)
                 Scenario.one_joined in
  (dict_get "A" (active_connections Scenario.one_joined) = Some c
   ∧ data !! "room_id" = Some "general"
   ∧ "general" ≠ "")
  ∧ joined_rooms "A" w' = rooms c ∖ {["general"]}
  ∧ handle_typing_start request data w' = []
  ∧ handle_typing_stop request data w' = []
  ∧ handle_get_room_users request data w'
    = [(Only (Reply "A"), nt_error "You are not in this room")]
  ∧ ∀ e' data', data' !! "room_id" = Some "general" →
      let m := handle_send_message e' request data' in
      db (exec m w') = db w'
      ∧ emitted m w'
        = [(Reply "A",
            ev_error (if str_truthy (strip (default "" (data' !! "content")))
                      then "You are not in this room"
                      else "Room ID and content required"))].
Proof.
  intros c request data w'.
  assert ("general" ≠ "") as Hne by discriminate.
  split; [split; [reflexivity | split; [reflexivity | exact Hne]] |].
  exact (left_session_is_out_of_the_room (Scenario.store_down 200) request data
           Scenario.one_joined c "general" eq_refl eq_refl Hne).
Defined.

(** ** The list of active users *)

Lemma dict_get_alter_ne {V} (f : V → V) k k' (d : list (string * V)) :
  k' ≠ k → dict_get k' (dict_alter f k d) = dict_get k' d.
Proof.
  intros Hne. induction d as [|[k0 v0] d IH]; [done|]. cbn.
  destruct (String.eqb k k0) eqn:Hk; cbn; [|by rewrite IH].
  apply String.eqb_eq in Hk as <-.
  by rewrite (proj2 (String.eqb_neq k' k)).
Qed.

Lemma dict_alter_keys {V} (f : V → V) k (d : list (string * V)) :
  map fst (dict_alter f k d) = map fst d.
Proof.
  induction d as [|[k0 v0] d IH]; [done|]. cbn.
  destruct (String.eqb k k0); cbn; [done | by rewrite IH].
Qed.

Lemma dict_get_None_keys {V} k (d : list (string * V)) :
  dict_get k d = None → k ∉ map fst d.
Proof.
  induction d as [|[k0 v0] d IH]; cbn.
  - intros _ H. by apply elem_of_nil in H.
  - destruct (String.eqb_spec k k0) as [->|Hne]; [done|].
    intros Hd Hin. apply elem_of_cons in Hin as [Heq | Hin]; [done|].
    by apply IH.
Qed.

Lemma dict_get_Some_elem {V} k (v : V) (d : list (string * V)) :
  dict_get k d = Some v → (k, v) ∈ d.
Proof.
  induction d as [|[k0 v0] d IH]; [done|]. cbn.
  destruct (String.eqb_spec k k0) as [->|Hne].
  - intros [= ->]. by left.
  - intros H. right. by apply IH.
Qed.

Lemma dict_get_NoDup {V} k (v : V) (d : list (string * V)) :
  NoDup (map fst d) → (k, v) ∈ d → dict_get k d = Some v.
Proof.
  induction d as [|[k0 v0] d IH]; cbn.
  - intros _ H. by apply elem_of_nil in H.
  - intros Hnd Hin. apply NoDup_cons in Hnd as [Hfresh Hnd].
    apply elem_of_cons in Hin as [[= -> ->] | Hin].
    + by rewrite String.eqb_refl.
    + destruct (String.eqb_spec k k0) as [->|Hne]; [|by apply IH].
      exfalso. apply Hfresh.
      by apply (list_elem_of_fmap_2 fst) in Hin.
Qed.

Lemma count_connections_get uid l acc :
  dict_get uid (fold_left count_connection l acc)
  = let n := length (List.filter (fun c => String.eqb (user_id c) uid) l) in
    match dict_get uid acc with
    | Some a =>
        Some {| au_user_id := au_user_id a; au_username := au_username a;
                au_connected_at := au_connected_at a; au_rooms := au_rooms a;
                au_connections := (au_connections a + n)%nat |}
    | None =>
        match find (fun c => String.eqb (user_id c) uid) l with
        | Some c =>
            Some {| au_user_id := uid; au_username := username c;
                    au_connected_at := connected_at c;
                    au_rooms := size (rooms c); au_connections := n |}
        | None => None
        end
    end.
Proof.
  revert acc. induction l as [|c l IH]; intros acc.
  - cbn. destruct (dict_get uid acc) as [[]|]; [|done].
    cbn. by rewrite Nat.add_0_r.
  - cbn [fold_left]. rewrite IH. clear IH. cbn zeta.
    unfold count_connection. rewrite dict_mem_get. cbn [List.filter find].
    destruct (String.eqb_spec (user_id c) uid) as [<-|Hne].
    + destruct (dict_get (user_id c) acc) as [a|] eqn:Ha; cbn [found].
      * rewrite dict_get_alter_eq, Ha. cbn. by rewrite Nat.add_succ_r.
      * by rewrite dict_get_set_eq.
    + destruct (dict_get (user_id c) acc) as [a|] eqn:Ha; cbn [found].
      * by rewrite dict_get_alter_ne.
      * by rewrite dict_get_set_ne.
Qed.

Lemma count_connections_keys l acc :
  NoDup (map fst acc) →
  Forall (fun ka => au_user_id ka.2 = ka.1) acc →
  NoDup (map fst (fold_left count_connection l acc))
  ∧ Forall (fun ka => au_user_id ka.2 = ka.1) (fold_left count_connection l acc).
Proof.
  revert acc. induction l as [|c l IH]; intros acc Hnd Hid; [done|].
  cbn [fold_left]. apply IH; unfold count_connection; rewrite dict_mem_get.
  - destruct (dict_get (user_id c) acc) as [a|] eqn:Ha; cbn [found].
    + by rewrite dict_alter_keys.
    + rewrite (dict_set_fresh _ _ _ Ha), map_app. cbn.
      apply NoDup_app. split; [done|]. split; [|apply NoDup_singleton].
      intros k Hk Hk'. apply list_elem_of_singleton in Hk' as ->.
      by apply dict_get_None_keys in Ha.
  - destruct (dict_get (user_id c) acc) as [a|] eqn:Ha; cbn [found].
    + clear Ha Hnd. induction Hid as [|[k0 a0] d H0 Hd IHd]; [constructor|].
      cbn. destruct (String.eqb (user_id c) k0); constructor; done.
    + rewrite (dict_set_fresh _ _ _ Ha). apply Forall_app. split; [done|].
      by constructor.
Qed.

Lemma sessions_of_length uid w :
  length (sessions_of uid w)
  = length (List.filter (fun c => String.eqb (user_id c) uid)
                        (map snd (active_connections w))).
Proof.
  unfold sessions_of.
  induction (active_connections w) as [|[k c] d IH]; [done|]. cbn.
  destruct (String.eqb (user_id c) uid); cbn; by rewrite IH.
Qed.

Lemma is_online_find uid w :
  is_online uid w
  = found (find (fun c => String.eqb (user_id c) uid)
                (map snd (active_connections w))).
Proof.
  unfold is_online.
  induction (active_connections w) as [|[k c] d IH]; [done|]. cbn.
  by destruct (String.eqb (user_id c) uid).
Qed.

(** X7. [get_active_users] lists every user that has a live session, once.
    The entry of a user counts all of the user's sessions in [connections],
    while [username], [connected_at] and [rooms] are those of the user's
    oldest session alone: [rooms] is the number of rooms of that one
    session, not of the user. *)
Theorem active_users_counts_connections w :
  let conns := map snd (active_connections w) in
  NoDup (map au_user_id (get_active_users w))
  ∧ (∀ uid, uid ∈ map au_user_id (get_active_users w)
            ↔ is_online uid w = true)
  ∧ ∀ a, a ∈ get_active_users w →
      au_connections a = length (sessions_of (au_user_id a) w)
      ∧ ∃ c, find (fun c => String.eqb (user_id c) (au_user_id a)) conns
             = Some c
             ∧ au_username a = username c
             ∧ au_connected_at a = connected_at c
             ∧ au_rooms a = size (rooms c).
Proof.
  intros conns. unfold get_active_users. fold conns.
  destruct (count_connections_keys conns [] (NoDup_nil_2) (Forall_nil_2 _))
    as [Hnd Hid].
  set (d := fold_left count_connection conns []) in *.
  assert (map au_user_id (map snd d) = map fst d) as Hkeys.
  { clear Hnd. induction Hid as [|[k a] d' H0 Hd IHd]; [done|].
    cbn in *. by rewrite IHd, H0. }
  assert (∀ uid, dict_get uid d
                 = match find (fun c => String.eqb (user_id c) uid) conns with
                   | Some c =>
                       Some {| au_user_id := uid; au_username := username c;
                               au_connected_at := connected_at c;
                               au_rooms := size (rooms c);
                               au_connections := length (sessions_of uid w) |}
                   | None => None
                   end) as Hget.
  { intros uid. unfold d. rewrite count_connections_get. cbn.
    by rewrite sessions_of_length. }
  split; [by rewrite Hkeys|]. split.
  - intros uid. rewrite Hkeys, is_online_find. fold conns. split.
    + intros Hin. apply list_elem_of_fmap in Hin as ([k a] & -> & Hka).
      apply (dict_get_NoDup _ _ _ Hnd) in Hka. rewrite Hget in Hka. cbn in *.
      by destruct (find _ conns).
    + intros Hon. specialize (Hget uid).
      destruct (find _ conns) as [c|]; [|done].
      apply dict_get_Some_elem in Hget.
      by apply (list_elem_of_fmap_2 fst) in Hget.
  - intros a Ha. apply list_elem_of_fmap in Ha as ([k a'] & -> & Hka).
    pose proof Hka as Hk. rewrite Forall_forall in Hid.
    apply Hid in Hk. cbn in Hk. cbn [snd].
    apply (dict_get_NoDup _ _ _ Hnd) in Hka. rewrite Hget in Hka.
    rewrite Hk. destruct (find _ conns) as [c|]; [|done].
    injection Hka as <-. cbn. split; [done|]. by exists c.
Qed.

(** ** What the requests do to the dictionaries *)

Lemma dict_alter_compose {V} (f g : V → V) k (d : list (string * V)) :
  dict_alter f k (dict_alter g k d) = dict_alter (fun v => f (g v)) k d.
Proof.
  induction d as [|[k0 v0] d IH]; [done|]. cbn.
  destruct (String.eqb k k0) eqn:Hk; cbn; rewrite Hk; [done | by rewrite IH].
Qed.

Lemma dict_alter_ext {V} (f g : V → V) k (d : list (string * V)) :
  (∀ v, f v = g v) → dict_alter f k d = dict_alter g k d.
Proof.
  intros Hfg. induction d as [|[k0 v0] d IH]; [done|]. cbn.
  destruct (String.eqb k k0); [by rewrite Hfg | by rewrite IH].
Qed.

Lemma with_rooms_nothing c : with_rooms (fun s => s ∖ list_to_set []) c = c.
Proof. destruct c. unfold with_rooms. cbn. f_equal. set_solver. Qed.

Lemma with_rooms_difference c r room_ids :
  with_rooms (fun s => s ∖ list_to_set room_ids)
             (with_rooms (fun s => s ∖ {[r]}) c)
  = with_rooms (fun s => s ∖ list_to_set (r :: room_ids)) c.
Proof. destruct c. unfold with_rooms. cbn. f_equal. set_solver. Qed.

(** The dictionaries after one [_leave_room_internal] of a registered
    session, in a request: the store does not matter. *)
Lemma leave_room_internal_memory request e session_id room_id w c :
  dict_get session_id (active_connections w) = Some c →
  let w' := exec (_leave_room_internal (Some request) e session_id room_id) w in
  active_connections w'
  = dict_alter (with_rooms (fun s => s ∖ {[room_id]})) session_id
               (active_connections w)
  ∧ room_users w' = discard_from room_id (user_id c) (room_users w)
  ∧ user_rooms w' = discard_from (user_id c) room_id (user_rooms w)
  ∧ sio_rooms w' = discard_from room_id (sid request) (sio_rooms w)
  ∧ sio_disconnected w' = sio_disconnected w.
Proof.
  intros Hc w'. subst w'. unfold exec.
  rewrite (leave_room_internal_run request e _ _ w c Hc).
  by destruct (found _ && negb _).
Qed.

(** The dictionaries after the loop [for room_id in rooms:
    self._leave_room_internal(session_id, room_id)]. *)
Lemma leave_loop_memory request e session_id c room_ids w :
  dict_get session_id (active_connections w) = Some c →
  let w' := fold_left
              (fun w room_id =>
                 exec (_leave_room_internal (Some request) e session_id room_id) w)
              room_ids w in
  active_connections w'
  = dict_alter (with_rooms (fun s => s ∖ list_to_set room_ids)) session_id
               (active_connections w)
  ∧ room_users w'
    = fold_left (fun m room_id => discard_from room_id (user_id c) m)
                room_ids (room_users w)
  ∧ user_rooms w'
    = fold_left (fun m room_id => discard_from (user_id c) room_id m)
                room_ids (user_rooms w)
  ∧ sio_rooms w'
    = fold_left (fun m room_id => discard_from room_id (sid request) m)
                room_ids (sio_rooms w)
  ∧ sio_disconnected w' = sio_disconnected w.
Proof.
  revert w c. induction room_ids as [|r room_ids IH]; intros w c Hc.
  - cbn. repeat split. symmetry.
    apply (dict_alter_id _ _ _ c Hc), with_rooms_nothing.
  - cbn [fold_left].
    destruct (leave_room_internal_memory request e session_id r w c Hc)
      as (Hreg & Hru & Hur & Hsio & Hdis).
    set (w1 := exec (_leave_room_internal (Some request) e session_id r) w) in *.
    assert (dict_get session_id (active_connections w1)
            = Some (with_rooms (fun s => s ∖ {[r]}) c)) as Hc1
      by (by rewrite Hreg, dict_get_alter_eq, Hc).
    destruct (IH w1 _ Hc1) as (Hreg' & Hru' & Hur' & Hsio' & Hdis').
    cbn zeta. rewrite Hreg', Hru', Hur', Hsio', Hdis'.
    rewrite Hreg, Hru, Hur, Hsio, Hdis. cbn [user_id with_rooms].
    repeat split. rewrite dict_alter_compose.
    apply dict_alter_ext. intros v. apply with_rooms_difference.
Qed.

Lemma log_security_event_rest e request lvl message uid w :
  let w' := exec (log_security_event e request lvl message uid) w in
  sio_rooms w' = sio_rooms w
  ∧ sio_disconnected w' = sio_disconnected w
  ∧ outbox w' = outbox w
  ∧ chat_messages (db w') = chat_messages (db w)
  ∧ chat_rooms (db w') = chat_rooms (db w)
  ∧ users (db w') = users (db w).
Proof.
  unfold log_security_event. unfold_m. by destruct (commit_ok e).
Qed.

(** A disconnect of a registered session is the loop of leaves, then the
    removal of the session from the registry. *)
Lemma handle_disconnect_memory e request w c :
  dict_get (sid request) (active_connections w) = Some c →
  let w1 := fold_left
              (fun w room_id =>
                 exec (_leave_room_internal (Some request) e (sid request)
                                            room_id) w)
              (elements (rooms c)) w in
  let w' := exec (handle_disconnect e request) w in
  active_connections w' = dict_del (sid request) (active_connections w1)
  ∧ room_users w' = room_users w1
  ∧ user_rooms w' = user_rooms w1
  ∧ sio_rooms w' = sio_rooms w1
  ∧ sio_disconnected w' = sio_disconnected w1
  ∧ user_room_rows (db w') = user_room_rows (db w1)
  ∧ chat_messages (db w') = chat_messages (db w1)
  ∧ outbox w' = outbox w1.
Proof.
  intros Hc w1 w'. subst w'. unfold exec.
  remember (handle_disconnect e request w) as r eqn:Hr.
  unfold handle_disconnect, try_except in Hr.
  unfold bind at 1 in Hr. unfold gets at 1 in Hr. rewrite Hc in Hr.
  unfold bind at 1 in Hr.
  rewrite for_each_done in Hr by (intros; apply leave_room_internal_done).
  fold w1 in Hr.
  unfold bind at 1 in Hr. unfold modify at 1 in Hr. unfold bind at 1 in Hr.
  destruct (log_security_event_memory e request "INFO"
              "WebSocket disconnection" (Some (user_id c))
              (set_active_connections (dict_del (sid request)) w1))
    as (Hdone & Hac & Hru & Hur & Hrows).
  destruct (log_security_event_rest e request "INFO"
              "WebSocket disconnection" (Some (user_id c))
              (set_active_connections (dict_del (sid request)) w1))
    as (Hsio & Hdis & Hout & Hmsg & _).
  unfold result, exec in *.
  destruct (log_security_event _ _ _ _ _ _) as [o w2]. cbn in *. subst o.
  unfold log, modify in Hr. subst r. cbn. by rewrite Hac, Hru, Hur.
Qed.

Lemma handle_disconnect_gone e request w :
  dict_get (sid request) (active_connections w) = None →
  handle_disconnect e request w = (Done tt, w).
Proof.
  intros Hc. unfold handle_disconnect, try_except, bind, gets. by rewrite Hc.
Qed.

Lemma handle_connect_rejected e request auth w :
  authenticated_user (utcnow e) (db w) auth = None →
  handle_connect e request auth w
  = (Done false,
     set_sio_disconnected (fun l => l ++ [sid request])
       (set_logger (fun g => g ++
          [(WARNING,
            match auth ≫= (.!! "token") with
            | None => "Unauthenticated connection attempt"
            | Some _ => "Invalid token connection attempt"
            end)]) w)).
Proof.
  intros Hauth. unfold handle_connect, try_except.
  unfold authenticated_user in Hauth.
  destruct (auth ≫= (.!! "token")) as [t|] eqn:Ht.
  - unfold bind at 1. rewrite verify_session_token_run.
    unfold authenticated_user. cbn [mbind option_bind].
    rewrite lookup_singleton_eq. cbn [mbind option_bind].
    rewrite Hauth. by unfold_m.
  - by unfold_m.
Qed.

(** A send changes the store, the outbox and the log only. *)
Lemma send_message_memory e request data w :
  let w' := exec (handle_send_message e request data) w in
  active_connections w' = active_connections w
  ∧ room_users w' = room_users w
  ∧ user_rooms w' = user_rooms w
  ∧ sio_rooms w' = sio_rooms w
  ∧ sio_disconnected w' = sio_disconnected w
  ∧ user_room_rows (db w') = user_room_rows (db w).
Proof.
  unfold handle_send_message. unfold_m. cbn.
  destruct (dict_get (sid request) (active_connections w)) as [c|]; [|done].
  destruct (negb (truthy (data !! "room_id")) || _); cbn; [done|].
  destruct (negb (bool_decide _)); cbn; [done|].
  destruct (first_active_membership _ _ _) as [[? ? ? ? ? ? [] ?]|];
    cbn; try done; by destruct (commit_ok e).
Qed.

(** ** Entries of the indexes are never removed *)

Lemma discard_from_is_Some k x k' (m : gmap string (gset string)) :
  is_Some (m !! k') → is_Some (discard_from k x m !! k').
Proof.
  unfold discard_from. intros Hk'. destruct (m !! k) as [s|] eqn:Hk; [|done].
  destruct (decide (k' = k)) as [->|Hne].
  - rewrite lookup_insert_eq. eauto.
  - by rewrite lookup_insert_ne.
Qed.

Lemma setdefault_empty_is_Some k k' (m : gmap string (gset string)) :
  is_Some (m !! k') → is_Some (setdefault_empty k m !! k').
Proof.
  unfold setdefault_empty. intros Hk'. destruct (m !! k) as [s|] eqn:Hk; [done|].
  destruct (decide (k' = k)) as [->|Hne].
  - rewrite lookup_insert_eq. eauto.
  - by rewrite lookup_insert_ne.
Qed.

Lemma add_to_is_Some k x k' (m : gmap string (gset string)) :
  is_Some (m !! k') → is_Some (default m (add_to k x m) !! k').
Proof.
  unfold add_to. intros Hk'. destruct (m !! k) as [s|] eqn:Hk; [|done]. cbn.
  destruct (decide (k' = k)) as [->|Hne].
  - rewrite lookup_insert_eq. eauto.
  - by rewrite lookup_insert_ne.
Qed.

Lemma discard_loop_is_Some (f : string → string * string) k' room_ids
    (m : gmap string (gset string)) :
  is_Some (m !! k') →
  is_Some (fold_left (fun m r => discard_from (f r).1 (f r).2 m) room_ids m
           !! k').
Proof.
  revert m. induction room_ids as [|r room_ids IH]; intros m Hk'; [done|].
  cbn [fold_left]. by apply IH, discard_from_is_Some.
Qed.

(** No request and no sweep removes an entry of [room_users] or of
    [user_rooms]. *)
Lemma step_keeps_entries o w k :
  (is_Some (room_users w !! k) → is_Some (room_users (step w o) !! k))
  ∧ (is_Some (user_rooms w !! k) → is_Some (user_rooms (step w o) !! k)).
Proof.
  destruct o as [e request auth | e request | e request data | e request data
                 | e request data | e]; cbn [step].
  - destruct (authenticated_user (utcnow e) (db w) auth) as [user|] eqn:Hauth.
    + destruct (handle_connect_accepted e request auth w user Hauth)
        as (_ & _ & -> & -> & _).
      split; [done | apply setdefault_empty_is_Some].
    + unfold exec. by rewrite (handle_connect_rejected e request auth w Hauth).
  - destruct (dict_get (sid request) (active_connections w)) as [c|] eqn:Hc.
    + destruct (handle_disconnect_memory e request w c Hc)
        as (_ & -> & -> & _).
      destruct (leave_loop_memory request e (sid request) c
                  (elements (rooms c)) w Hc) as (_ & -> & -> & _).
      split.
      * apply (discard_loop_is_Some (fun r => (r, user_id c))).
      * apply (discard_loop_is_Some (fun r => (user_id c, r))).
    + unfold exec. by rewrite (handle_disconnect_gone e request w Hc).
  - destruct (join_admitted request data w) eqn:Hadm.
    + pose proof Hadm as Hlive. unfold join_admitted in Hlive.
      destruct (dict_get (sid request) (active_connections w)) as [c|] eqn:Hc;
        [|done].
      destruct (join_room_run e request data w c Hadm Hc) as (_ & -> & -> & _).
      unfold joined_memory.
      cbn [room_users user_rooms set_user_rooms set_room_users
           set_active_connections set_sio_rooms].
      split; [|apply add_to_is_Some].
      intros Hk.
      destruct (decide (k = default "" (data !! "room_id"))) as [->|Hne].
      * rewrite lookup_insert_eq. eauto.
      * by rewrite lookup_insert_ne.
    + by destruct (join_room_rejected e request data w Hadm) as (_ & -> & -> & _).
  - destruct (found (dict_get (sid request) (active_connections w))
              && truthy (data !! "room_id")) eqn:Hgo.
    + apply andb_true_iff in Hgo as [Hlive Hrid].
      apply found_Some in Hlive as [c Hc]. unfold exec.
      rewrite (handle_leave_room_run e request data w c Hc Hrid).
      destruct (leave_room_internal_memory request e (sid request)
                  (default "" (data !! "room_id")) w c Hc) as (_ & Hru & Hur & _).
      unfold exec in Hru, Hur. rewrite Hru, Hur.
      split; apply discard_from_is_Some.
    + unfold exec. by rewrite (handle_leave_room_skipped e request data w Hgo).
  - by destruct (send_message_memory e request data w) as (_ & -> & -> & _).
  - by destruct (reaper_only_deletes_registry_entries e w) as (_ & -> & -> & _).
Qed.

Lemma run_keeps_entries ops w k :
  (is_Some (room_users w !! k) → is_Some (room_users (run ops w) !! k))
  ∧ (is_Some (user_rooms w !! k) → is_Some (user_rooms (run ops w) !! k)).
Proof.
  revert w. induction ops as [|o ops IH]; intros w; [done|].
  unfold run. cbn [fold_left].
  destruct (step_keeps_entries o w k) as [H1 H2].
  destruct (IH (step w o)) as [H3 H4]. unfold run in *. split; auto.
Qed.

(** X8. No request and no sweep ever removes an entry of [room_users] or of
    [user_rooms]: a leave or a disconnect empties the set and keeps the
    key.  So the [total_rooms] of [get_room_stats] never goes down, and a
    room that was joined once keeps receiving the broadcasts of
    [broadcast_system_message], also when nobody is left in it. *)
Theorem index_entries_are_never_removed ops w :
  let w' := run ops w in
  dom (room_users w) ⊆ dom (room_users w')
  ∧ dom (user_rooms w) ⊆ dom (user_rooms w')
  ∧ (total_rooms (get_room_stats w) ≤ total_rooms (get_room_stats w'))%nat
  ∧ ∀ e room_id message message_type,
      broadcast_system_message e room_id message message_type w ≠ [] →
      broadcast_system_message e room_id message message_type w'
      = [(Only (Room room_id),
          nt_system_message message message_type (utcnow e) room_id)].
Proof.
  intros w'. subst w'.
  assert (dom (room_users w) ⊆ dom (room_users (run ops w))) as Hru.
  { intros k Hk. apply elem_of_dom. apply elem_of_dom in Hk.
    by apply run_keeps_entries. }
  split; [exact Hru|]. split.
  { intros k Hk. apply elem_of_dom. apply elem_of_dom in Hk.
    by apply run_keeps_entries. }
  split.
  { unfold get_room_stats. cbn [total_rooms].
    rewrite <- !size_dom. by apply subseteq_size. }
  intros e room_id message message_type. unfold broadcast_system_message.
  destruct (room_users w !! room_id) as [s|] eqn:Hs; [|done]. intros _.
  destruct (run_keeps_entries ops w room_id) as [Hkeep _].
  destruct Hkeep as [s' ->]; [eauto | done].
Qed.

(** ** Connected users have an entry in [user_rooms] *)

Lemma map_user_id_set k c (d : list (string * Conn)) uid :
  uid ∈ map (fun kc => user_id kc.2) (dict_set k c d) →
  uid = user_id c ∨ uid ∈ map (fun kc => user_id kc.2) d.
Proof.
  induction d as [|[k0 c0] d IH]; cbn.
  - intros H. apply list_elem_of_singleton in H. by left.
  - destruct (String.eqb k k0); cbn; rewrite !elem_of_cons.
    + intros [H | H]; [by left | right; by right].
    + intros [H | H]; [right; by left |].
      destruct (IH H) as [H' | H']; [by left | right; by right].
Qed.

Lemma map_user_id_del_loop ks (d : list (string * Conn)) :
  sublist (map (fun kc => user_id kc.2) (fold_left (fun d k => dict_del k d) ks d))
          (map (fun kc => user_id kc.2) d).
Proof.
  revert d. induction ks as [|k ks IH]; intros d; [done|]. cbn [fold_left].
  etrans; [apply IH | apply map_user_id_del].
Qed.

Lemma sublist_elem_of {A} (l1 l2 : list A) x : sublist l1 l2 → x ∈ l1 → x ∈ l2.
Proof.
  intros Hsub Hx. apply sublist_submseteq in Hsub.
  by apply (elem_of_submseteq _ _ _ Hx).
Qed.

(** The users of the registered sessions after a step were registered
    before it, or got their entry in [user_rooms] in it. *)
Lemma step_users o w uid :
  uid ∈ map (fun kc => user_id kc.2) (active_connections (step w o)) →
  uid ∈ map (fun kc => user_id kc.2) (active_connections w)
  ∨ is_Some (user_rooms (step w o) !! uid).
Proof.
  destruct o as [e request auth | e request | e request data | e request data
                 | e request data | e]; cbn [step].
  - destruct (authenticated_user (utcnow e) (db w) auth) as [user|] eqn:Hauth.
    + destruct (handle_connect_accepted e request auth w user Hauth)
        as (_ & -> & _ & -> & _).
      intros Hin. apply map_user_id_set in Hin as [-> | Hin]; [|by left].
      right. cbn. pose proof (found_setdefault (u_id user) (user_rooms w)) as H.
      by destruct (setdefault_empty _ _ !! _).
    + unfold exec. rewrite (handle_connect_rejected e request auth w Hauth).
      by left.
  - destruct (dict_get (sid request) (active_connections w)) as [c|] eqn:Hc.
    + destruct (handle_disconnect_memory e request w c Hc) as (-> & _).
      destruct (leave_loop_memory request e (sid request) c
                  (elements (rooms c)) w Hc) as (-> & _).
      intros Hin. left.
      apply (sublist_elem_of _ _ _ (map_user_id_del _ _)) in Hin.
      by rewrite map_user_id_alter in Hin.
    + unfold exec. rewrite (handle_disconnect_gone e request w Hc). by left.
  - destruct (join_admitted request data w) eqn:Hadm.
    + pose proof Hadm as Hlive. unfold join_admitted in Hlive.
      destruct (dict_get (sid request) (active_connections w)) as [c|] eqn:Hc;
        [|done].
      destruct (join_room_run e request data w c Hadm Hc) as (-> & _).
      unfold joined_memory.
      cbn [active_connections set_user_rooms set_room_users
           set_active_connections set_sio_rooms].
      rewrite map_user_id_alter. by left.
    + destruct (join_room_rejected e request data w Hadm) as (-> & _). by left.
  - destruct (found (dict_get (sid request) (active_connections w))
              && truthy (data !! "room_id")) eqn:Hgo.
    + apply andb_true_iff in Hgo as [Hlive Hrid].
      apply found_Some in Hlive as [c Hc].
      rewrite (handle_leave_room_registry e request data w c Hc Hrid).
      rewrite map_user_id_alter. by left.
    + unfold exec. rewrite (handle_leave_room_skipped e request data w Hgo).
      by left.
  - destruct (send_message_memory e request data w) as (-> & _). by left.
  - destruct (reaper_only_deletes_registry_entries e w) as (-> & _).
    intros Hin. left.
    by apply (sublist_elem_of _ _ _ (map_user_id_del_loop _ _)) in Hin.
Qed.

Lemma run_keeps_users_indexed ops w :
  users_indexed w → users_indexed (run ops w).
Proof.
  revert w. induction ops as [|o ops IH]; intros w Hidx; [done|].
  unfold run. cbn [fold_left]. apply IH. intros uid Hin.
  apply step_users in Hin as [Hin | Hin]; [|done].
  by apply step_keeps_entries, Hidx.
Qed.

Lemma users_indexed_fresh w : active_connections w = [] → users_indexed w.
Proof. intros Hnil uid Hin. rewrite Hnil in Hin. by apply elem_of_nil in Hin. Qed.

(** X9. Every user of a registered session has an entry in [user_rooms],
    and no sequence of requests and sweeps breaks this (a manager that has
    just started has no session).  Hence [self.user_rooms[user_id]] in
    [handle_join_room] never raises [KeyError]: with the store up, a join
    that passes the guards is carried out -- the room is in the session's
    [rooms], the user in the room's [room_users] entry, the room in the
    user's [user_rooms] entry, the user holds an active membership row, and
    no error event is emitted. *)
Theorem admitted_join_is_carried_out ops w0 e request data :
  users_indexed w0 →
  commit_ok e = true →
  let w := run ops w0 in
  join_admitted request data w = true →
  let room_id := default "" (data !! "room_id") in
  let m := handle_join_room e request data in
  users_indexed w
  ∧ ∃ c, dict_get (sid request) (active_connections w) = Some c
         ∧ room_id ∈ joined_rooms (sid request) (exec m w)
         ∧ user_id c ∈ members_of room_id (exec m w)
         ∧ room_id ∈ rooms_of (user_id c) (exec m w)
         ∧ found (first_active_membership (db (exec m w)) (user_id c) room_id)
           = true
         ∧ surfaces_no_error m w.
Proof.
  intros Hidx0 Hup w Hadm room_id m.
  assert (users_indexed w) as Hidx by (by apply run_keeps_users_indexed).
  split; [exact Hidx|].
  pose proof Hadm as Hlive. unfold join_admitted in Hlive.
  destruct (dict_get (sid request) (active_connections w)) as [c|] eqn:Hc;
    [|done].
  exists c. split; [done|].
  assert (is_Some (user_rooms w !! user_id c)) as [s Hs].
  { apply Hidx. apply dict_get_elem_of in Hc.
    by apply (list_elem_of_fmap_2 (fun kc : string * Conn => user_id kc.2)) in Hc. }
  destruct (join_room_run e request data w c Hadm Hc)
    as (Hreg & Hru & Hur & _ & Hrest).
  rewrite Hs, Hup in Hrest. cbn [found andb] in Hrest.
  destruct Hrest as (Hdb & _ & Hout).
  fold m room_id in Hreg, Hru, Hur, Hdb, Hout.
  unfold joined_rooms, members_of, rooms_of, surfaces_no_error.
  rewrite Hreg, Hru, Hur, Hdb. unfold joined_memory.
  cbn [active_connections room_users user_rooms set_user_rooms set_room_users
       set_active_connections set_sio_rooms].
  rewrite dict_get_alter_eq, Hc, lookup_insert_eq. unfold add_to. rewrite Hs.
  cbn [fmap option_fmap option_map default rooms with_rooms from_option id].
  rewrite lookup_insert_eq. cbn [default from_option id].
  split; [apply elem_of_union_singleton|].
  split; [apply elem_of_union_singleton|].
  split; [apply elem_of_union_singleton|].
  split; [apply joined_rows_active|].
  rewrite (emitted_app _ _ _ Hout).
  constructor; [done|]. constructor; [done|].
  destruct (push_target (user_id c) w); [constructor; [done|]|]; constructor.
Qed.

Lemma admitted_join_is_carried_out_witness :
  let ops := [Connect (Scenario.at_ 100) Scenario.A (Scenario.token "tok-alice")] in
  let e := Scenario.at_ 101 in
  let data := Scenario.room "general" in
  let w := run ops Scenario.boot in
  let m := handle_join_room e Scenario.A data in
  (users_indexed Scenario.boot
   ∧ commit_ok e = true
   ∧ join_admitted Scenario.A data w = true)
  ∧ users_indexed w
  ∧ ∃ c, dict_get "A" (active_connections w) = Some c
         ∧ "general" ∈ joined_rooms "A" (exec m w)
         ∧ user_id c ∈ members_of "general" (exec m w)
         ∧ "general" ∈ rooms_of (user_id c) (exec m w)
         ∧ found (first_active_membership (db (exec m w)) (user_id c) "general")
           = true
         ∧ surfaces_no_error m w.
Proof.
  intros ops e data w m.
  pose proof (users_indexed_fresh Scenario.boot eq_refl) as Hidx.
  split; [split; [exact Hidx | split; reflexivity] |].
  exact (admitted_join_is_carried_out ops Scenario.boot e Scenario.A data
           Hidx eq_refl eq_refl).
Defined.

(** ** [room_users] lists only users who are in the room *)

Lemma live_users_app_empty room_id d k c :
  rooms c = ∅ → live_users room_id (d ++ [(k, c)]) = live_users room_id d.
Proof.
  intros Hc. induction d as [|[k0 c0] d IH].
  - cbn [app]. rewrite live_users_cons, Hc.
    rewrite bool_decide_eq_false_2 by apply not_elem_of_empty.
    unfold live_users. cbn. set_solver.
  - cbn [app]. by rewrite !live_users_cons, IH.
Qed.

(** Removing a room from the [rooms] of one session takes at most the user
    of that session out of the room. *)
Lemma live_users_leave_sup r r' k c d u :
  dict_get k d = Some c →
  u ∈ live_users r' d →
  (r' = r → u ≠ user_id c) →
  u ∈ live_users r' (dict_alter (with_rooms (fun s => s ∖ {[r]})) k d).
Proof.
  induction d as [|[k0 c0] d IH]; [done|]. cbn [dict_get dict_alter].
  destruct (String.eqb k k0) eqn:Hk.
  - intros [= ->]. rewrite !live_users_cons, !elem_of_union. cbn.
    intros [Hu | Hu] Hne; [left | by right].
    destruct (bool_decide (r' ∈ rooms c)) eqn:Hin;
      [|by apply elem_of_empty in Hu].
    apply bool_decide_eq_true_1 in Hin. apply elem_of_singleton in Hu.
    rewrite bool_decide_eq_true_2; [by apply elem_of_singleton|].
    apply elem_of_difference. split; [done|].
    intros Hr. apply elem_of_singleton in Hr. by apply Hne.
  - intros Hc. rewrite !live_users_cons, !elem_of_union.
    intros [Hu | Hu] Hne; [by left | right]. by apply IH.
Qed.

Lemma leave_internal_keeps_no_ghost request e session_id room_id w :
  no_ghost_members w →
  no_ghost_members
    (exec (_leave_room_internal (Some request) e session_id room_id) w).
Proof.
  intros Hng.
  destruct (dict_get session_id (active_connections w)) as [c|] eqn:Hc.
  - destruct (leave_room_internal_memory request e session_id room_id w c Hc)
      as (Hreg & Hru & _).
    intros r' u. unfold members_of, live_members. rewrite Hreg, Hru.
    rewrite members_of_leave. intros Hu.
    apply (live_users_leave_sup _ _ _ c); [done | |].
    + apply Hng. destruct (decide (r' = room_id)) as [->|]; set_solver.
    + intros ->. rewrite decide_True in Hu by done. set_solver.
  - unfold exec. by rewrite (leave_room_internal_gone _ e _ _ w Hc).
Qed.

Lemma leave_loop_keeps_no_ghost request e session_id room_ids w :
  no_ghost_members w →
  no_ghost_members
    (fold_left
       (fun w room_id =>
          exec (_leave_room_internal (Some request) e session_id room_id) w)
       room_ids w).
Proof.
  revert w. induction room_ids as [|r room_ids IH]; intros w Hng; [done|].
  cbn [fold_left]. by apply IH, leave_internal_keeps_no_ghost.
Qed.

Lemma step_keeps_no_ghost o w :
  request_trace [o] w = true →
  no_ghost_members w → no_ghost_members (step w o).
Proof.
  intros Hreq Hng.
  destruct o as [e request auth | e request | e request data | e request data
                 | e request data | e]; cbn [step]; cbn in Hreq.
  - rewrite andb_true_r, dict_mem_get in Hreq.
    destruct (dict_get (sid request) (active_connections w)) eqn:Hfresh;
      [done|].
    destruct (authenticated_user (utcnow e) (db w) auth) as [user|] eqn:Hauth.
    + destruct (handle_connect_accepted e request auth w user Hauth)
        as (_ & Hreg & Hru & _).
      intros r. unfold members_of, live_members. rewrite Hreg, Hru.
      rewrite (dict_set_fresh _ _ _ Hfresh), live_users_app_empty by done.
      apply Hng.
    + unfold exec. by rewrite (handle_connect_rejected e request auth w Hauth).
  - destruct (dict_get (sid request) (active_connections w)) as [c|] eqn:Hc.
    + destruct (handle_disconnect_memory e request w c Hc) as (Hreg & Hru & _).
      destruct (leave_loop_memory request e (sid request) c
                  (elements (rooms c)) w Hc) as (Hreg1 & _).
      pose proof (leave_loop_keeps_no_ghost request e (sid request)
                    (elements (rooms c)) w Hng) as Hng1.
      set (w1 := fold_left _ (elements (rooms c)) w) in *.
      intros r. unfold members_of, live_members. rewrite Hreg, Hru.
      rewrite (live_users_del r _ (with_rooms
                 (fun s => s ∖ list_to_set (elements (rooms c))) c)).
      * apply Hng1.
      * by rewrite Hreg1, dict_get_alter_eq, Hc.
      * cbn. rewrite list_to_set_elements_L. set_solver.
    + unfold exec. by rewrite (handle_disconnect_gone e request w Hc).
  - destruct (join_admitted request data w) eqn:Hadm.
    + pose proof Hadm as Hlive. unfold join_admitted in Hlive.
      destruct (dict_get (sid request) (active_connections w)) as [c|] eqn:Hc;
        [|done].
      destruct (join_room_run e request data w c Hadm Hc) as (Hreg & Hru & _).
      intros r. unfold members_of, live_members. rewrite Hreg, Hru.
      unfold joined_memory.
      cbn [active_connections room_users set_user_rooms set_room_users
           set_active_connections set_sio_rooms].
      rewrite members_of_join, (live_users_join _ _ _ c) by done.
      specialize (Hng r). specialize (Hng (default "" (data !! "room_id"))) as Hng'.
      unfold live_members in *.
      destruct (decide _) as [->|]; set_solver.
    + destruct (join_room_rejected e request data w Hadm) as (Hreg & Hru & _).
      intros r. unfold members_of, live_members. rewrite Hreg, Hru. apply Hng.
  - destruct (found (dict_get (sid request) (active_connections w))
              && truthy (data !! "room_id")) eqn:Hgo.
    + apply andb_true_iff in Hgo as [Hlive Hrid].
      apply found_Some in Hlive as [c Hc]. unfold exec.
      rewrite (handle_leave_room_run e request data w c Hc Hrid).
      by apply leave_internal_keeps_no_ghost.
    + unfold exec. by rewrite (handle_leave_room_skipped e request data w Hgo).
  - destruct (send_message_memory e request data w) as (Hreg & Hru & _).
    intros r. unfold members_of, live_members. rewrite Hreg, Hru. apply Hng.
  - done.
Qed.

(** X10. In every sequence of requests, whatever the number of sessions a
    user has, the [room_users] entry of a room holds only users who are in
    the room through a registered session: a request may drop a user from
    the entry too early, it never leaves one behind.  (Only the sweep of the
    background task does.) *)
Theorem room_index_lists_only_live_members ops w :
  request_trace ops w = true →
  no_ghost_members w →
  no_ghost_members (run ops w).
Proof.
  revert w. induction ops as [|o ops IH]; intros w Hreq Hng; [done|].
  unfold run. cbn [fold_left]. cbn [request_trace] in Hreq.
  apply andb_true_iff in Hreq as [Ho Hreq].
  apply IH; [done|]. apply step_keeps_no_ghost; [|done].
  cbn [request_trace]. by rewrite Ho.
Qed.

Lemma room_index_lists_only_live_members_witness :
  let ops := [Connect (Scenario.at_ 100) Scenario.A (Scenario.token "tok-alice");
              Connect (Scenario.at_ 100) Scenario.B (Scenario.token "tok-alice");
              Join (Scenario.at_ 101) Scenario.A (Scenario.room "general");
              Join (Scenario.at_ 102) Scenario.B (Scenario.room "general");
              Leave (Scenario.at_ 200) Scenario.A (Scenario.room "general")] in
  (request_trace ops Scenario.boot = true ∧ no_ghost_members Scenario.boot)
  ∧ no_ghost_members (run ops Scenario.boot).
Proof.
  intros ops.
  assert (no_ghost_members Scenario.boot) as Hng.
  { intros r u Hu. unfold members_of in Hu.
    change (room_users Scenario.boot) with (∅ : gmap string (gset string)) in Hu.
    rewrite lookup_empty in Hu. by apply elem_of_empty in Hu. }
  split; [split; [reflexivity | exact Hng] |].
  exact (room_index_lists_only_live_members ops Scenario.boot eq_refl Hng).
Defined.

(** ** Stored messages *)

(** X11. A message that passes the checks of [handle_send_message] is
    stored, when the store accepts it, as exactly one new row, the last of
    the table: it carries the user of the session, a room the session is
    in, the time of the request, and the content of the request with the
    white space around it removed -- a content that is not empty and that
    [strip] leaves as it is.  The one event emitted is the [new_message]
    broadcast to that room, with the id, the content and the type of the
    row. *)
Theorem stored_message_is_trimmed e request data w c :
  dict_get (sid request) (active_connections w) = Some c →
  checked_send_failure c (db w) data = None →
  commit_ok e = true →
  let m := handle_send_message e request data in
  ∃ row,
    chat_messages (db (exec m w)) = chat_messages (db w) ++ [row]
    ∧ cm_user_id row = user_id c
    ∧ cm_room_id row ∈ rooms c
    ∧ data !! "room_id" = Some (cm_room_id row)
    ∧ cm_content row = strip (default "" (data !! "content"))
    ∧ cm_content row ≠ ""
    ∧ strip (cm_content row) = cm_content row
    ∧ cm_created_at row = utcnow e
    ∧ cm_is_deleted row = false
    ∧ emitted m w
      = [(Room (cm_room_id row),
          ev_new_message (cm_id row) (user_id c) (username c) (cm_content row)
                         (cm_message_type row) (cm_created_at row)
                         (cm_room_id row))].
Proof.
  intros Hc Hok Hup m. subst m.
  pose proof (send_message_run e request data w c Hc) as Hrun.
  cbn zeta in Hrun. rewrite Hok, Hup in Hrun. destruct Hrun as [Hout Hdb].
  unfold checked_send_failure in Hok.
  destruct (data !! "room_id") as [room_id|] eqn:Hrid; [|done].
  cbn [truthy] in Hok.
  destruct (str_truthy room_id) eqn:Hroom; [|done].
  destruct (str_truthy (strip (default "" (data !! "content")))) eqn:Hcontent;
    [|done].
  cbn [negb orb default from_option id] in Hok.
  destruct (bool_decide (room_id ∈ rooms c)) eqn:Hin; [|done].
  apply bool_decide_eq_true_1 in Hin.
  exists (message_row e c data). rewrite Hdb. unfold message_row.
  rewrite Hrid.
  cbn [chat_messages with_chat_messages cm_user_id cm_room_id cm_content
       cm_created_at cm_is_deleted cm_id cm_message_type default from_option id].
  split; [done|]. split; [done|]. split; [done|]. split; [done|].
  split; [done|].
  split; [intros Hempty; by rewrite Hempty in Hcontent|].
  split; [apply strip_idemp|]. split; [done|]. split; [done|].
  apply emitted_app. rewrite Hout. unfold message_broadcast. by rewrite Hrid.
Qed.

Lemma stored_message_is_trimmed_witness :
  let c := {| user_id := "u1"; username := "alice"; rooms := {["general"]};
              connected_at := 100; ip_address := "10.0.0.1" |} in
  let e := Scenario.at_ 200 in
  let data := Scenario.message "general" "  hello world  " in
  let w := Scenario.one_joined in
  let m := handle_send_message e Scenario.A data in
  (dict_get "A" (active_connections w) = Some c
   ∧ checked_send_failure c (db w) data = None
   ∧ commit_ok e = true)
  ∧ ∃ row,
      chat_messages (db (exec m w)) = chat_messages (db w) ++ [row]
      ∧ cm_user_id row = user_id c
      ∧ cm_room_id row ∈ rooms c
      ∧ data !! "room_id" = Some (cm_room_id row)
      ∧ cm_content row = strip (default "" (data !! "content"))
      ∧ cm_content row ≠ ""
      ∧ strip (cm_content row) = cm_content row
      ∧ cm_created_at row = utcnow e
      ∧ cm_is_deleted row = false
      ∧ emitted m w
        = [(Room (cm_room_id row),
            ev_new_message (cm_id row) (user_id c) (username c) (cm_content row)
                           (cm_message_type row) (cm_created_at row)
                           (cm_room_id row))].
Proof.
  intros c e data w m.
  split; [repeat split; reflexivity|].
  exact (stored_message_is_trimmed e Scenario.A data w c eq_refl eq_refl eq_refl).
Defined.

(** ** The rooms on offer *)

Lemma first_active_membership_found d uid room_id :
  found (first_active_membership d uid room_id)
  = has_active_membership d uid room_id.
Proof. unfold first_active_membership, has_active_membership. apply found_find. Qed.

(** X12. The [available_rooms] list and the guards of a join agree: for a
    registered session and a room of the store (found under its id, the id
    not empty), the room is on the list [_send_available_rooms] builds for
    the user exactly when [handle_join_room] admits the session to it. *)
Theorem offered_rooms_are_the_joinable_ones request data w c room :
  dict_get (sid request) (active_connections w) = Some c →
  get_room (db w) (cr_id room) = Some room →
  data !! "room_id" = Some (cr_id room) →
  cr_id room ≠ "" →
  room ∈ listed_rooms (db w) (user_id c)
  ↔ join_admitted request data w = true.
Proof.
  intros Hc Hroom Hrid Hne. unfold join_admitted, listed_rooms.
  rewrite Hc, Hrid. cbn [default from_option id truthy]. rewrite Hroom.
  rewrite first_active_membership_found.
  assert (str_truthy (cr_id room) = true) as -> by (by destruct (cr_id room)).
  cbn [andb].
  assert (In room (chat_rooms (db w))) as Hin.
  { unfold get_room in Hroom. by apply find_some in Hroom as [? _]. }
  rewrite elem_of_app, !list_elem_of_In, !List.filter_In.
  destruct (cr_is_active room), (cr_is_public room),
    (has_active_membership (db w) (user_id c) (cr_id room)); cbn; split;
    try done; try tauto; intros [[_ H] | [_ H]]; done.
Qed.

Lemma offered_rooms_are_the_joinable_ones_witness :
  let c := {| user_id := "u1"; username := "alice"; rooms := ∅;
              connected_at := 100; ip_address := "10.0.0.1" |} in
  let w := Scenario.one_session in
  let data := Scenario.room "general" in
  (dict_get "A" (active_connections w) = Some c
   ∧ get_room (db w) (cr_id Scenario.general) = Some Scenario.general
   ∧ data !! "room_id" = Some (cr_id Scenario.general)
   ∧ cr_id Scenario.general ≠ "")
  ∧ (Scenario.general ∈ listed_rooms (db w) (user_id c)
     ↔ join_admitted Scenario.A data w = true).
Proof.
  intros c w data.
  assert (cr_id Scenario.general ≠ "") as Hne by discriminate.
  split; [split; [reflexivity | split; [reflexivity | split; [reflexivity | exact Hne]]] |].
  exact (offered_rooms_are_the_joinable_ones Scenario.A data w c Scenario.general
           eq_refl eq_refl eq_refl Hne).
Defined.

(** ** A join followed by a leave *)

Lemma find_update_first {A} (p : A → bool) (f : A → A) l :
  (∀ x, p (f x) = p x) → find p (update_first p f l) = f <$> find p l.
Proof.
  intros Hp. induction l as [|x l IH]; [done|]. cbn.
  destruct (p x) eqn:Hx; cbn; [by rewrite Hp, Hx | by rewrite Hx].
Qed.

Lemma update_first_none {A} (p : A → bool) (f : A → A) l :
  find p l = None → update_first p f l = l.
Proof.
  induction l as [|x l IH]; [done|]. cbn.
  destruct (p x); [done|]. intros H. by rewrite IH.
Qed.

Lemma find_app_last {A} (p : A → bool) l x :
  find p l = None → find p (l ++ [x]) = if p x then Some x else None.
Proof.
  induction l as [|y l IH]; [done|]. cbn. by destruct (p y).
Qed.

Lemma membership_of_mark_left uid room_id now m :
  membership_of uid room_id (mark_left now m) = membership_of uid room_id m.
Proof. done. Qed.

Lemma membership_of_mark_joined uid room_id m :
  membership_of uid room_id (mark_joined m) = membership_of uid room_id m.
Proof. done. Qed.

Lemma left_rows_rows e uid room_id d :
  user_room_rows (left_rows e uid room_id d)
  = update_first (membership_of uid room_id) (mark_left (utcnow e))
                 (user_room_rows d).
Proof.
  unfold left_rows, first_membership.
  destruct (find _ (user_room_rows d)) eqn:Hf; [done|].
  by rewrite update_first_none.
Qed.

Lemma first_membership_joined e uid room_id d :
  is_Some (first_membership (joined_rows e uid room_id d) uid room_id).
Proof.
  unfold joined_rows, first_membership.
  destruct (find _ (user_room_rows d)) as [m|] eqn:Hf; cbn.
  - rewrite find_update_first, Hf by done. by eexists.
  - rewrite find_app_last by done. unfold membership_of. cbn.
    rewrite !String.eqb_refl. by eexists.
Qed.

Lemma first_membership_left e uid room_id d :
  first_membership (left_rows e uid room_id d) uid room_id
  = mark_left (utcnow e) <$> first_membership d uid room_id.
Proof.
  unfold first_membership. rewrite left_rows_rows.
  by apply find_update_first.
Qed.

Lemma join_leave_lookup r x r' (m : gmap string (gset string)) :
  x ∉ default ∅ (m !! r) →
  default ∅ (discard_from r x (<[r := default ∅ (m !! r) ∪ {[x]}]> m) !! r')
  = default ∅ (m !! r').
Proof.
  intros Hx. rewrite discard_from_lookup.
  destruct (decide (r' = r)) as [->|Hne].
  - rewrite lookup_insert_eq. cbn. set_solver.
  - by rewrite lookup_insert_ne.
Qed.

Lemma add_discard k x (m : gmap string (gset string)) s :
  m !! k = Some s → x ∉ s →
  discard_from k x (default m (add_to k x m)) = m.
Proof.
  intros Hk Hx. unfold add_to, discard_from. rewrite Hk. cbn.
  rewrite lookup_insert_eq, insert_insert_eq.
  apply insert_id. rewrite Hk. f_equal. set_solver.
Qed.

(** X13. A join that is admitted, followed by a leave of the same room
    from the same session, gives back the dictionaries of before when the
    session was not in the room and neither index listed the user for it:
    the registry and [user_rooms] are the ones of before, [room_users] and
    the Socket.IO rooms hold the same members room by room.  Two things are
    new: [room_users] has an entry for the room (empty if it had none), and,
    when the store took both writes, the user's membership row of the room
    exists, inactive, with [left_at] the time of the leave. *)
Theorem join_then_leave_restores_the_dictionaries e1 e2 request data w c :
  dict_get (sid request) (active_connections w) = Some c →
  join_admitted request data w = true →
  is_Some (user_rooms w !! user_id c) →
  let room_id := default "" (data !! "room_id") in
  room_id ∉ rooms c →
  user_id c ∉ members_of room_id w →
  room_id ∉ rooms_of (user_id c) w →
  sid request ∉ default ∅ (sio_rooms w !! room_id) →
  let w' := run [Join e1 request data; Leave e2 request data] w in
  active_connections w' = active_connections w
  ∧ (∀ r, members_of r w' = members_of r w)
  ∧ user_rooms w' = user_rooms w
  ∧ (∀ r, default ∅ (sio_rooms w' !! r) = default ∅ (sio_rooms w !! r))
  ∧ is_Some (room_users w' !! room_id)
  ∧ (commit_ok e1 = true → commit_ok e2 = true →
     ∃ row, first_membership (db w') (user_id c) room_id = Some row
            ∧ ur_is_active row = false
            ∧ ur_left_at row = Some (utcnow e2)).
Proof.
  intros Hc Hadm [s Hs] room_id Hroom Hmember Hindex Hsio w'.
  assert (truthy (data !! "room_id") = true) as Hrid.
  { unfold join_admitted in Hadm. rewrite Hc in Hadm.
    by apply andb_true_iff in Hadm as [? _]. }
  destruct (join_room_run e1 request data w c Hadm Hc)
    as (Hreg1 & Hru1 & Hur1 & Hsio1 & Hrest1).
  fold room_id in Hreg1, Hru1, Hur1, Hsio1, Hrest1.
  rewrite Hs in Hrest1. cbn [found andb] in Hrest1.
  unfold joined_memory in Hreg1, Hru1, Hur1, Hsio1.
  cbn [active_connections room_users user_rooms sio_rooms set_user_rooms
       set_room_users set_active_connections set_sio_rooms]
    in Hreg1, Hru1, Hur1, Hsio1.
  set (w1 := exec (handle_join_room e1 request data) w) in *.
  assert (dict_get (sid request) (active_connections w1)
          = Some (with_rooms (fun s => s ∪ {[room_id]}) c)) as Hc1
    by (by rewrite Hreg1, dict_get_alter_eq, Hc).
  assert (w' = exec (_leave_room_internal (Some request) e2 (sid request)
                       room_id) w1) as Hw'.
  { subst w'. unfold run. cbn [fold_left step]. fold w1. unfold exec at 1.
    by rewrite (handle_leave_room_run e2 request data w1 _ Hc1 Hrid). }
  destruct (leave_room_internal_memory request e2 (sid request) room_id w1 _ Hc1)
    as (Hreg2 & Hru2 & Hur2 & Hsio2 & _).
  rewrite <- Hw' in Hreg2, Hru2, Hur2, Hsio2. cbn [user_id with_rooms] in Hru2, Hur2.
  split.
  { rewrite Hreg2, Hreg1, dict_alter_compose.
    apply (dict_alter_id _ _ _ c Hc).
    destruct c. unfold with_rooms. cbn in *. f_equal. set_solver. }
  split.
  { intros r. unfold members_of. rewrite Hru2, Hru1.
    by apply join_leave_lookup. }
  split.
  { rewrite Hur2, Hur1. apply (add_discard _ _ _ s Hs).
    unfold rooms_of in Hindex. by rewrite Hs in Hindex. }
  split.
  { intros r. rewrite Hsio2, Hsio1. by apply join_leave_lookup. }
  split.
  { rewrite Hru2, Hru1. apply discard_from_is_Some.
    rewrite lookup_insert_eq. by eexists. }
  intros Hup1 Hup2. rewrite Hup1 in Hrest1. destruct Hrest1 as (Hdb1 & _).
  assert (db w' = left_rows e2 (user_id c) room_id (db w1)) as Hdb2.
  { rewrite Hw'. unfold exec.
    rewrite (leave_room_internal_run request e2 _ _ w1 _ Hc1), Hup2.
    rewrite andb_false_r. done. }
  rewrite Hdb2, Hdb1, first_membership_left.
  destruct (first_membership_joined e1 (user_id c) room_id (db w)) as [row ->].
  exists (mark_left (utcnow e2) row). done.
Qed.

Lemma join_then_leave_restores_the_dictionaries_witness :
  let c := {| user_id := "u1"; username := "alice"; rooms := ∅;
              connected_at := 100; ip_address := "10.0.0.1" |} in
  let e1 := Scenario.at_ 200 in
  let e2 := Scenario.at_ 300 in
  let data := Scenario.room "general" in
  let w := Scenario.one_session in
  let w' := run [Join e1 Scenario.A data; Leave e2 Scenario.A data] w in
  (dict_get "A" (active_connections w) = Some c
   ∧ join_admitted Scenario.A data w = true
   ∧ is_Some (user_rooms w !! "u1")
   ∧ ("general" ∉ rooms c)
   ∧ ("u1" ∉ members_of "general" w)
   ∧ ("general" ∉ rooms_of "u1" w)
   ∧ ("A" ∉ default ∅ (sio_rooms w !! "general")))
  ∧ active_connections w' = active_connections w
  ∧ (∀ r, members_of r w' = members_of r w)
  ∧ user_rooms w' = user_rooms w
  ∧ (∀ r, default ∅ (sio_rooms w' !! r) = default ∅ (sio_rooms w !! r))
  ∧ is_Some (room_users w' !! "general")
  ∧ (commit_ok e1 = true → commit_ok e2 = true →
     ∃ row, first_membership (db w') "u1" "general" = Some row
            ∧ ur_is_active row = false
            ∧ ur_left_at row = Some (utcnow e2)).
Proof.
  intros c e1 e2 data w w'.
  assert (is_Some (user_rooms w !! "u1")) as H1 by (by eexists).
  assert ("general" ∉ rooms c) as H2
    by (intros H; vm_compute in H; discriminate H).
  assert ("u1" ∉ members_of "general" w) as H3
    by (intros H; vm_compute in H; discriminate H).
  assert ("general" ∉ rooms_of "u1" w) as H4
    by (intros H; vm_compute in H; discriminate H).
  assert ("A" ∉ default ∅ (sio_rooms w !! "general")) as H5
    by (intros H; vm_compute in H; discriminate H).
  split; [repeat split; try reflexivity; assumption|].
  exact (join_then_leave_restores_the_dictionaries e1 e2 Scenario.A data w c
           eq_refl eq_refl H1 H2 H3 H4 H5).
Defined.

(** ** Leaving a private room *)

Lemma find_conj_none {A} (p q : A → bool) l :
  length (List.filter p l) = 0%nat → find (fun x => p x && q x) l = None.
Proof.
  induction l as [|x l IH]; [done|]. cbn.
  destruct (p x); cbn; [done | exact IH].
Qed.

Lemma no_active_membership_after_left uid room_id now rows :
  (length (List.filter (membership_of uid room_id) rows) ≤ 1)%nat →
  find (fun m => membership_of uid room_id m && ur_is_active m)
       (update_first (membership_of uid room_id) (mark_left now) rows)
  = None.
Proof.
  induction rows as [|m rows IH]; [done|]. cbn.
  destruct (membership_of uid room_id m) eqn:Hm; cbn.
  - rewrite membership_of_mark_left, Hm. cbn. intros Hlen.
    apply find_conj_none. lia.
  - rewrite Hm. cbn. exact IH.
Qed.

Lemma get_room_left e uid room_id d r :
  get_room (left_rows e uid room_id d) r = get_room d r.
Proof. unfold left_rows. by destruct (first_membership d uid room_id). Qed.

(** X14. A member of a private room who leaves it cannot come back: the
    leave marks the membership row inactive, and the guard of
    [handle_join_room] asks for an active one.  For a registered session,
    an active private room, a store that accepts the write of the leave, and
    at most one membership row of the user for the room (a join never adds
    a second one): after the leave the user holds no active membership of
    the room, and a join of the room from the session is answered "Access
    denied to private room" and changes nothing else. *)
Theorem leaving_a_private_room_locks_the_user_out
    e e' request data w c room_id room :
  dict_get (sid request) (active_connections w) = Some c →
  data !! "room_id" = Some room_id →
  room_id ≠ "" →
  get_room (db w) room_id = Some room →
  cr_is_active room = true →
  cr_is_public room = false →
  commit_ok e = true →
  (length (List.filter (membership_of (user_id c) room_id)
                       (user_room_rows (db w))) ≤ 1)%nat →
  let w' := exec (handle_leave_room e request data) w in
  first_active_membership (db w') (user_id c) room_id = None
  ∧ exec (handle_join_room e' request data) w'
    = set_outbox (fun o => o ++ [(Reply (sid request),
                                  ev_error "Access denied to private room")])
                 w'.
Proof.
  intros Hc Hrid Hne Hroom Hact Hpriv Hup Hone w'.
  assert (truthy (data !! "room_id") = true) as Htr
    by (rewrite Hrid; by destruct room_id).
  assert (dict_get (sid request) (active_connections w')
          = Some (with_rooms (fun s => s ∖ {[room_id]}) c)) as Hc'.
  { subst w'. rewrite (handle_leave_room_registry e request data w c Hc Htr).
    by rewrite dict_get_alter_eq, Hc, Hrid. }
  assert (db w' = left_rows e (user_id c) room_id (db w)) as Hdb.
  { subst w'. unfold exec.
    rewrite (handle_leave_room_run e request data w c Hc Htr),
      (leave_room_internal_run request e _ _ w c Hc), Hup, Hrid.
    by rewrite andb_false_r. }
  assert (first_active_membership (db w') (user_id c) room_id = None) as Hnone.
  { rewrite Hdb. unfold first_active_membership. rewrite left_rows_rows.
    by apply no_active_membership_after_left. }
  split; [exact Hnone|].
  unfold exec at 1.
  rewrite (join_room_refused e' request data w' _
             "Access denied to private room" Hc'); [done|].
  unfold checked_join_failure. rewrite Hrid in *. rewrite Htr.
  cbn [negb default from_option id user_id with_rooms].
  by rewrite Hdb, get_room_left, Hroom, Hact, Hpriv, <- Hdb, Hnone.
Qed.

Lemma leaving_a_private_room_locks_the_user_out_witness :
  let c := {| user_id := "u1"; username := "alice"; rooms := {["staff"]};
              connected_at := 100; ip_address := "10.0.0.1" |} in
  let e := Scenario.at_ 200 in
  let e' := Scenario.at_ 300 in
  let data := Scenario.room "staff" in
  let w := Staff.in_staff in
  let w' := exec (handle_leave_room e Scenario.A data) w in
  (dict_get "A" (active_connections w) = Some c
   ∧ data !! "room_id" = Some "staff"
   ∧ "staff" ≠ ""
   ∧ get_room (db w) "staff" = Some Staff.staff
   ∧ cr_is_active Staff.staff = true
   ∧ cr_is_public Staff.staff = false
   ∧ commit_ok e = true
   ∧ (length (List.filter (membership_of "u1" "staff")
                          (user_room_rows (db w))) ≤ 1)%nat)
  ∧ first_active_membership (db w') "u1" "staff" = None
  ∧ exec (handle_join_room e' Scenario.A data) w'
    = set_outbox (fun o => o ++ [(Reply "A",
                                  ev_error "Access denied to private room")])
                 w'.
Proof.
  intros c e e' data w w'.
  assert ("staff" ≠ "") as Hne by discriminate.
  assert (length (List.filter (membership_of "u1" "staff")
                              (user_room_rows (db w))) ≤ 1)%nat as Hone
    by (vm_compute; lia).
  split; [repeat split; try reflexivity; assumption|].
  exact (leaving_a_private_room_locks_the_user_out e e' Scenario.A data w c
           "staff" Staff.staff eq_refl eq_refl Hne eq_refl eq_refl eq_refl
           eq_refl Hone).
Defined.

(** ** Disconnecting *)

Lemma dict_get_del_ne {V} k k' (d : list (string * V)) :
  k' ≠ k → dict_get k' (dict_del k d) = dict_get k' d.
Proof.
  intros Hne. induction d as [|[k0 v0] d IH]; [done|]. cbn.
  destruct (String.eqb k k0) eqn:Hk; cbn; [|by rewrite IH].
  apply String.eqb_eq in Hk as <-.
  by rewrite (proj2 (String.eqb_neq k' k)).
Qed.

Lemma dict_get_del_eq {V} k (d : list (string * V)) :
  NoDup (map fst d) → dict_get k (dict_del k d) = None.
Proof.
  induction d as [|[k0 v0] d IH]; [done|]. cbn. intros Hnd.
  apply NoDup_cons in Hnd as [Hfresh Hnd].
  destruct (String.eqb k k0) eqn:Hk; cbn; [|by rewrite Hk, IH].
  apply String.eqb_eq in Hk as ->.
  destruct (dict_get k0 d) as [v|] eqn:Hv; [|done].
  exfalso. apply Hfresh. apply dict_get_Some_elem in Hv.
  by apply (list_elem_of_fmap_2 fst) in Hv.
Qed.

Lemma discard_loop_members u room_ids r (m : gmap string (gset string)) :
  default ∅ (fold_left (fun m room_id => discard_from room_id u m) room_ids m
             !! r)
  = if bool_decide (r ∈ room_ids) then default ∅ (m !! r) ∖ {[u]}
    else default ∅ (m !! r).
Proof.
  revert m. induction room_ids as [|r0 room_ids IH]; intros m.
  - cbn. by rewrite bool_decide_eq_false_2 by apply not_elem_of_nil.
  - cbn [fold_left]. rewrite IH, discard_from_lookup.
    destruct (decide (r = r0)) as [->|Hne].
    + rewrite (bool_decide_eq_true_2 (r0 ∈ r0 :: room_ids)) by left.
      destruct (bool_decide (r0 ∈ room_ids)); set_solver.
    + assert (bool_decide (r ∈ r0 :: room_ids) = bool_decide (r ∈ room_ids))
        as -> by (apply bool_decide_ext; rewrite elem_of_cons; tauto).
      done.
Qed.

Lemma discard_loop_rooms u room_ids (m : gmap string (gset string)) :
  default ∅ (fold_left (fun m room_id => discard_from u room_id m) room_ids m
             !! u)
  = default ∅ (m !! u) ∖ list_to_set room_ids.
Proof.
  revert m. induction room_ids as [|r0 room_ids IH]; intros m.
  - cbn. set_solver.
  - cbn [fold_left]. rewrite IH, discard_from_lookup, decide_True by done.
    cbn. set_solver.
Qed.

(** One [_leave_room_internal] of a registered session with the store up:
    the two events and the row. *)
Lemma leave_room_internal_up request e session_id room_id w c :
  dict_get session_id (active_connections w) = Some c →
  commit_ok e = true →
  let w' := exec (_leave_room_internal (Some request) e session_id room_id) w in
  outbox w'
  = outbox w ++
    [(Room room_id, ev_user_left (user_id c) (username c) room_id (utcnow e));
     (Room session_id, ev_room_left room_id (utcnow e))]
  ∧ user_room_rows (db w')
    = update_first (membership_of (user_id c) room_id) (mark_left (utcnow e))
                   (user_room_rows (db w)).
Proof.
  intros Hc Hup w'. subst w'. unfold exec.
  rewrite (leave_room_internal_run request e _ _ w c Hc), Hup, andb_false_r.
  cbn. by rewrite left_rows_rows.
Qed.

Lemma leave_loop_up request e session_id c room_ids w :
  dict_get session_id (active_connections w) = Some c →
  commit_ok e = true →
  let w' := fold_left
              (fun w room_id =>
                 exec (_leave_room_internal (Some request) e session_id room_id) w)
              room_ids w in
  outbox w'
  = outbox w ++
    flat_map (fun room_id =>
                [(Room room_id,
                  ev_user_left (user_id c) (username c) room_id (utcnow e));
                 (Room session_id, ev_room_left room_id (utcnow e))])
             room_ids
  ∧ user_room_rows (db w')
    = fold_left (fun rows room_id =>
                   update_first (membership_of (user_id c) room_id)
                                (mark_left (utcnow e)) rows)
                room_ids (user_room_rows (db w)).
Proof.
  intros Hc Hup. revert w c Hc.
  induction room_ids as [|r room_ids IH]; intros w c Hc.
  - cbn. by rewrite app_nil_r.
  - cbn [fold_left flat_map].
    destruct (leave_room_internal_up request e session_id r w c Hc Hup)
      as (Hout & Hrows).
    destruct (leave_room_internal_memory request e session_id r w c Hc)
      as (Hreg & _).
    set (w1 := exec (_leave_room_internal (Some request) e session_id r) w) in *.
    assert (dict_get session_id (active_connections w1)
            = Some (with_rooms (fun s => s ∖ {[r]}) c)) as Hc1
      by (by rewrite Hreg, dict_get_alter_eq, Hc).
    destruct (IH w1 _ Hc1) as (Hout' & Hrows').
    cbn zeta. rewrite Hout', Hrows', Hout, Hrows. cbn [user_id username with_rooms].
    by rewrite <- app_assoc.
Qed.

Lemma filter_update_first_length {A} (p q : A → bool) (f : A → A) l :
  (∀ x, p (f x) = p x) →
  length (List.filter p (update_first q f l)) = length (List.filter p l).
Proof.
  intros Hp. induction l as [|x l IH]; [done|]. cbn.
  destruct (q x); cbn; [rewrite Hp; by destruct (p x)|].
  destruct (p x); cbn; by rewrite IH.
Qed.

Lemma no_active_membership_stays uid room_id room_id' now rows :
  find (fun m => membership_of uid room_id m && ur_is_active m) rows = None →
  find (fun m => membership_of uid room_id m && ur_is_active m)
       (update_first (membership_of uid room_id') (mark_left now) rows)
  = None.
Proof.
  induction rows as [|m rows IH]; [done|]. cbn.
  destruct (membership_of uid room_id m && ur_is_active m) eqn:Hm; [done|].
  intros Hrest. destruct (membership_of uid room_id' m); cbn.
  - by rewrite membership_of_mark_left, andb_false_r.
  - rewrite Hm. by apply IH.
Qed.

Lemma no_active_membership_after_loop uid room_id now room_ids rows :
  room_id ∈ room_ids →
  (length (List.filter (membership_of uid room_id) rows) ≤ 1)%nat →
  find (fun m => membership_of uid room_id m && ur_is_active m)
       (fold_left (fun rows r =>
                     update_first (membership_of uid r) (mark_left now) rows)
                  room_ids rows)
  = None.
Proof.
  assert (∀ l rows',
            find (fun m => membership_of uid room_id m && ur_is_active m) rows'
            = None →
            find (fun m => membership_of uid room_id m && ur_is_active m)
                 (fold_left (fun rows r =>
                               update_first (membership_of uid r)
                                            (mark_left now) rows) l rows')
            = None) as Hstay.
  { induction l as [|r l IH]; intros rows' Hnone; [done|]. cbn [fold_left].
    by apply IH, no_active_membership_stays. }
  revert rows. induction room_ids as [|r room_ids IH]; intros rows Hin Hone.
  - by apply elem_of_nil in Hin.
  - cbn [fold_left]. destruct (decide (r = room_id)) as [->|Hne].
    + by apply Hstay, no_active_membership_after_left.
    + apply elem_of_cons in Hin as [-> | Hin]; [done|]. apply IH; [done|].
      by rewrite filter_update_first_length.
Qed.

(** X15. A disconnect of a registered session removes the session and
    nothing else from the registry; takes its user out of the [room_users]
    entry of every room the session was in, and those rooms out of the
    user's [user_rooms] entry, whatever other sessions the user has; and a
    second disconnect of the same session changes nothing.  With the store
    up, the events of the disconnect are, room by room, [user_left] to the
    room and [room_left] to the session, and the user is left without an
    active membership row for each of these rooms (given at most one row of
    the user per room): a private room among them cannot be joined again. *)
Theorem disconnect_tears_the_session_down e request w c :
  dict_get (sid request) (active_connections w) = Some c →
  NoDup (map fst (active_connections w)) →
  let m := handle_disconnect e request in
  let w' := exec m w in
  dict_get (sid request) (active_connections w') = None
  ∧ (∀ k, k ≠ sid request →
       dict_get k (active_connections w') = dict_get k (active_connections w))
  ∧ (∀ r, members_of r w'
          = if bool_decide (r ∈ rooms c) then members_of r w ∖ {[user_id c]}
            else members_of r w)
  ∧ rooms_of (user_id c) w' = rooms_of (user_id c) w ∖ rooms c
  ∧ exec m w' = w'
  ∧ (commit_ok e = true →
     emitted m w
     = flat_map (fun room_id =>
                   [(Room room_id,
                     ev_user_left (user_id c) (username c) room_id (utcnow e));
                    (Room (sid request), ev_room_left room_id (utcnow e))])
                (elements (rooms c))
     ∧ ∀ r, r ∈ rooms c →
         (length (List.filter (membership_of (user_id c) r)
                              (user_room_rows (db w))) ≤ 1)%nat →
         first_active_membership (db w') (user_id c) r = None).
Proof.
  intros Hc Hnd m w'.
  destruct (handle_disconnect_memory e request w c Hc)
    as (Hreg & Hru & Hur & _ & _ & Hrows & _ & Hout).
  destruct (leave_loop_memory request e (sid request) c (elements (rooms c))
              w Hc) as (Hreg1 & Hru1 & Hur1 & _).
  fold m w' in Hreg, Hru, Hur, Hrows, Hout.
  set (w1 := fold_left _ (elements (rooms c)) w) in *.
  assert (dict_get (sid request) (active_connections w') = None) as Hgone.
  { rewrite Hreg, Hreg1. apply dict_get_del_eq. by rewrite dict_alter_keys. }
  split; [exact Hgone|]. split.
  { intros k Hk. rewrite Hreg, Hreg1.
    by rewrite dict_get_del_ne, dict_get_alter_ne. }
  split.
  { intros r. unfold members_of. rewrite Hru, Hru1, discard_loop_members.
    apply (f_equal (fun b : bool => if b then _ else _)).
    apply bool_decide_ext, elem_of_elements. }
  split.
  { unfold rooms_of. rewrite Hur, Hur1, discard_loop_rooms.
    by rewrite list_to_set_elements_L. }
  split.
  { unfold exec, m. by rewrite (handle_disconnect_gone e request w' Hgone). }
  intros Hup.
  destruct (leave_loop_up request e (sid request) c (elements (rooms c)) w
              Hc Hup) as (Hout1 & Hrows1).
  fold w1 in Hout1, Hrows1. split.
  { apply emitted_app. fold w'. by rewrite Hout, Hout1. }
  intros r Hr Hone. unfold first_active_membership.
  rewrite Hrows, Hrows1.
  apply no_active_membership_after_loop; [by apply elem_of_elements | done].
Qed.

Lemma disconnect_tears_the_session_down_witness :
  let c := {| user_id := "u1"; username := "alice"; rooms := {["staff"]};
              connected_at := 100; ip_address := "10.0.0.1" |} in
  let e := Scenario.at_ 200 in
  let w := Staff.in_staff in
  let m := handle_disconnect e Scenario.A in
  let w' := exec m w in
  (dict_get "A" (active_connections w) = Some c
   ∧ NoDup (map fst (active_connections w)))
  ∧ dict_get "A" (active_connections w') = None
  ∧ (∀ k, k ≠ "A" →
       dict_get k (active_connections w') = dict_get k (active_connections w))
  ∧ (∀ r, members_of r w'
          = if bool_decide (r ∈ rooms c) then members_of r w ∖ {[user_id c]}
            else members_of r w)
  ∧ rooms_of "u1" w' = rooms_of "u1" w ∖ rooms c
  ∧ exec m w' = w'
  ∧ (commit_ok e = true →
     emitted m w
     = flat_map (fun room_id =>
                   [(Room room_id,
                     ev_user_left "u1" "alice" room_id (utcnow e));
                    (Room "A", ev_room_left room_id (utcnow e))])
                (elements (rooms c))
     ∧ ∀ r, r ∈ rooms c →
         (length (List.filter (membership_of "u1" r)
                              (user_room_rows (db w))) ≤ 1)%nat →
         first_active_membership (db w') "u1" r = None).
Proof.
  intros c e w m w'.
  assert (NoDup (map fst (active_connections w))) as Hnd.
  { change (active_connections w) with [("A", c)]. apply NoDup_singleton. }
  split; [split; [reflexivity | exact Hnd] |].
  exact (disconnect_tears_the_session_down e Scenario.A w c eq_refl Hnd).
Defined.

(** ** The sweep of the background task *)

Lemma dict_del_app_skip {V} k (v : V) pre d :
  k ∉ map fst pre → dict_del k (pre ++ (k, v) :: d) = pre ++ d.
Proof.
  induction pre as [|[k0 v0] pre IH]; cbn.
  - intros _. by rewrite String.eqb_refl.
  - intros Hk. apply not_elem_of_cons in Hk as [Hne Hk].
    rewrite (proj2 (String.eqb_neq k k0)) by done. by rewrite IH.
Qed.

Lemma dict_del_loop_filter {V} (p : string * V → bool) pre d :
  NoDup (map fst (pre ++ d)) →
  fold_left (fun d k => dict_del k d) (map fst (List.filter p d)) (pre ++ d)
  = pre ++ List.filter (fun kv => negb (p kv)) d.
Proof.
  revert pre. induction d as [|[k v] d IH]; intros pre Hnd; [done|].
  cbn [List.filter]. rewrite map_app in Hnd. cbn in Hnd.
  apply NoDup_app in Hnd as (Hpre & Hdisj & Hd).
  apply NoDup_cons in Hd as [Hk Hd].
  destruct (p (k, v)) eqn:Hp; cbn [negb map fold_left fst].
  - rewrite dict_del_app_skip.
    + apply IH. rewrite map_app. apply NoDup_app. split; [done|].
      split; [|done]. intros x Hx Hx'. apply (Hdisj x Hx). by right.
    + intros Hin. apply (Hdisj k Hin). by left.
  - rewrite (cons_middle (k, v) pre d), app_assoc. rewrite IH.
    + by rewrite <- app_assoc.
    + rewrite !map_app. cbn. apply NoDup_app. split.
      * apply NoDup_app. split; [done|]. split; [|apply NoDup_singleton].
        intros x Hx Hx'. apply list_elem_of_singleton in Hx' as ->.
        apply (Hdisj k Hx). by left.
      * split; [|done]. intros x Hx Hx'.
        apply elem_of_app in Hx as [Hx | Hx].
        -- apply (Hdisj x Hx). by right.
        -- apply list_elem_of_singleton in Hx as ->. done.
Qed.

(** Outside of a request, the teardown of the sessions does not touch the
    Socket.IO server. *)
Lemma reaper_session_loop_transport e session_ids w :
  ∃ w', for_each session_ids (fun session_id =>
          let* conns := gets active_connections in
          match dict_get session_id conns with
          | Some conn_info =>
              for_each (elements (rooms conn_info))
                (fun room_id => _leave_room_internal None e session_id room_id) >>>
              modify (set_active_connections (dict_del session_id)) >>>
              log INFO "Cleaned up inactive connection"
          | None => ret tt
          end) w = (Done tt, w')
    ∧ sio_rooms w' = sio_rooms w
    ∧ sio_disconnected w' = sio_disconnected w.
Proof.
  set (body := fun session_id : string => _).
  revert w. induction session_ids as [|k session_ids IH]; intros w.
  - exists w. by cbn.
  - cbn [for_each]. unfold bind at 1. unfold body at 1.
    unfold bind at 1. unfold gets at 1.
    destruct (dict_get k (active_connections w)) as [c|] eqn:Hc.
    + unfold bind at 1.
      destruct (reaper_leave_loop e k c (elements (rooms c)) w Hc)
        as [lines ->].
      unfold bind at 1. unfold modify at 1. unfold log, modify.
      match goal with |- context [for_each session_ids body ?w1] =>
        destruct (IH w1) as (w' & Hrun & Hsio & Hdis)
      end.
      exists w'. rewrite Hrun. by cbn in *.
    + unfold ret at 1.
      destruct (IH w) as (w' & Hrun & Hsio & Hdis).
      exists w'. by rewrite Hrun.
Qed.

(** X16. One sweep of the background task removes from the registry exactly
    the sessions that connected more than 86400 seconds ago -- a session of
    exactly 86400 seconds stays -- and keeps the others as they are, in
    their order.  It tells nobody: no event is emitted, the transport of a
    removed session is not closed and the session stays in its Socket.IO
    rooms. *)
Theorem sweep_removes_exactly_the_old_sessions e w :
  NoDup (map fst (active_connections w)) →
  let w' := exec (_cleanup_inactive_connections e) w in
  active_connections w'
  = List.filter (fun kc => negb (TTL_SECONDS <? utcnow e - connected_at kc.2))
                (active_connections w)
  ∧ (∀ k c, (k, c) ∈ active_connections w' ↔
            (k, c) ∈ active_connections w ∧ utcnow e - connected_at c ≤ 86400)
  ∧ outbox w' = outbox w
  ∧ sio_disconnected w' = sio_disconnected w
  ∧ sio_rooms w' = sio_rooms w.
Proof.
  intros Hnd w'.
  destruct (reaper_only_deletes_registry_entries e w)
    as (Hreg & _ & _ & _ & Hout).
  fold w' in Hreg, Hout.
  assert (active_connections w'
          = List.filter
              (fun kc => negb (TTL_SECONDS <? utcnow e - connected_at kc.2))
              (active_connections w)) as Hfilter.
  { rewrite Hreg. unfold expired_sessions.
    pose proof (dict_del_loop_filter
                  (fun '(_, conn_info) =>
                     TTL_SECONDS <? utcnow e - connected_at conn_info)
                  [] (active_connections w) Hnd) as Hloop.
    cbn [app] in Hloop. rewrite Hloop.
    apply List.filter_ext. by intros [k c]. }
  split; [exact Hfilter|]. split.
  { intros k c. rewrite Hfilter, !list_elem_of_In, List.filter_In.
    cbn. unfold TTL_SECONDS. rewrite negb_true_iff, Z.ltb_ge. done. }
  split; [exact Hout|].
  subst w'. unfold exec.
  remember (_cleanup_inactive_connections e w) as r eqn:Hr.
  unfold _cleanup_inactive_connections, try_except in Hr.
  unfold bind at 1 in Hr. unfold gets at 1 in Hr.
  fold (expired_sessions e w) in Hr.
  destruct (reaper_session_loop_transport e (expired_sessions e w) w)
    as (w' & Hrun & Hsio & Hdis).
  rewrite Hrun in Hr. subst r. done.
Qed.

Lemma sweep_removes_exactly_the_old_sessions_witness :
  let e := Scenario.at_ 86500 in
  let w := Scenario.one_joined in
  let w' := exec (_cleanup_inactive_connections e) w in
  NoDup (map fst (active_connections w))
  ∧ active_connections w'
    = List.filter (fun kc => negb (TTL_SECONDS <? utcnow e - connected_at kc.2))
                  (active_connections w)
  ∧ (∀ k c, (k, c) ∈ active_connections w' ↔
            (k, c) ∈ active_connections w ∧ utcnow e - connected_at c ≤ 86400)
  ∧ outbox w' = outbox w
  ∧ sio_disconnected w' = sio_disconnected w
  ∧ sio_rooms w' = sio_rooms w.
Proof.
  intros e w w'.
  assert (NoDup (map fst (active_connections w))) as Hnd.
  { change (map fst (active_connections w)) with ["A"]. apply NoDup_singleton. }
  split; [exact Hnd|].
  exact (sweep_removes_exactly_the_old_sessions e w Hnd).
Defined.

(** ** The token of a connection *)

(** X17. A connection with the token of an active session row whose owner
    is [ACTIVE] is accepted up to and including the second the row expires,
    and refused from the next second on: the handler returns whether [now ≤
    expires_at]. *)
Theorem connect_accepts_token_until_it_expires e request auth t w s u :
  auth !! "token" = Some t →
  first_active_session (db w) t = Some s →
  get_user (db w) (us_user_id s) = Some u →
  is_active_user u = true →
  result (handle_connect e request (Some auth)) w
  = Done (bool_decide (utcnow e ≤ us_expires_at s))
  ∧ found (dict_get (sid request)
             (active_connections (exec (handle_connect e request (Some auth)) w)))
    = bool_decide (utcnow e ≤ us_expires_at s)
      || found (dict_get (sid request) (active_connections w)).
Proof.
  intros Ht Hs Hu Hact.
  assert (authenticated_user (utcnow e) (db w) (Some auth)
          = if bool_decide (utcnow e ≤ us_expires_at s) then Some u else None)
    as Hauth.
  { unfold authenticated_user. cbn [mbind option_bind]. rewrite Ht, Hs.
    unfold is_expired. rewrite Hu, Hact.
    destruct (Z.ltb_spec (us_expires_at s) (utcnow e)).
    - by rewrite bool_decide_eq_false_2 by lia.
    - by rewrite bool_decide_eq_true_2 by lia. }
  destruct (bool_decide (utcnow e ≤ us_expires_at s)).
  - destruct (handle_connect_accepted e request (Some auth) w u Hauth)
      as (-> & -> & _).
    by rewrite dict_get_set_eq.
  - unfold result, exec.
    by rewrite (handle_connect_rejected e request (Some auth) w Hauth).
Qed.

Lemma connect_accepts_token_until_it_expires_witness :
  let auth : gmap string string := {["token" := "tok-alice"]} in
  let s := {| us_user_id := "u1"; us_session_token := "tok-alice";
              us_expires_at := 1000000; us_is_active := true |} in
  let e := Scenario.at_ 1000000 in
  let w := Scenario.boot in
  (auth !! "token" = Some "tok-alice"
   ∧ first_active_session (db w) "tok-alice" = Some s
   ∧ get_user (db w) (us_user_id s) = Some Scenario.alice
   ∧ is_active_user Scenario.alice = true)
  ∧ result (handle_connect e Scenario.A (Some auth)) w
    = Done (bool_decide (utcnow e ≤ us_expires_at s))
  ∧ found (dict_get "A"
             (active_connections (exec (handle_connect e Scenario.A (Some auth)) w)))
    = bool_decide (utcnow e ≤ us_expires_at s)
      || found (dict_get "A" (active_connections w)).
Proof.
  intros auth s e w.
  split; [repeat split; reflexivity|].
  exact (connect_accepts_token_until_it_expires e Scenario.A auth "tok-alice"
           w s Scenario.alice eq_refl eq_refl eq_refl eq_refl).
Defined.

(** ** Room statistics *)

Lemma get_room_id d r room : get_room d r = Some room → cr_id room = r.
Proof.
  unfold get_room. intros H. apply find_some in H as [_ H].
  by apply String.eqb_eq.
Qed.

(** X18. [get_room_stats] reports a room exactly when [room_users] has an
    entry for it and the store a row; the [user_count] it gives is the size
    of the entry, which is also the count the [available_rooms] list shows
    for the room.  [total_rooms] counts the entries of [room_users], with or
    without a row in the store, so it is never less than the number of rooms
    reported, and [active_connections] counts sessions, not users. *)
Theorem room_stats_follow_the_index w :
  let stats := get_room_stats w in
  (∀ r, st_rooms stats !! r
        = match room_users w !! r, get_room (db w) r with
          | Some user_ids, Some room =>
              Some {| st_name := cr_name room; st_user_count := size user_ids;
                      st_is_public := cr_is_public room |}
          | _, _ => None
          end)
  ∧ (∀ r room stat,
       get_room (db w) r = Some room →
       st_rooms stats !! r = Some stat →
       st_user_count stat = rs_user_count (summary_of w room))
  ∧ (size (st_rooms stats) ≤ total_rooms stats)%nat
  ∧ st_active_connections stats = length (active_connections w).
Proof.
  intros stats.
  assert (∀ r, st_rooms stats !! r
               = match room_users w !! r, get_room (db w) r with
                 | Some user_ids, Some room =>
                     Some {| st_name := cr_name room;
                             st_user_count := size user_ids;
                             st_is_public := cr_is_public room |}
                 | _, _ => None
                 end) as Hlookup.
  { intros r. unfold stats, get_room_stats. cbn [st_rooms].
    rewrite map_lookup_imap. by destruct (room_users w !! r). }
  split; [exact Hlookup|]. split.
  { intros r room stat Hroom. rewrite Hlookup, Hroom.
    unfold summary_of. cbn [rs_user_count].
    rewrite (get_room_id _ _ _ Hroom).
    destruct (room_users w !! r); [|done]. by intros [= <-]. }
  split; [|done].
  unfold stats, get_room_stats. cbn [st_rooms total_rooms].
  rewrite <- !size_dom. apply subseteq_size. intros r Hr.
  apply elem_of_dom in Hr as [stat Hr]. apply elem_of_dom.
  rewrite map_lookup_imap in Hr.
  destruct (room_users w !! r); [by eexists | done].
Qed.

(** ** What the requests do to the store *)

Section Rows.

(** A property of the membership table that the two writes keep. *)
Variable Q : list UserRoom → Prop.
Hypothesis Q_left : ∀ rows uid room_id now,
  Q rows → Q (update_first (membership_of uid room_id) (mark_left now) rows).
Hypothesis Q_joined : ∀ e uid room_id d,
  Q (user_room_rows d) → Q (user_room_rows (joined_rows e uid room_id d)).

Lemma leave_internal_keeps_rows ctx e session_id room_id w :
  Q (user_room_rows (db w)) →
  Q (user_room_rows (db (exec (_leave_room_internal ctx e session_id room_id) w))).
Proof.
  intros HQ. unfold exec.
  destruct (dict_get session_id (active_connections w)) as [c|] eqn:Hc.
  - destruct ctx as [request|].
    + rewrite (leave_room_internal_run request e _ _ w c Hc).
      destruct (found _ && negb _); cbn; [done|].
      rewrite left_rows_rows. by apply Q_left.
    + by rewrite (leave_room_internal_no_request e _ _ w c Hc).
  - by rewrite (leave_room_internal_gone _ e _ _ w Hc).
Qed.

Lemma leave_loop_keeps_rows ctx e session_id room_ids w :
  Q (user_room_rows (db w)) →
  Q (user_room_rows
       (db (fold_left
              (fun w room_id =>
                 exec (_leave_room_internal ctx e session_id room_id) w)
              room_ids w))).
Proof.
  revert w. induction room_ids as [|r room_ids IH]; intros w HQ; [done|].
  cbn [fold_left]. by apply IH, leave_internal_keeps_rows.
Qed.

Lemma step_keeps_rows o w :
  Q (user_room_rows (db w)) → Q (user_room_rows (db (step w o))).
Proof.
  intros HQ.
  destruct o as [e request auth | e request | e request data | e request data
                 | e request data | e]; cbn [step].
  - destruct (authenticated_user (utcnow e) (db w) auth) as [user|] eqn:Hauth.
    + by destruct (handle_connect_accepted e request auth w user Hauth)
        as (_ & _ & _ & _ & _ & _ & -> & _).
    + unfold exec. by rewrite (handle_connect_rejected e request auth w Hauth).
  - destruct (dict_get (sid request) (active_connections w)) as [c|] eqn:Hc.
    + destruct (handle_disconnect_memory e request w c Hc)
        as (_ & _ & _ & _ & _ & -> & _).
      by apply leave_loop_keeps_rows.
    + unfold exec. by rewrite (handle_disconnect_gone e request w Hc).
  - destruct (join_admitted request data w) eqn:Hadm.
    + pose proof Hadm as Hlive. unfold join_admitted in Hlive.
      destruct (dict_get (sid request) (active_connections w)) as [c|] eqn:Hc;
        [|done].
      destruct (join_room_run e request data w c Hadm Hc)
        as (_ & _ & _ & _ & Hrest).
      destruct (found _ && commit_ok e); destruct Hrest as (-> & _);
        [by apply Q_joined | done].
    + by destruct (join_room_rejected e request data w Hadm)
        as (_ & _ & _ & -> & _).
  - destruct (found (dict_get (sid request) (active_connections w))
              && truthy (data !! "room_id")) eqn:Hgo.
    + apply andb_true_iff in Hgo as [Hlive Hrid].
      apply found_Some in Hlive as [c Hc]. unfold exec at 1.
      rewrite (handle_leave_room_run e request data w c Hc Hrid).
      by apply leave_internal_keeps_rows.
    + unfold exec. by rewrite (handle_leave_room_skipped e request data w Hgo).
  - by destruct (send_message_memory e request data w)
      as (_ & _ & _ & _ & _ & ->).
  - by destruct (reaper_only_deletes_registry_entries e w)
      as (_ & _ & _ & -> & _).
Qed.

Lemma run_keeps_rows ops w :
  Q (user_room_rows (db w)) → Q (user_room_rows (db (run ops w))).
Proof.
  revert w. induction ops as [|o ops IH]; intros w HQ; [done|].
  unfold run. cbn [fold_left]. by apply IH, step_keeps_rows.
Qed.

End Rows.

Lemma filter_app_length {A} (p : A → bool) l x :
  length (List.filter p (l ++ [x]))
  = (length (List.filter p l) + if p x then 1 else 0)%nat.
Proof.
  rewrite List.filter_app, length_app. cbn. by destruct (p x).
Qed.

Lemma find_none_filter {A} (p : A → bool) l :
  find p l = None → List.filter p l = [].
Proof.
  induction l as [|x l IH]; [done|]. cbn. destruct (p x); [done | exact IH].
Qed.

Lemma membership_of_both uid room_id uid' room_id' m :
  membership_of uid room_id m = true →
  membership_of uid' room_id' m = true →
  uid' = uid ∧ room_id' = room_id.
Proof.
  unfold membership_of. rewrite !andb_true_iff, !String.eqb_eq.
  intros [<- <-] [<- <-]. done.
Qed.

(** X19. No sequence of requests and sweeps gives a user a second
    membership row for a room: a join writes a new row only when the user
    has none for the room, and turns the existing one active otherwise. *)
Theorem membership_rows_stay_unique ops w :
  one_row_per_membership (db w) →
  one_row_per_membership (db (run ops w)).
Proof.
  unfold one_row_per_membership. intros Hone.
  apply (run_keeps_rows
           (fun rows => ∀ uid room_id,
              (length (List.filter (membership_of uid room_id) rows) ≤ 1)%nat));
    [| |exact Hone].
  - intros rows uid room_id now Hrows uid' room_id'.
    by rewrite filter_update_first_length.
  - intros e uid room_id d Hrows uid' room_id'. unfold joined_rows.
    destruct (first_membership d uid room_id) as [m|] eqn:Hfirst; cbn.
    + by rewrite filter_update_first_length.
    + rewrite filter_app_length.
      destruct (membership_of uid' room_id' (new_user_room e uid room_id))
        eqn:Hnew; [|rewrite Nat.add_0_r; apply Hrows].
      destruct (membership_of_both uid room_id uid' room_id'
                  (new_user_room e uid room_id)) as [-> ->]; [|done|].
      { unfold membership_of. cbn. by rewrite !String.eqb_refl. }
      unfold first_membership in Hfirst.
      by rewrite (find_none_filter _ _ Hfirst).
Qed.

Lemma membership_rows_stay_unique_witness :
  let ops := [Connect (Scenario.at_ 100) Scenario.A (Scenario.token "tok-alice");
              Join (Scenario.at_ 101) Scenario.A (Scenario.room "staff");
              Leave (Scenario.at_ 102) Scenario.A (Scenario.room "staff");
              Join (Scenario.at_ 103) Scenario.A (Scenario.room "general");
              Disconnect (Scenario.at_ 104) Scenario.A] in
  one_row_per_membership (db Staff.boot)
  ∧ one_row_per_membership (db (run ops Staff.boot)).
Proof.
  intros ops.
  assert (one_row_per_membership (db Staff.boot)) as Hone.
  { intros uid room_id.
    change (user_room_rows (db Staff.boot)) with [Staff.membership].
    cbn. destruct (membership_of uid room_id Staff.membership); cbn; lia. }
  split; [exact Hone|].
  exact (membership_rows_stay_unique ops Staff.boot Hone).
Defined.

(** ** Stored messages are kept *)

Lemma send_message_gone e request data w :
  dict_get (sid request) (active_connections w) = None →
  db (exec (handle_send_message e request data) w) = db w.
Proof.
  intros Hc. unfold handle_send_message. unfold_m. cbn. by rewrite Hc.
Qed.

Lemma leave_internal_keeps_messages ctx e session_id room_id w :
  chat_messages (db (exec (_leave_room_internal ctx e session_id room_id) w))
  = chat_messages (db w).
Proof.
  unfold exec.
  destruct (dict_get session_id (active_connections w)) as [c|] eqn:Hc.
  - destruct ctx as [request|].
    + rewrite (leave_room_internal_run request e _ _ w c Hc).
      destruct (found _ && negb _); cbn; [done|].
      unfold left_rows. by destruct (first_membership _ _ _).
    + by rewrite (leave_room_internal_no_request e _ _ w c Hc).
  - by rewrite (leave_room_internal_gone _ e _ _ w Hc).
Qed.

Lemma leave_loop_keeps_messages ctx e session_id room_ids w :
  chat_messages
    (db (fold_left
           (fun w room_id =>
              exec (_leave_room_internal ctx e session_id room_id) w)
           room_ids w))
  = chat_messages (db w).
Proof.
  revert w. induction room_ids as [|r room_ids IH]; intros w; [done|].
  cbn [fold_left]. by rewrite IH, leave_internal_keeps_messages.
Qed.

(** One step leaves the messages as they are, or adds one trimmed message at
    the end. *)
Lemma step_messages o w :
  chat_messages (db (step w o)) = chat_messages (db w)
  ∨ ∃ row, chat_messages (db (step w o)) = chat_messages (db w) ++ [row]
           ∧ trimmed row.
Proof.
  destruct o as [e request auth | e request | e request data | e request data
                 | e request data | e]; cbn [step].
  - left.
    destruct (authenticated_user (utcnow e) (db w) auth) as [user|] eqn:Hauth.
    + by destruct (handle_connect_accepted e request auth w user Hauth)
        as (_ & _ & _ & _ & _ & _ & _ & -> & _).
    + unfold exec. by rewrite (handle_connect_rejected e request auth w Hauth).
  - left.
    destruct (dict_get (sid request) (active_connections w)) as [c|] eqn:Hc.
    + destruct (handle_disconnect_memory e request w c Hc)
        as (_ & _ & _ & _ & _ & _ & -> & _).
      apply leave_loop_keeps_messages.
    + unfold exec. by rewrite (handle_disconnect_gone e request w Hc).
  - left. destruct (join_admitted request data w) eqn:Hadm.
    + pose proof Hadm as Hlive. unfold join_admitted in Hlive.
      destruct (dict_get (sid request) (active_connections w)) as [c|] eqn:Hc;
        [|done].
      destruct (join_room_run e request data w c Hadm Hc)
        as (_ & _ & _ & _ & Hrest).
      destruct (found _ && commit_ok e); destruct Hrest as (-> & _); [|done].
      unfold joined_rows. by destruct (first_membership _ _ _).
    + by destruct (join_room_rejected e request data w Hadm)
        as (_ & _ & _ & -> & _).
  - left.
    destruct (found (dict_get (sid request) (active_connections w))
              && truthy (data !! "room_id")) eqn:Hgo.
    + apply andb_true_iff in Hgo as [Hlive Hrid].
      apply found_Some in Hlive as [c Hc]. unfold exec at 1.
      rewrite (handle_leave_room_run e request data w c Hc Hrid).
      apply leave_internal_keeps_messages.
    + unfold exec. by rewrite (handle_leave_room_skipped e request data w Hgo).
  - destruct (dict_get (sid request) (active_connections w)) as [c|] eqn:Hc.
    + pose proof (send_message_run e request data w c Hc) as Hrun.
      cbn zeta in Hrun.
      destruct (checked_send_failure c (db w) data) as [x|] eqn:Hok.
      { left. by destruct Hrun as [_ ->]. }
      destruct (commit_ok e); destruct Hrun as [_ ->]; [|by left].
      right. exists (message_row e c data). split; [done|].
      unfold checked_send_failure in Hok. unfold trimmed, message_row.
      cbn [cm_content].
      destruct (negb (truthy (data !! "room_id"))); [done|].
      destruct (str_truthy (strip (default "" (data !! "content")))) eqn:Hcontent;
        [|done].
      split; [|apply strip_idemp].
      intros Hempty. by rewrite Hempty in Hcontent.
    + left. by rewrite send_message_gone.
  - left. by destruct (reaper_only_deletes_registry_entries e w)
      as (_ & _ & _ & -> & _).
Qed.

(** X20. The messages table only grows: whatever requests and sweeps are
    run, the messages stored before are still there, unchanged and in their
    order, at the head of the table; and every message added has a content
    that is not empty and has no white space around it. *)
Theorem stored_messages_are_kept ops w :
  ∃ added,
    chat_messages (db (run ops w)) = chat_messages (db w) ++ added
    ∧ Forall trimmed added.
Proof.
  revert w. induction ops as [|o ops IH]; intros w.
  - exists []. by rewrite app_nil_r.
  - unfold run. cbn [fold_left].
    destruct (IH (step w o)) as (added & Hrun & Htrim). unfold run in Hrun.
    destruct (step_messages o w) as [Hsame | (row & Hrow & Hwf)].
    + exists added. by rewrite Hrun, Hsame.
    + exists (row :: added). rewrite Hrun, Hrow, <- app_assoc.
      split; [done | by constructor].
Qed.

(** ** Who receives the broadcasts of a room *)

Lemma join_room_rejected_world e request data w :
  join_admitted request data w = false →
  ∃ msg,
    handle_join_room e request data w
    = (Done tt,
       set_outbox (fun o => o ++ [(Reply (sid request), ev_error msg)]) w).
Proof.
  intros Hadm.
  destruct (dict_get (sid request) (active_connections w)) as [c|] eqn:Hc.
  - rewrite (checked_join_failure_admitted _ _ _ c Hc) in Hadm.
    destruct (checked_join_failure c (db w) data) as [msg|] eqn:Hmsg; [|done].
    exists msg. by apply (join_room_refused e request data w c).
  - exists "Not authenticated".
    unfold handle_join_room, try_except, bind, gets. by rewrite Hc.
Qed.

Lemma joined_rooms_alter f k k' c w w' :
  dict_get k (active_connections w) = Some c →
  active_connections w'
  = dict_alter (with_rooms f) k (active_connections w) →
  joined_rooms k' w'
  = if decide (k' = k) then f (rooms c) else joined_rooms k' w.
Proof.
  intros Hc Hreg. unfold joined_rooms. rewrite Hreg.
  destruct (decide (k' = k)) as [->|Hne].
  - by rewrite dict_get_alter_eq, Hc.
  - by rewrite dict_get_alter_ne.
Qed.

Lemma dict_del_keys {V} k (d : list (string * V)) :
  sublist (map fst (dict_del k d)) (map fst d).
Proof.
  induction d as [|[k0 v0] d IH]; [done|]. cbn.
  destruct (String.eqb k k0); cbn; [by apply sublist_cons | by apply sublist_skip].
Qed.

Lemma step_keeps_transport o w :
  request_trace [o] w = true →
  NoDup (map fst (active_connections w)) →
  transport_matches_registry w →
  NoDup (map fst (active_connections (step w o)))
  ∧ transport_matches_registry (step w o).
Proof.
  intros Hreq Hnd Htr.
  destruct o as [e request auth | e request | e request data | e request data
                 | e request data | e]; cbn [step]; cbn in Hreq.
  - rewrite andb_true_r, dict_mem_get in Hreq.
    destruct (dict_get (sid request) (active_connections w)) eqn:Hfresh;
      [done|].
    destruct (authenticated_user (utcnow e) (db w) auth) as [user|] eqn:Hauth.
    + destruct (handle_connect_accepted e request auth w user Hauth)
        as (_ & Hreg & _ & _ & Hsio & _).
      split.
      * rewrite Hreg, (dict_set_fresh _ _ _ Hfresh), map_app. cbn.
        apply NoDup_app. split; [done|]. split; [|apply NoDup_singleton].
        intros k Hk Hk'. apply list_elem_of_singleton in Hk' as ->.
        by apply dict_get_None_keys in Hfresh.
      * intros r k. rewrite Hsio, (Htr r k). unfold joined_rooms. rewrite Hreg.
        destruct (decide (k = sid request)) as [->|Hne].
        -- rewrite dict_get_set_eq, Hfresh. done.
        -- by rewrite dict_get_set_ne.
    + unfold exec. by rewrite (handle_connect_rejected e request auth w Hauth).
  - destruct (dict_get (sid request) (active_connections w)) as [c|] eqn:Hc.
    + destruct (handle_disconnect_memory e request w c Hc)
        as (Hreg & _ & _ & Hsio & _).
      destruct (leave_loop_memory request e (sid request) c
                  (elements (rooms c)) w Hc) as (Hreg1 & _ & _ & Hsio1 & _).
      set (w1 := fold_left _ (elements (rooms c)) w) in *.
      assert (NoDup (map fst (active_connections w1))) as Hnd1
        by (by rewrite Hreg1, dict_alter_keys).
      split.
      * rewrite Hreg. eapply sublist_NoDup; [exact Hnd1 | apply dict_del_keys].
      * intros r k. rewrite Hsio, Hsio1, discard_loop_members.
        unfold joined_rooms. rewrite Hreg.
        destruct (decide (k = sid request)) as [->|Hne].
        -- rewrite dict_get_del_eq by done.
           specialize (Htr r (sid request)). unfold joined_rooms in Htr.
           rewrite Hc in Htr.
           destruct (bool_decide (r ∈ elements (rooms c))) eqn:Hin.
           ++ set_solver.
           ++ apply bool_decide_eq_false_1 in Hin.
              rewrite elem_of_elements in Hin. set_solver.
        -- rewrite dict_get_del_ne, Hreg1, dict_get_alter_ne by done.
           specialize (Htr r k). unfold joined_rooms in Htr.
           destruct (bool_decide (r ∈ elements (rooms c))); set_solver.
    + unfold exec. by rewrite (handle_disconnect_gone e request w Hc).
  - destruct (join_admitted request data w) eqn:Hadm.
    + pose proof Hadm as Hlive. unfold join_admitted in Hlive.
      destruct (dict_get (sid request) (active_connections w)) as [c|] eqn:Hc;
        [|done].
      destruct (join_room_run e request data w c Hadm Hc)
        as (Hreg & _ & _ & Hsio & _).
      unfold joined_memory in Hreg, Hsio.
      cbn [active_connections sio_rooms set_user_rooms set_room_users
           set_active_connections set_sio_rooms] in Hreg, Hsio.
      split; [by rewrite Hreg, dict_alter_keys|].
      intros r k. rewrite Hsio, (joined_rooms_alter _ _ _ c w _ Hc Hreg).
      pose proof (Htr r k) as Hrk.
      pose proof (Htr (default "" (data !! "room_id")) k) as Hrk'.
      assert (joined_rooms (sid request) w = rooms c) as Hj
        by (unfold joined_rooms; by rewrite Hc).
      destruct (decide (r = default "" (data !! "room_id"))) as [->|Hr].
      * rewrite lookup_insert_eq. cbn.
        destruct (decide (k = sid request)) as [->|Hk]; set_solver.
      * rewrite lookup_insert_ne by done.
        destruct (decide (k = sid request)) as [->|Hk]; set_solver.
    + destruct (join_room_rejected_world e request data w Hadm) as [msg Hrun].
      unfold exec. by rewrite Hrun.
  - destruct (found (dict_get (sid request) (active_connections w))
              && truthy (data !! "room_id")) eqn:Hgo.
    + apply andb_true_iff in Hgo as [Hlive Hrid].
      apply found_Some in Hlive as [c Hc]. unfold exec at 1 2.
      rewrite (handle_leave_room_run e request data w c Hc Hrid).
      destruct (leave_room_internal_memory request e (sid request)
                  (default "" (data !! "room_id")) w c Hc)
        as (Hreg & _ & _ & Hsio & _).
      unfold exec in Hreg, Hsio.
      split; [by rewrite Hreg, dict_alter_keys|].
      intros r k. rewrite Hsio, (joined_rooms_alter _ _ _ c w _ Hc Hreg).
      rewrite discard_from_lookup.
      pose proof (Htr r k) as Hrk.
      pose proof (Htr (default "" (data !! "room_id")) k) as Hrk'.
      assert (joined_rooms (sid request) w = rooms c) as Hj
        by (unfold joined_rooms; by rewrite Hc).
      destruct (decide (r = default "" (data !! "room_id"))) as [->|Hr];
        destruct (decide (k = sid request)) as [->|Hk]; set_solver.
    + unfold exec. by rewrite (handle_leave_room_skipped e request data w Hgo).
  - destruct (send_message_memory e request data w)
      as (Hreg & _ & _ & Hsio & _).
    split; [by rewrite Hreg|].
    intros r k. unfold joined_rooms. rewrite Hsio, Hreg. apply Htr.
  - done.
Qed.

(** X21. In every sequence of requests, a session is in the Socket.IO room
    of a chat room exactly when the registry lists the room among the
    session's [rooms]: the broadcasts to a room ([new_message],
    [user_joined], [user_left], the typing indicators) reach the sessions
    the registry says are in it, and no other. *)
Theorem broadcasts_reach_the_sessions_of_the_room ops w :
  request_trace ops w = true →
  NoDup (map fst (active_connections w)) →
  transport_matches_registry w →
  NoDup (map fst (active_connections (run ops w)))
  ∧ transport_matches_registry (run ops w).
Proof.
  revert w. induction ops as [|o ops IH]; intros w Hreq Hnd Htr; [done|].
  unfold run. cbn [fold_left]. cbn [request_trace] in Hreq.
  apply andb_true_iff in Hreq as [Ho Hreq].
  destruct (step_keeps_transport o w) as [Hnd1 Htr1]; [|done|done|].
  { cbn [request_trace]. by rewrite Ho. }
  by apply IH.
Qed.

Lemma broadcasts_reach_the_sessions_of_the_room_witness :
  let ops := [Connect (Scenario.at_ 100) Scenario.A (Scenario.token "tok-alice");
              Connect (Scenario.at_ 100) Scenario.B (Scenario.token "tok-alice");
              Join (Scenario.at_ 101) Scenario.A (Scenario.room "general");
              Join (Scenario.at_ 102) Scenario.B (Scenario.room "general");
              Disconnect (Scenario.at_ 200) Scenario.A] in
  (request_trace ops Scenario.boot = true
   ∧ NoDup (map fst (active_connections Scenario.boot))
   ∧ transport_matches_registry Scenario.boot)
  ∧ NoDup (map fst (active_connections (run ops Scenario.boot)))
  ∧ transport_matches_registry (run ops Scenario.boot).
Proof.
  intros ops.
  assert (NoDup (map fst (active_connections Scenario.boot))) as Hnd
    by apply NoDup_nil_2.
  assert (transport_matches_registry Scenario.boot) as Htr.
  { intros r k. unfold joined_rooms.
    change (sio_rooms Scenario.boot) with (∅ : gmap string (gset string)).
    change (active_connections Scenario.boot) with (@nil (string * Conn)).
    rewrite lookup_empty. done. }
  split; [split; [reflexivity | split; [exact Hnd | exact Htr]] |].
  exact (broadcasts_reach_the_sessions_of_the_room ops Scenario.boot
           eq_refl Hnd Htr).
Defined.

(** ** Typing indicators *)

(** X22. Once a join has passed the guards, the session is in the room for
    the typing handlers, whether or not the store took the write of the join
    (and the client was answered "Failed to join room"): its typing
    indicators for the room are relayed, as one [user_typing] event with the
    username the session connected with, to the Socket.IO room without the
    session itself; start and stop differ in the [typing] flag only. *)
Theorem joined_session_typing_is_relayed e request data w c :
  dict_get (sid request) (active_connections w) = Some c →
  join_admitted request data w = true →
  let room_id := default "" (data !! "room_id") in
  let w' := exec (handle_join_room e request data) w in
  handle_typing_start request data w'
  = [(Others room_id (sid request), nt_user_typing (username c) room_id true)]
  ∧ handle_typing_stop request data w'
    = [(Others room_id (sid request), nt_user_typing (username c) room_id false)].
Proof.
  intros Hc Hadm room_id w'.
  assert (truthy (data !! "room_id") = true) as Hrid.
  { unfold join_admitted in Hadm. rewrite Hc in Hadm.
    by apply andb_true_iff in Hadm as [? _]. }
  destruct (join_room_run e request data w c Hadm Hc) as (Hreg & _).
  fold room_id w' in Hreg. unfold joined_memory in Hreg.
  cbn [active_connections set_user_rooms set_room_users
       set_active_connections set_sio_rooms] in Hreg.
  assert (dict_get (sid request) (active_connections w')
          = Some (with_rooms (fun s => s ∪ {[room_id]}) c)) as Hc'
    by (by rewrite Hreg, dict_get_alter_eq, Hc).
  unfold handle_typing_start, handle_typing_stop. cbn zeta.
  rewrite Hc', Hrid. fold room_id. cbn [rooms with_rooms username].
  rewrite (bool_decide_eq_true_2 (room_id ∈ rooms c ∪ {[room_id]}))
    by apply elem_of_union_singleton.
  done.
Qed.

Lemma joined_session_typing_is_relayed_witness :
  let c := {| user_id := "u1"; username := "alice"; rooms := ∅;
              connected_at := 100; ip_address := "10.0.0.1" |} in
  let data := Scenario.room "general" in
  let w := Scenario.one_session in
  let w' := exec (handle_join_room (Scenario.store_down 200) Scenario.A data) w in
  (dict_get "A" (active_connections w) = Some c
   ∧ join_admitted Scenario.A data w = true)
  ∧ handle_typing_start Scenario.A data w'
    = [(Others "general" "A", nt_user_typing "alice" "general" true)]
  ∧ handle_typing_stop Scenario.A data w'
    = [(Others "general" "A", nt_user_typing "alice" "general" false)].
Proof.
  intros c data w w'.
  split; [split; reflexivity|].
  exact (joined_session_typing_is_relayed (Scenario.store_down 200) Scenario.A
           data w c eq_refl eq_refl).
Defined.
